(** * wsidicom: tile index, offset tables and tile engine of [instance.py]

    A shallow embedding of the parts of [wsidicom/instance.py] that locate
    frames (offset-table parsing and writing), map tiles to frame numbers
    (full and sparse tile index) and cut and stitch tiles (image data), with
    the properties of the specification proved against it.

    Python integers are [Z]; lists are [list]; [set] is [gset] (its iteration
    order is the one of [elements]); exceptions are the [Err] results of an
    error monad; a file pointer is an explicit byte store with a position. *)

From Stdlib Require Import ZArith Lia Strings.Byte Sorting.Sorted.
From stdpp Require Import base option list strings gmap.

Open Scope Z_scope.

(** ** Exceptions *)

Inductive error : Type :=
  | WsiDicomNotFoundError (what : string)
  | WsiDicomOutOfBoundsError (what : string)
  | WsiDicomFileError (message : string)
  | ValueError (message : string)
  | NotImplementedError (message : string)
  | IndexError
  | AttributeError
  | StructError (message : string)
  | EOFError
  | OSError
  | RecursionError.

Inductive result (A : Type) : Type :=
  | Ok (a : A)
  | Err (e : error).
Arguments Ok {A} a.
Arguments Err {A} e.

#[global] Instance result_ret : MRet result := λ A a, Ok a.
#[global] Instance result_bind : MBind result := λ A B f m,
  match m with
  | Ok a => f a
  | Err e => Err e
  end.

#[global] Instance result_fmap : FMap result := λ A B f m,
  match m with
  | Ok a => Ok (f a)
  | Err e => Err e
  end.

Definition is_Ok {A} (r : result A) : Prop := ∃ a, r = Ok a.
Definition is_Err {A} (r : result A) : Prop := ∃ e, r = Err e.

(** [o] when present, else the exception [e]. *)
Definition or_raise {A} (o : option A) (e : error) : result A :=
  match o with
  | Some a => Ok a
  | None => Err e
  end.

(** Python's [for a in l: s = f(s, a)], left as soon as [f] raises. *)
Fixpoint for_each {S A} (f : S → A → result S) (l : list A) (s : S)
    : result S :=
  match l with
  | [] => Ok s
  | a :: l => s' ← f s a; for_each f l s'
  end.

(** Code that changes a state [S] and may raise. *)
Definition st (S A : Type) : Type := S → result (A * S).

#[global] Instance st_ret {S} : MRet (st S) := λ A a s, Ok (a, s).
#[global] Instance st_bind {S} : MBind (st S) := λ A B f m s,
  match m s with
  | Ok (a, s') => f a s'
  | Err e => Err e
  end.

#[global] Instance st_fmap {S} : FMap (st S) := λ A B f m s,
  match m s with
  | Ok (a, s') => Ok (f a, s')
  | Err e => Err e
  end.

Definition raise {S A} (e : error) : st S A := λ _, Err e.
Definition get {S} : st S S := λ s, Ok (s, s).
Definition put {S} (s : S) : st S () := λ _, Ok ((), s).
Definition lift {S A} (r : result A) : st S A := λ s,
  match r with
  | Ok a => Ok (a, s)
  | Err e => Err e
  end.

(** [for a in l: body(a)] on a state. *)
Fixpoint for_st {S A} (body : A → st S ()) (l : list A) : st S () :=
  match l with
  | [] => mret ()
  | a :: l => body a;; for_st body l
  end.

(** [range(start, stop, step)] for a positive step. *)
Definition py_range (start stop step : Z) : list Z :=
  (λ k, start + step * k) <$> seqZ 0 (- ((start - stop) / step)).

(** The item [l[i]] of a Python list: a negative index counts from the
    end. *)
Definition py_getitem {A} (l : list A) (i : Z) : result A :=
  let n := Z.of_nat (length l) in
  if decide (0 ≤ i) then or_raise (l !! Z.to_nat i) IndexError
  else if decide (- n ≤ i) then or_raise (l !! Z.to_nat (n + i)) IndexError
  else Err IndexError.

(** The slice [l[a:b]] for 0 <= a <= b. *)
Definition slice {A} (l : list A) (a b : Z) : list A :=
  take (Z.to_nat (b - a)) (drop (Z.to_nat a) l).

(** ** Geometry ([wsidicom.geometry]) *)

(** Modelled from the spec: the integer point of [wsidicom.geometry]. *)
Record Point : Type := mkPoint { x : Z; y : Z }.

(** Modelled from the spec: the integer size of [wsidicom.geometry]. *)
Record Size : Type := mkSize { width : Z; height : Z }.

(** Modelled from the spec: the region of [wsidicom.geometry], a position and
    a size. *)
Record Region : Type := mkRegion { position : Point; size : Size }.

#[global] Instance Point_eq_dec : EqDecision Point.
Proof. solve_decision. Defined.
#[global] Instance Size_eq_dec : EqDecision Size.
Proof. solve_decision. Defined.
#[global] Instance Region_eq_dec : EqDecision Region.
Proof. solve_decision. Defined.

(** Modelled from the spec: the division [/] of the geometry module
    [wsidicom.geometry], which [instance.py] imports and which is not among
    the sources. The spec makes the arithmetic of points and sizes
    component-wise and [//] the per-axis integer (floor) division; [/] rounds
    up, as the number of tile columns and rows that [ImageData.tiled_size]
    documents and the ranges that [test_get_tiles] expects require. A
    division by a zero size, an error in Python, is outside of the model:
    tile sizes are not zero. *)
Definition ceil_div (a b : Z) : Z := - ((- a) / b).

(** Modelled from the spec: [Size.area] of [wsidicom.geometry]. *)
Definition area (s : Size) : Z := width s * height s.

(** Modelled from the spec: [Size / Size] of [wsidicom.geometry], per axis,
    rounded up. *)
Definition Size_truediv (a b : Size) : Size :=
  mkSize (ceil_div (width a) (width b)) (ceil_div (height a) (height b)).

(** Modelled from the spec: [Size - int] of [wsidicom.geometry]. *)
Definition Size_sub_int (a : Size) (n : Z) : Size :=
  mkSize (width a - n) (height a - n).

(** Modelled from the spec: [Point // Size] of [wsidicom.geometry], the
    per-axis integer division. *)
Definition Point_floordiv (p : Point) (s : Size) : Point :=
  mkPoint (x p / width s) (y p / height s).

(** Modelled from the spec: [Point / Size] of [wsidicom.geometry], per axis,
    rounded up. *)
Definition Point_truediv (p : Point) (s : Size) : Point :=
  mkPoint (ceil_div (x p) (width s)) (ceil_div (y p) (height s)).

(** Modelled from the spec: [Point - int] of [wsidicom.geometry], per
    axis. *)
Definition Point_sub_int (p : Point) (n : Z) : Point :=
  mkPoint (x p - n) (y p - n).

(** Modelled from the spec: [Point - Point] of [wsidicom.geometry], per
    axis. *)
Definition Point_sub (p q : Point) : Point :=
  mkPoint (x p - x q) (y p - y q).

(** Modelled from the spec: [Point + Size] of [wsidicom.geometry], per
    axis. *)
Definition Point_add_size (p : Point) (s : Size) : Point :=
  mkPoint (x p + width s) (y p + height s).

(** Modelled from the spec: [Point * Size] of [wsidicom.geometry], per
    axis. *)
Definition Point_mul_size (p : Point) (s : Size) : Point :=
  mkPoint (x p * width s) (y p * height s).

(** Modelled from the spec: [Point.max] of [wsidicom.geometry], per axis. *)
Definition Point_max (p q : Point) : Point :=
  mkPoint (Z.max (x p) (x q)) (Z.max (y p) (y q)).

(** Modelled from the spec: [Point.min] of [wsidicom.geometry], per axis. *)
Definition Point_min (p q : Point) : Point :=
  mkPoint (Z.min (x p) (x q)) (Z.min (y p) (y q)).

(** Modelled from the spec: the derived [Region.start] of
    [wsidicom.geometry], the position of the region. *)
Definition start (r : Region) : Point := position r.

(** Modelled from the spec: the derived [Region.end] of [wsidicom.geometry],
    the position plus the size. *)
Definition end_ (r : Region) : Point := Point_add_size (position r) (size r).

(** Modelled from the spec: [Size.from_points] of [wsidicom.geometry], the
    size from the first point to the second. *)
Definition Size_from_points (p q : Point) : Size :=
  mkSize (x q - x p) (y q - y p).

(** Modelled from the spec: [Region.from_points] of [wsidicom.geometry], the
    region that starts at the first point and ends at the second. *)
Definition Region_from_points (p q : Point) : Region :=
  mkRegion p (Size_from_points p q).

(** Modelled from the spec: [Region.is_inside] of [wsidicom.geometry]:
    start and end within the other region, on both axes. *)
Definition is_inside (r test_region : Region) : bool :=
  bool_decide (x (start test_region) ≤ x (start r))
  && bool_decide (y (start test_region) ≤ y (start r))
  && bool_decide (x (end_ r) ≤ x (end_ test_region))
  && bool_decide (y (end_ r) ≤ y (end_ test_region)).

(** Modelled from the spec: [Region.iterate_all] of [wsidicom.geometry]:
    the points of the region row by row, x fastest; with [include_end] the end
    row and column are included. *)
Definition iterate_all (r : Region) (include_end : bool) : list Point :=
  let offset := if include_end then 1 else 0 in
  yy ← seqZ (y (start r)) (y (end_ r) + offset - y (start r));
  xx ← seqZ (x (start r)) (x (end_ r) + offset - x (start r));
  [mkPoint xx yy].

(** Modelled from the spec: [Region.inside_crop] of [wsidicom.geometry]: the
    intersection of the region with the tile at [point] of size [size],
    relative to the origin of the tile (the values of [test_crop_tile]). *)
Definition inside_crop (r : Region) (point : Point) (sz : Size) : Region :=
  let sub_region := mkRegion (Point_mul_size point sz) sz in
  let s := Point_max (start r) (start sub_region) in
  let e := Point_min (end_ r) (end_ sub_region) in
  mkRegion (Point_sub s (start sub_region)) (Size_from_points s e).

(** Modelled from the spec: [Region.box] of [wsidicom.geometry]: left, upper,
    right and lower. *)
Definition box (r : Region) : Z * Z * Z * Z :=
  (x (start r), y (start r), x (end_ r), y (end_ r)).

(** Modelled from the spec: [Region.box_from_origin] of [wsidicom.geometry]:
    the box of the size of the region at the origin. *)
Definition box_from_origin (r : Region) : Z * Z * Z * Z :=
  (0, 0, width (size r), height (size r)).

(** ** Floats

    Focal planes are Python floats. Their arithmetic and [round] are taken as
    operations of an interface; two floats are compared by [==]. *)
Class Float (F : Type) : Type := {
  float_eq_dec :: EqDecision F;
  float_countable :: Countable F;
  float_of_int : Z → F;
  float_mul : F → F → F;
  float_round : F → Z → F;
}.

(** ** Datasets ([WsiDataset]) *)

(** An item of an optical path sequence. *)
Record OpticalPathItem : Type := mkOpticalPathItem {
  OpticalPathIdentifier : option string;
}.

(** An item of the per-frame functional groups sequence: the first item of its
    plane position slide sequence, and its optical path identification
    sequence when it has one. *)
Record FrameItem (F : Type) : Type := mkFrameItem {
  RowPositionInTotalImagePixelMatrix : Z;
  ColumnPositionInTotalImagePixelMatrix : Z;
  ZOffsetInSlideCoordinateSystem : F;
  OpticalPathIdentificationSequence : option (list OpticalPathItem);
}.
Arguments mkFrameItem {F}.
Arguments RowPositionInTotalImagePixelMatrix {F}.
Arguments ColumnPositionInTotalImagePixelMatrix {F}.
Arguments ZOffsetInSlideCoordinateSystem {F}.
Arguments OpticalPathIdentificationSequence {F}.

Record WsiDataset (F : Type) : Type := mkWsiDataset {
  frame_offset : Z;
  frame_count : Z;
  tile_type : string;
  spacing_between_slices : F;
  number_of_focal_planes : Z;
  frame_sequence : list (FrameItem F);
  image_size : Size;
  tile_size : Size;
  optical_path_sequence : list OpticalPathItem;
  photometric_interpretation : string;
  samples_per_pixel : Z;
}.
Arguments mkWsiDataset {F}.
Arguments frame_offset {F}.
Arguments frame_count {F}.
Arguments tile_type {F}.
Arguments spacing_between_slices {F}.
Arguments number_of_focal_planes {F}.
Arguments frame_sequence {F}.
Arguments image_size {F}.
Arguments tile_size {F}.
Arguments optical_path_sequence {F}.
Arguments photometric_interpretation {F}.
Arguments samples_per_pixel {F}.

(** [WsiDataset.read_optical_path_identifier] *)
Definition read_optical_path_identifier {F} (self : WsiDataset F)
    (frame : FrameItem F) : result string :=
  let optical_sequence :=
    default (optical_path_sequence self)
            (OpticalPathIdentificationSequence frame) in
  item ← or_raise (optical_sequence !! 0%nat) IndexError;
  Ok (default "0"%string (OpticalPathIdentifier item)).

(** ** Tile index ([TileIndex], [FullTileIndex]) *)

Record TileIndex : Type := mkTileIndex {
  _image_size : Size;
  _tile_size : Size;
  _frame_count : Z;
  _optical_paths : list string;
  _tiled_size : Size;
}.

(** [TileIndex._read_frame_count_from_datasets] *)
Definition _read_frame_count_from_datasets {F}
    (datasets : list (WsiDataset F)) : Z :=
  foldl (λ count dataset, count + frame_count dataset) 0 datasets.

(** [TileIndex._get_path_identifers] *)
Definition _get_path_identifers (optical_path_sequence : list OpticalPathItem)
    : result (list string) :=
  ids ← mapM (λ optical_ds,
               or_raise (OpticalPathIdentifier optical_ds) AttributeError)
             optical_path_sequence;
  Ok (elements (list_to_set ids : gset string)).

(** [TileIndex._read_optical_paths_from_datasets] *)
Definition _read_optical_paths_from_datasets {F}
    (datasets : list (WsiDataset F)) : result (list string) :=
  paths ← for_each (λ (paths : gset string) dataset,
                      ids ← _get_path_identifers
                              (optical_path_sequence dataset);
                      Ok (paths ∪ list_to_set ids))
                   datasets ∅;
  Ok (elements paths).

(** [TileIndex.__init__] *)
Definition TileIndex_init {F} (datasets : list (WsiDataset F))
    : result TileIndex :=
  base_dataset ← or_raise (datasets !! 0%nat) IndexError;
  let image_size := image_size base_dataset in
  let tile_size := tile_size base_dataset in
  let frame_count := _read_frame_count_from_datasets datasets in
  optical_paths ← _read_optical_paths_from_datasets datasets;
  Ok {| _image_size := image_size;
        _tile_size := tile_size;
        _frame_count := frame_count;
        _optical_paths := optical_paths;
        _tiled_size := Size_truediv image_size tile_size |}.

Record FullTileIndex (F : Type) : Type := mkFullTileIndex {
  full_base : TileIndex;
  full_focal_planes : list F;
}.
Arguments mkFullTileIndex {F}.
Arguments full_base {F}.
Arguments full_focal_planes {F}.

(** The index of the first element equal to [v]:
    [next(index for index, item in enumerate(l) if item == v)]. *)
Definition enumerate_next `{EqDecision A} (l : list A) (v : A) : option nat :=
  fst <$> list_find (λ item, item = v) l.

Section tile_index.
Context `{Float F}.

(** [FullTileIndex._read_focal_planes_from_datasets] *)
Definition MM_TO_MICRON : Z := 1000.
Definition DECIMALS : Z := 3.

Definition focal_plane_z (slice_spacing : F) (plane : Z) : F :=
  float_round
    (float_mul (float_mul (float_of_int plane) slice_spacing)
               (float_of_int MM_TO_MICRON))
    DECIMALS.

Definition _read_focal_planes_from_datasets (datasets : list (WsiDataset F))
    : result (list F) :=
  focal_planes ← for_each (λ (focal_planes : gset F) dataset,
      let slice_spacing := spacing_between_slices dataset in
      let number_of_focal_planes := number_of_focal_planes dataset in
      if bool_decide (slice_spacing = float_of_int 0)
         && bool_decide (number_of_focal_planes ≠ 1)
      then Err (ValueError "")
      else Ok (foldl (λ focal_planes plane,
                        focal_planes ∪ {[ focal_plane_z slice_spacing plane ]})
                     focal_planes (seqZ 0 number_of_focal_planes)))
    datasets ∅;
  Ok (elements focal_planes).

(** [FullTileIndex.__init__] *)
Definition FullTileIndex_init (datasets : list (WsiDataset F))
    : result (FullTileIndex F) :=
  base ← TileIndex_init datasets;
  focal_planes ← _read_focal_planes_from_datasets datasets;
  Ok (mkFullTileIndex base focal_planes).

(** [FullTileIndex._get_optical_path_index] *)
Definition _get_optical_path_index (self : FullTileIndex F) (path : string)
    : result Z :=
  match enumerate_next (_optical_paths (full_base self)) path with
  | Some index => Ok (Z.of_nat index)
  | None => Err (WsiDicomNotFoundError "Optical path")
  end.

(** [FullTileIndex._get_focal_plane_index] *)
Definition _get_focal_plane_index (self : FullTileIndex F) (z : F)
    : result Z :=
  match enumerate_next (full_focal_planes self) z with
  | Some index => Ok (Z.of_nat index)
  | None => Err (WsiDicomNotFoundError "Z in instance")
  end.

(** [FullTileIndex.get_frame_index] *)
Definition Full_get_frame_index (self : FullTileIndex F) (tile : Point)
    (z : F) (path : string) : result Z :=
  let tiled_size := _tiled_size (full_base self) in
  let plane_offset := x tile + width tiled_size * y tile in
  z_index ← _get_focal_plane_index self z;
  let z_offset := z_index * area tiled_size in
  path_index ← _get_optical_path_index self path;
  let path_offset :=
    path_index * Z.of_nat (length (full_focal_planes self)) * area tiled_size in
  Ok (plane_offset + z_offset + path_offset).

(** ** Sparse tile index ([SparseTilePlane], [SparseTileIndex]) *)

(** A numpy array of shape (width, height): a list of columns. *)
Record SparseTilePlane : Type := mkSparseTilePlane {
  _shape : Size;
  plane : list (list Z);
}.

(** [SparseTilePlane.__init__]: [np.full(shape, -1)]. *)
Definition SparseTilePlane_init (tiled_size : Size) : result SparseTilePlane :=
  if decide (width tiled_size < 0 ∨ height tiled_size < 0)
  then Err (ValueError "negative dimensions are not allowed")
  else Ok {| _shape := tiled_size;
             plane :=
               replicate (Z.to_nat (width tiled_size))
                         (replicate (Z.to_nat (height tiled_size)) (-1)) |}.

(** The index that numpy uses along an axis of length [n]: a negative index
    counts from the end, an index out of range raises IndexError. *)
Definition np_index (n i : Z) : result nat :=
  if decide (0 ≤ i < n) then Ok (Z.to_nat i)
  else if decide (- n ≤ i < 0) then Ok (Z.to_nat (n + i))
  else Err IndexError.

(** [SparseTilePlane.__getitem__] *)
Definition SparseTilePlane_getitem (self : SparseTilePlane) (position : Point)
    : result Z :=
  i ← np_index (width (_shape self)) (x position);
  j ← np_index (height (_shape self)) (y position);
  column ← or_raise (plane self !! i) IndexError;
  or_raise (column !! j) IndexError.

(** [SparseTilePlane.__setitem__] *)
Definition SparseTilePlane_setitem (self : SparseTilePlane) (position : Point)
    (frame_index : Z) : result SparseTilePlane :=
  i ← np_index (width (_shape self)) (x position);
  j ← np_index (height (_shape self)) (y position);
  column ← or_raise (plane self !! i) IndexError;
  if decide (j < length column)%nat
  then Ok {| _shape := _shape self;
             plane :=
               <[i := <[j := frame_index]> column]>
                 (plane self) |}
  else Err IndexError.

Record SparseTileIndex : Type := mkSparseTileIndex {
  sparse_base : TileIndex;
  _planes : gmap (F * string) SparseTilePlane;
  sparse_focal_planes : list F;
}.

(** [SparseTileIndex._read_frame_coordinates] *)
Definition _read_frame_coordinates (tile_size : Size) (frame : FrameItem F)
    : Point * F :=
  let yy := RowPositionInTotalImagePixelMatrix frame - 1 in
  let xx := ColumnPositionInTotalImagePixelMatrix frame - 1 in
  let z := float_round (ZOffsetInSlideCoordinateSystem frame) DECIMALS in
  let tile := Point_floordiv (mkPoint xx yy) tile_size in
  (tile, z).

(** [enumerate(l)] *)
Definition enumerate {A} (l : list A) : list (Z * A) :=
  imap (λ i a, (Z.of_nat i, a)) l.

(** [SparseTileIndex._read_planes_from_datasets] *)
Definition _read_planes_from_datasets (self : TileIndex)
    (datasets : list (WsiDataset F))
    : result (gmap (F * string) SparseTilePlane) :=
  for_each (λ planes dataset,
    for_each (λ (planes : gmap (F * string) SparseTilePlane) '(i, frame),
      let '(tile, z) := _read_frame_coordinates (_tile_size self) frame in
      identifier ← read_optical_path_identifier dataset frame;
      '(plane, planes) ←
        match planes !! (z, identifier) with
        | Some plane => Ok (plane, planes)
        | None =>
            plane ← SparseTilePlane_init (_tiled_size self);
            Ok (plane, <[(z, identifier) := plane]> planes)
        end;
      plane ← SparseTilePlane_setitem plane tile (i + frame_offset dataset);
      Ok (<[(z, identifier) := plane]> planes))
    (enumerate (frame_sequence dataset)) planes)
  datasets ∅.

(** [SparseTileIndex._get_focal_planes] *)
Definition _get_focal_planes (planes : gmap (F * string) SparseTilePlane)
    : list F :=
  elements (set_map fst (dom planes) : gset F).

(** [SparseTileIndex.__init__] *)
Definition SparseTileIndex_init (datasets : list (WsiDataset F))
    : result SparseTileIndex :=
  base ← TileIndex_init datasets;
  planes ← _read_planes_from_datasets base datasets;
  Ok {| sparse_base := base;
        _planes := planes;
        sparse_focal_planes := _get_focal_planes planes |}.

(** [SparseTileIndex.get_frame_index] *)
Definition Sparse_get_frame_index (self : SparseTileIndex) (tile : Point)
    (z : F) (path : string) : result Z :=
  plane ← or_raise (_planes self !! (z, path))
                   (WsiDicomNotFoundError "Plane with z, path");
  SparseTilePlane_getitem plane tile.

End tile_index.
Arguments SparseTileIndex F {_}.

(** ** Byte strings and [struct] *)

Definition bytes : Type := list byte.

Definition byte_to_Z (b : byte) : Z := Z.of_N (Byte.to_N b).
Definition byte_of_Z (v : Z) : byte :=
  default x00 (Byte.of_N (Z.to_N (v `mod` 256))).

(** The unsigned integer of a little-endian byte string. *)
Definition le_to_Z (data : bytes) : Z :=
  foldr (λ b acc, byte_to_Z b + 256 * acc) 0 data.

(** The [n] little-endian bytes of an unsigned integer. *)
Fixpoint Z_to_le (n : nat) (v : Z) : bytes :=
  match n with
  | O => []
  | S n => byte_of_Z v :: Z_to_le n (v `div` 256)
  end.

Inductive byte_order : Type := LittleEndian | BigEndian.

(** The unsigned integer of a byte string in a byte order. *)
Definition bytes_to_Z (order : byte_order) (data : bytes) : Z :=
  match order with
  | LittleEndian => le_to_Z data
  | BigEndian => le_to_Z (reverse data)
  end.

(** [struct.unpack] of one unsigned integer of [n] bytes ('H', 'L', 'Q'):
    the data must have exactly [n] bytes. *)
Definition unpack (order : byte_order) (n : nat) (data : bytes) : result Z :=
  if decide (length data = n) then Ok (bytes_to_Z order data)
  else Err (StructError "unpack requires a buffer of the size of the format").

(** [struct.pack] of one unsigned integer of [n] bytes: the value must fit. *)
Definition pack (order : byte_order) (n : nat) (v : Z) : result bytes :=
  if decide (0 ≤ v < 2 ^ (8 * Z.of_nat n))
  then Ok match order with
          | LittleEndian => Z_to_le n v
          | BigEndian => reverse (Z_to_le n v)
          end
  else Err (StructError "argument out of range").

(** The byte order of the host, for [struct] formats without an order
    prefix. *)
Definition native_order : byte_order := LittleEndian.

(** ** File pointers ([pydicom.filebase.DicomFile]) *)

Record DicomFile : Type := mkDicomFile {
  fp_data : bytes;
  fp_pos : Z;
  is_little_endian : bool;
  is_implicit_VR : bool;
}.

Definition fp_order (fp : DicomFile) : byte_order :=
  if is_little_endian fp then LittleEndian else BigEndian.

Definition set_pos (fp : DicomFile) (pos : Z) : DicomFile :=
  {| fp_data := fp_data fp; fp_pos := pos;
     is_little_endian := is_little_endian fp;
     is_implicit_VR := is_implicit_VR fp |}.

Definition set_data (fp : DicomFile) (data : bytes) : DicomFile :=
  {| fp_data := data; fp_pos := fp_pos fp;
     is_little_endian := is_little_endian fp;
     is_implicit_VR := is_implicit_VR fp |}.

(** [fp.tell()] *)
Definition tell : st DicomFile Z := fp ← get; mret (fp_pos fp).

(** [fp.seek(offset)]: to an absolute position. *)
Definition seek (offset : Z) : st DicomFile () :=
  fp ← get;
  if decide (offset < 0) then raise OSError else put (set_pos fp offset).

(** [fp.seek(offset, 1)]: relative to the current position. *)
Definition seek_cur (offset : Z) : st DicomFile () :=
  fp ← get; seek (fp_pos fp + offset).

(** [fp.read(length)]: the bytes at the position, fewer at the end of the
    file. *)
Definition read (length : Z) : st DicomFile bytes :=
  fp ← get;
  let data := take (Z.to_nat length) (drop (Z.to_nat (fp_pos fp)) (fp_data fp)) in
  put (set_pos fp (fp_pos fp + Z.of_nat (List.length data)));;
  mret data.

(** [fp.read(length, need_exact_length=True)] *)
Definition read_exact (length : Z) : st DicomFile bytes :=
  data ← read length;
  if decide (Z.of_nat (List.length data) < length) then raise EOFError
  else mret data.

(** [fp.write(data)]: over the bytes at the position, zero-filling a gap
    after the end of the file. *)
Definition write (data : bytes) : st DicomFile () :=
  fp ← get;
  let pos := Z.to_nat (fp_pos fp) in
  let old := fp_data fp in
  let padded := old ++ replicate (pos - List.length old)%nat x00 in
  put (set_pos
         (set_data fp (take pos padded ++ data
                       ++ drop (pos + List.length data)%nat padded))
         (fp_pos fp + Z.of_nat (List.length data))).

(** [fp.read_US()] and [fp.read_UL()] *)
Definition read_US : st DicomFile Z :=
  fp ← get; data ← read 2; lift (unpack (fp_order fp) 2 data).
Definition read_UL : st DicomFile Z :=
  fp ← get; data ← read 4; lift (unpack (fp_order fp) 4 data).

(** [fp.write_US(value)] and [fp.write_UL(value)] *)
Definition write_US (value : Z) : st DicomFile () :=
  fp ← get; data ← lift (pack (fp_order fp) 2 value); write data.
Definition write_UL (value : Z) : st DicomFile () :=
  fp ← get; data ← lift (pack (fp_order fp) 4 value); write data.

(** Tags are 32-bit integers: group and element. *)
Definition ItemTag : Z := 0xFFFEE000.
Definition SequenceDelimiterTag : Z := 0xFFFEE0DD.
Definition PixelDataTag : Z := 0x7FE00010.
Definition ExtendedOffsetTableTag : Z := 0x7FE00001.
Definition ExtendedOffsetTableLengthsTag : Z := 0x7FE00002.

(** [fp.read_tag()]: group and element, two unsigned shorts. *)
Definition read_tag : st DicomFile Z :=
  fp ← get;
  data ← read_exact 4;
  group ← lift (unpack (fp_order fp) 2 (take 2 data));
  element ← lift (unpack (fp_order fp) 2 (drop 2 data));
  mret (group * 65536 + element).

(** [fp.write_tag(tag)] *)
Definition write_tag (tag : Z) : st DicomFile () :=
  write_US (tag `div` 65536);; write_US (tag `mod` 65536).

(** ** Files ([MetaWsiDicomFile], [WsiDicomFile]) *)

(** [MetaWsiDicomFile._read_tag_length] *)
Definition _read_tag_length (with_vr : bool) : st DicomFile Z :=
  fp ← get;
  (if negb (is_implicit_VR fp) && with_vr
   then _ ← read_UL; mret ()
   else mret ());;
  read_UL.

(** [MetaWsiDicomFile._check_tag_and_length] *)
Definition _check_tag_and_length (tag length : Z) (with_vr : bool)
    : st DicomFile () :=
  read_tag ← read_tag;
  if decide (tag ≠ read_tag) then raise (ValueError "Found tag, expected tag")
  else
    read_length ← _read_tag_length with_vr;
    if decide (length ≠ read_length)
    then raise (ValueError "Found length, expected length")
    else mret ().

(** [WsiDicomFile._read_sequence_delimiter] *)
Definition _read_sequence_delimiter : st DicomFile () :=
  let TAG_BYTES := 4 in
  seek_cur (- TAG_BYTES);;
  tag ← read_tag;
  if decide (tag ≠ SequenceDelimiterTag)
  then raise (WsiDicomFileError "No sequence delimeter tag")
  else mret ().

(** [WsiDicomFile._read_bot] *)
Definition _read_bot : st DicomFile (option bytes) :=
  let BOT_BYTES := 4 in
  tag ← read_tag;
  if decide (tag ≠ ItemTag)
  then raise (WsiDicomFileError
                "Basic offset table did not start with an ItemTag")
  else
    bot_length ← read_UL;
    if decide (bot_length = 0) then mret None
    else if decide (bot_length `mod` BOT_BYTES ≠ 0)
    then raise (WsiDicomFileError
                  "Basic offset table should be a multiple of 4 bytes")
    else
      bot ← read bot_length;
      mret (Some bot).

(** [WsiDicomFile._read_eot] *)
Definition _read_eot : st DicomFile bytes :=
  let EOT_BYTES := 8 in
  eot_length ← _read_tag_length true;
  if decide (eot_length = 0)
  then raise (WsiDicomFileError
                "Expected Extended offset table present but empty")
  else if decide (eot_length `mod` EOT_BYTES ≠ 0)
  then raise (WsiDicomFileError
                "Extended offset table should be a multiple of 8 bytes")
  else
    eot ← read eot_length;
    tag ← read_tag;
    if decide (tag ≠ ExtendedOffsetTableLengthsTag)
    then raise (WsiDicomFileError
                  "Expected Extended offset table lengths tag")
    else
      length ← _read_tag_length true;
      seek_cur length;;
      mret eot.

(** A frame length that the parser refuses: [length == 0 or length % 2]. *)
Definition invalid_frame_length (length : Z) : Prop :=
  length = 0 ∨ length `mod` 2 ≠ 0.

#[global] Instance invalid_frame_length_dec length :
  Decision (invalid_frame_length length).
Proof. unfold invalid_frame_length. apply _. Defined.

(** [WsiDicomFile._parse_table] *)
Definition _parse_table (table : bytes) (table_type : string)
    (pixels_start : Z) : st DicomFile (list (Z * Z)) :=
  fp ← get;
  let mode := fp_order fp in
  '(bytes_per_item, mode) ←
    (if decide (table_type = "bot") then mret (4, mode)
     else if decide (table_type = "eot") then mret (8, native_order)
     else raise (ValueError "table type should be 'bot' or 'eot'"));
  let table_length := Z.of_nat (length table) in
  let TAG_BYTES := 4 in
  let LENGHT_BYTES := 4 in
  this_offset ← lift (unpack mode (Z.to_nat bytes_per_item)
                             (slice table 0 bytes_per_item));
  '(this_offset, positions) ← lift (for_each
    (λ '(this_offset, positions) index,
       next_offset ← unpack mode (Z.to_nat bytes_per_item)
                            (slice table index (index + bytes_per_item));
       let offset := this_offset + TAG_BYTES + LENGHT_BYTES in
       let length := next_offset - offset in
       if decide (invalid_frame_length length)
       then Err (WsiDicomFileError "Invalid frame length")
       else Ok (next_offset, positions ++ [(pixels_start + offset, length)]))
    (py_range bytes_per_item table_length bytes_per_item)
    (this_offset, []));
  seek (pixels_start + this_offset);;
  tag ← read_tag;
  if decide (tag ≠ ItemTag)
  then raise (WsiDicomFileError "Excepcted ItemTag in PixelData")
  else
    length ← read_UL;
    if decide (invalid_frame_length length)
    then raise (WsiDicomFileError "Invalid frame length")
    else
      let offset := this_offset + TAG_BYTES + LENGHT_BYTES in
      mret (positions ++ [(pixels_start + offset, length)]).

(** The loop of [WsiDicomFile._read_positions_from_pixeldata]: items are read
    while the tag read is [ItemTag]. Every turn moves the position forward
    and ends at the end of the file at the latest, so that [fuel] turns, one
    more than the file has bytes, are never used up. *)
Fixpoint read_items (fuel : nat) (frame_position : Z)
    (positions : list (Z * Z)) : st DicomFile (list (Z * Z)) :=
  let TAG_BYTES := 4 in
  let LENGHT_BYTES := 4 in
  match fuel with
  | O => raise RecursionError
  | S fuel =>
      tag ← read_tag;
      if decide (tag = ItemTag) then
        length ← read_UL;
        if decide (invalid_frame_length length)
        then raise (WsiDicomFileError "Invalid frame length")
        else
          seek_cur length;;
          next_position ← tell;
          read_items fuel next_position
            (positions
             ++ [(frame_position + TAG_BYTES + LENGHT_BYTES, length)])
      else mret positions
  end.

(** [WsiDicomFile._read_positions_from_pixeldata] *)
Definition _read_positions_from_pixeldata : st DicomFile (list (Z * Z)) :=
  fp ← get;
  frame_position ← tell;
  positions ← read_items (S (length (fp_data fp))) frame_position [];
  _read_sequence_delimiter;;
  mret positions.

(** [WsiDicomFile._parse_pixel_data]; the error for a tag other than
    PixelData is built but not raised. *)
Definition _parse_pixel_data (frame_count : Z) : st DicomFile (list (Z * Z)) :=
  pixel_data_or_eot_tag ← read_tag;
  '(table_type, table, pixel_data_tag) ←
    (if decide (pixel_data_or_eot_tag = ExtendedOffsetTableTag) then
       table ← _read_eot;
       pixel_data_tag ← read_tag;
       mret ("eot", Some table, pixel_data_tag)
     else mret ("bot", None, pixel_data_or_eot_tag));
  length ← _read_tag_length true;
  if decide (length ≠ 0xFFFFFFFF)
  then raise (WsiDicomFileError
                "Expected undefined length when reading Pixel data")
  else
    bot ← _read_bot;
    table ← match bot, table with
            | Some _, Some _ =>
                raise (WsiDicomFileError "Both BOT and EOT present")
            | Some bot, None => mret (Some bot)
            | None, _ => mret table
            end;
    frame_positions ← match table with
                      | None => _read_positions_from_pixeldata
                      | Some table =>
                          pixels_start ← tell;
                          _parse_table table table_type pixels_start
                      end;
    if decide (frame_count ≠ Z.of_nat (List.length frame_positions))
    then raise (WsiDicomFileError
                  "Frame count != Fragments. Fragmented frames are not supported")
    else mret frame_positions.

Record WsiDicomFile (F : Type) : Type := mkWsiDicomFile {
  _fp : DicomFile;
  file_dataset : WsiDataset F;
  file_frame_offset : Z;
  file_frame_count : Z;
  file_frame_positions : list (Z * Z);
}.
Arguments mkWsiDicomFile {F}.
Arguments _fp {F}.
Arguments file_dataset {F}.
Arguments file_frame_offset {F}.
Arguments file_frame_count {F}.
Arguments file_frame_positions {F}.

Definition set_fp {F} (file : WsiDicomFile F) (fp : DicomFile)
    : WsiDicomFile F :=
  {| _fp := fp; file_dataset := file_dataset file;
     file_frame_offset := file_frame_offset file;
     file_frame_count := file_frame_count file;
     file_frame_positions := file_frame_positions file |}.

(** [WsiDicomFile.get_filepointer]: position and length of a frame. *)
Definition File_get_filepointer {F} (self : WsiDicomFile F) (frame_index : Z)
    : result (Z * Z) :=
  let frame_index := frame_index - file_frame_offset self in
  py_getitem (file_frame_positions self) frame_index.

(** [WsiDicomFile.read_frame] *)
Definition read_frame {F} (frame_index : Z) : st (WsiDicomFile F) bytes :=
  λ self,
    '(frame_position, frame_length) ← File_get_filepointer self frame_index;
    '(frame, fp) ← (seek frame_position;; read frame_length) (_fp self);
    Ok (frame, set_fp self fp).

(** ** Images (Pillow)

    The image library is an interface: images are made, opened from encoded
    bytes, cropped to a box (left, upper, right, lower), pasted at a
    position and saved as encoded bytes. [Image_crop] returns a new image and
    leaves its argument as it is. *)

Inductive image_option : Type :=
  | quality (q : Z)
  | irreversible (b : bool).

Class Pillow (Image : Type) : Type := {
  Image_new : string → Size → option (list Z) → Image;
  Image_open : bytes → Image;
  Image_size : Image → Size;
  Image_crop : Image → Z * Z * Z * Z → Image;
  Image_paste : Image → Image → Z * Z → Image;
  Image_save : Image → string → list image_option → bytes;
}.

(** Transfer syntax UIDs of [pydicom.uid]. *)
Definition JPEGBaseline8Bit : string := "1.2.840.10008.1.2.4.50".
Definition JPEG2000Lossless : string := "1.2.840.10008.1.2.4.90".
Definition JPEG2000 : string := "1.2.840.10008.1.2.4.91".

(** ** Image data ([ImageData], [WsiDicomImageData]) *)

(** A stable sort by an integer key: [sorted(l, key=key)]. *)
Fixpoint insert_sorted {A} (key : A → Z) (a : A) (l : list A) : list A :=
  match l with
  | [] => [a]
  | b :: l' =>
      if decide (key a < key b) then a :: l else b :: insert_sorted key a l'
  end.
Definition sorted {A} (key : A → Z) (l : list A) : list A :=
  foldl (λ acc a, insert_sorted key a acc) [] l.

(** An [OrderedDict]: the items in the order in which their keys were first
    set. *)
Fixpoint dict_set {V} (d : list (Z * V)) (k : Z) (v : V) : list (Z * V) :=
  match d with
  | [] => [(k, v)]
  | (k', v') :: d' =>
      if decide (k = k') then (k, v) :: d' else (k', v') :: dict_set d' k v
  end.
Definition OrderedDict {V} (items : list (Z * V)) : list (Z * V) :=
  foldl (λ d '(k, v), dict_set d k v) [] items.

Section image_data.
Context `{Float F} `{Pillow Image}.

Inductive TileIndexOf : Type :=
  | Full (index : FullTileIndex F)
  | Sparse (index : SparseTileIndex F).

Definition tiles_base (tiles : TileIndexOf) : TileIndex :=
  match tiles with
  | Full index => full_base index
  | Sparse index => sparse_base index
  end.

(** [TileIndex.focal_planes] of either index. *)
Definition tiles_focal_planes (tiles : TileIndexOf) : list F :=
  match tiles with
  | Full index => full_focal_planes index
  | Sparse index => sparse_focal_planes index
  end.

(** [TileIndex.get_frame_index] of either index. *)
Definition tiles_get_frame_index (tiles : TileIndexOf) (tile : Point) (z : F)
    (path : string) : result Z :=
  match tiles with
  | Full index => Full_get_frame_index index tile z path
  | Sparse index => Sparse_get_frame_index index tile z path
  end.

Record WsiDicomImageData : Type := mkWsiDicomImageData {
  _files : list (Z * WsiDicomFile F);
  tiles : TileIndexOf;
  _transfer_syntax : string;
  _photometric_interpretation : string;
  _samples_per_pixel : Z;
  _blank_tile : option Image;
  _encoded_blank_tile : option bytes;
}.

Definition set_files (self : WsiDicomImageData)
    (files : list (Z * WsiDicomFile F)) : WsiDicomImageData :=
  {| _files := files; tiles := tiles self;
     _transfer_syntax := _transfer_syntax self;
     _photometric_interpretation := _photometric_interpretation self;
     _samples_per_pixel := _samples_per_pixel self;
     _blank_tile := _blank_tile self;
     _encoded_blank_tile := _encoded_blank_tile self |}.

Definition set_blank_tile (self : WsiDicomImageData) (image : Image)
    : WsiDicomImageData :=
  {| _files := _files self; tiles := tiles self;
     _transfer_syntax := _transfer_syntax self;
     _photometric_interpretation := _photometric_interpretation self;
     _samples_per_pixel := _samples_per_pixel self;
     _blank_tile := Some image;
     _encoded_blank_tile := _encoded_blank_tile self |}.

Definition set_encoded_blank_tile (self : WsiDicomImageData) (frame : bytes)
    : WsiDicomImageData :=
  {| _files := _files self; tiles := tiles self;
     _transfer_syntax := _transfer_syntax self;
     _photometric_interpretation := _photometric_interpretation self;
     _samples_per_pixel := _samples_per_pixel self;
     _blank_tile := _blank_tile self;
     _encoded_blank_tile := Some frame |}.

(** [WsiDicomImageData.__init__], from the files and the transfer syntax of
    the first one. *)
Definition WsiDicomImageData_init (files : list (WsiDicomFile F))
    (transfer_syntax : string) : result WsiDicomImageData :=
  let _files :=
    OrderedDict ((λ file, (file_frame_offset file, file))
                 <$> sorted file_frame_offset files) in
  base_file ← or_raise (files !! 0%nat) IndexError;
  let datasets := (λ item, file_dataset item.2) <$> _files in
  tiles ← (if decide (tile_type (file_dataset base_file) = "TILED_FULL")
           then Full <$> FullTileIndex_init datasets
           else Sparse <$> SparseTileIndex_init datasets);
  first ← or_raise (datasets !! 0%nat) IndexError;
  Ok {| _files := _files;
        tiles := tiles;
        _transfer_syntax := transfer_syntax;
        _photometric_interpretation := photometric_interpretation first;
        _samples_per_pixel := samples_per_pixel first;
        _blank_tile := None;
        _encoded_blank_tile := None |}.

Implicit Types (self : WsiDicomImageData).

(** The properties [image_size], [tile_size], [focal_planes],
    [optical_paths], [tiled_size], [image_region] and [plane_region]. *)
Definition ImageData_image_size self : Size := _image_size (tiles_base (tiles self)).
Definition ImageData_tile_size self : Size := _tile_size (tiles_base (tiles self)).
Definition focal_planes self : list F := tiles_focal_planes (tiles self).
Definition optical_paths self : list string :=
  _optical_paths (tiles_base (tiles self)).
Definition tiled_size self : Size :=
  Size_truediv (ImageData_image_size self) (ImageData_tile_size self).
Definition image_region self : Region :=
  mkRegion (mkPoint 0 0) (ImageData_image_size self).
Definition plane_region self : Region :=
  mkRegion (mkPoint 0 0) (Size_sub_int (tiled_size self) 1).

(** [ImageData.image_mode] *)
Definition image_mode self : result string :=
  if decide (_samples_per_pixel self = 1) then Ok "L"%string
  else if decide (_samples_per_pixel self = 3) then Ok "RGB"%string
  else Err (NotImplementedError "").

(** [ImageData._get_blank_color] and [ImageData.blank_color] *)
Definition _get_blank_color (photometric_interpretation : string)
    : list Z :=
  let BLACK := 0 in
  let WHITE := 255 in
  if decide (photometric_interpretation = "MONOCHROME2")
  then [BLACK; BLACK; BLACK]
  else [WHITE; WHITE; WHITE].
Definition blank_color self : list Z :=
  _get_blank_color (_photometric_interpretation self).

(** [ImageData._create_blank_tile] *)
Definition _create_blank_tile self : result Image :=
  mode ← image_mode self;
  Ok (Image_new mode (ImageData_tile_size self)
        (Some (take (Z.to_nat (_samples_per_pixel self)) (blank_color self)))).

(** [ImageData._image_settings] *)
Definition _image_settings (transfer_syntax : string)
    : result (string * list image_option) :=
  if decide (transfer_syntax = JPEGBaseline8Bit)
  then Ok ("jpeg"%string, [quality 95])
  else if decide (transfer_syntax = JPEG2000)
  then Ok ("jpeg2000"%string, [irreversible true])
  else if decide (transfer_syntax = JPEG2000Lossless)
  then Ok ("jpeg2000"%string, [irreversible false])
  else Err (NotImplementedError "Only supports jpeg and jpeg2000").

(** [ImageData.encode] *)
Definition encode self (image : Image) : result bytes :=
  '(image_format, image_options) ← _image_settings (_transfer_syntax self);
  Ok (Image_save image image_format image_options).

(** [ImageData.blank_tile]: made at the first use and kept. *)
Definition blank_tile : st WsiDicomImageData Image := λ self,
  match _blank_tile self with
  | Some image => Ok (image, self)
  | None =>
      image ← _create_blank_tile self;
      Ok (image, set_blank_tile self image)
  end.

(** [ImageData.blank_encoded_tile]: made at the first use and kept. *)
Definition blank_encoded_tile : st WsiDicomImageData bytes := λ self,
  match _encoded_blank_tile self with
  | Some frame => Ok (frame, self)
  | None =>
      '(image, self) ← blank_tile self;
      frame ← encode self image;
      Ok (frame, set_encoded_blank_tile self frame)
  end.

(** [ImageData.valid_tiles] *)
Definition valid_tiles self (region : Region) (z : F) (path : string) : bool :=
  is_inside region (plane_region self)
  && bool_decide (z ∈ focal_planes self)
  && bool_decide (path ∈ optical_paths self).

(** [WsiDicomImageData._get_file]: the key and the file. *)
Definition _get_file self (frame_index : Z) : result (Z * WsiDicomFile F) :=
  or_raise
    (snd <$> list_find
       (λ item : Z * WsiDicomFile F,
          let frame_offset := item.1 in
          let file := item.2 in
          (frame_index < frame_offset + file_frame_count file
           ∧ frame_index >= frame_offset)%Z)
       (_files self))
    (WsiDicomNotFoundError "Frame index").

(** [WsiDicomImageData._get_tile_frame]; the read moves the file pointer of
    the file. *)
Definition _get_tile_frame (frame_index : Z) : st WsiDicomImageData bytes :=
  λ self,
    '(key, file) ← _get_file self frame_index;
    '(tile_frame, file) ← read_frame frame_index file;
    Ok (tile_frame, set_files self (dict_set (_files self) key file)).

(** [WsiDicomImageData._get_frame_index] *)
Definition _get_frame_index self (tile : Point) (z : F) (path : string)
    : result Z :=
  let tile_region := mkRegion tile (mkSize 0 0) in
  if negb (valid_tiles self tile_region z path)
  then Err (WsiDicomOutOfBoundsError "Tile region")
  else tiles_get_frame_index (tiles self) tile z path.

(** [WsiDicomImageData._get_encoded_tile] *)
Definition _get_encoded_tile (tile : Point) (z : F) (path : string)
    : st WsiDicomImageData bytes :=
  self ← get;
  frame_index ← lift (_get_frame_index self tile z path);
  if decide (frame_index = -1) then blank_encoded_tile
  else _get_tile_frame frame_index.

(** [WsiDicomImageData._get_decoded_tile] *)
Definition _get_decoded_tile (tile_point : Point) (z : F) (path : string)
    : st WsiDicomImageData Image :=
  self ← get;
  frame_index ← lift (_get_frame_index self tile_point z path);
  if decide (frame_index = -1) then blank_tile
  else
    frame ← _get_tile_frame frame_index;
    mret (Image_open frame).

(** The argument [crop] of [get_tile] and [get_encoded_tile]: a bool or a
    region. *)
Inductive crop_arg : Type :=
  | CropBool (b : bool)
  | CropRegion (region : Region).

(** [ImageData.get_tile] *)
Definition get_tile (tile : Point) (z : F) (path : string) (crop : crop_arg)
    : st WsiDicomImageData Image :=
  image ← _get_decoded_tile tile z path;
  match crop with
  | CropBool false => mret image
  | _ =>
      self ← get;
      let crop := match crop with
                  | CropBool _ => image_region self
                  | CropRegion region => region
                  end in
      let tile_crop := inside_crop crop tile (ImageData_tile_size self) in
      if decide (size tile_crop = ImageData_tile_size self) then mret image
      else mret (Image_crop image (box tile_crop))
  end.

(** [ImageData.get_encoded_tile]: the image returned by [image.crop] is
    dropped and the opened image is encoded. *)
Definition get_encoded_tile (tile : Point) (z : F) (path : string)
    (crop : crop_arg) : st WsiDicomImageData bytes :=
  tile_frame ← _get_encoded_tile tile z path;
  match crop with
  | CropBool false => mret tile_frame
  | _ =>
      self ← get;
      let crop := match crop with
                  | CropBool _ => image_region self
                  | CropRegion region => region
                  end in
      let cropped_tile_region :=
        inside_crop crop tile (ImageData_tile_size self) in
      if decide (size cropped_tile_region ≠ ImageData_tile_size self) then
        let image := Image_open tile_frame in
        let _ := Image_crop image (box_from_origin cropped_tile_region) in
        lift (encode self image)
      else mret tile_frame
  end.

(** [ImageData.get_tile_range] *)
Definition get_tile_range self (pixel_region : Region) (z : F)
    (path : string) : result Region :=
  let start := Point_floordiv (start pixel_region) (ImageData_tile_size self) in
  let end_ := Point_sub_int
                (Point_truediv (end_ pixel_region) (ImageData_tile_size self))
                1 in
  let tile_region := Region_from_points start end_ in
  if negb (valid_tiles self tile_region z path)
  then Err (WsiDicomOutOfBoundsError "Tile region")
  else Ok tile_region.

(** [ImageData._write_indexer] *)
Definition _write_indexer (index : Point) (previous_size image_size : Size)
    : Point :=
  let index := mkPoint (x index + width previous_size) (y index) in
  if decide (x index >= width image_size)
  then mkPoint 0 (y index + height previous_size)
  else index.

(** The calls [image.paste(tile_image, write_index)] of
    [ImageData.stitch_tiles], in order. *)
Fixpoint stitch_pastes (tiles : list Point) (z : F) (path : string)
    (region : Region) (write_index : Point)
    : st WsiDicomImageData (list (Image * Point)) :=
  match tiles with
  | [] => mret []
  | tile :: tiles =>
      tile_image ← get_tile tile z path (CropRegion region);
      let next := _write_indexer write_index (Image_size tile_image)
                                 (size region) in
      pastes ← stitch_pastes tiles z path region next;
      mret ((tile_image, write_index) :: pastes)
  end.

(** [ImageData.stitch_tiles] *)
Definition stitch_tiles (region : Region) (path : string) (z : F)
    : st WsiDicomImageData Image :=
  self ← get;
  mode ← lift (image_mode self);
  let image := Image_new mode (size region) None in
  stitching_tiles ← lift (get_tile_range self region z path);
  let write_index := mkPoint 0 0 in
  pastes ← stitch_pastes (iterate_all stitching_tiles true) z path region
                         write_index;
  mret (foldl (λ image '(tile_image, write_index),
                 Image_paste image tile_image (x write_index, y write_index))
              image pastes).

End image_data.
Arguments TileIndexOf F {_}.
Arguments WsiDicomImageData F {_} Image.

(** ** Writer ([WsiDicomFileWriter]) *)

(** [WsiDicomFileWriter._write_unsigned_long_long]: [pack('<Q', value)]. *)
Definition _write_unsigned_long_long (value : Z) : st DicomFile () :=
  data ← lift (pack LittleEndian 8 value); write data.

(** [WsiDicomFileWriter._write_tag]; [None] is the undefined length. *)
Definition _write_tag (tag : Z) (value_representation : bytes)
    (length : option Z) : st DicomFile () :=
  write_tag tag;;
  write value_representation;;
  write_US 0;;
  match length with
  | Some length => write_UL length
  | None => write_UL 0xFFFFFFFF
  end.

(** The value representations 'OV' and 'OB' in iso8859. *)
Definition VR_OV : bytes := [x4f; x56].
Definition VR_OB : bytes := [x4f; x42].

(** [WsiDicomFileWriter._reserve_eot] *)
Definition _reserve_eot (number_of_frames : Z) : st DicomFile Z :=
  table_start ← tell;
  let BYTES_PER_ITEM := 8 in
  let eot_length := BYTES_PER_ITEM * number_of_frames in
  _write_tag ExtendedOffsetTableTag VR_OV (Some eot_length);;
  for_st (λ _, _write_unsigned_long_long 0) (seqZ 0 number_of_frames);;
  _write_tag ExtendedOffsetTableLengthsTag VR_OV (Some eot_length);;
  for_st (λ _, _write_unsigned_long_long 0) (seqZ 0 number_of_frames);;
  mret table_start.

(** [WsiDicomFileWriter._reserve_bot] *)
Definition _reserve_bot (number_of_frames : Z) : st DicomFile Z :=
  table_start ← tell;
  let BYTES_PER_ITEM := 4 in
  let tag_lengths := BYTES_PER_ITEM * number_of_frames in
  write_tag ItemTag;;
  write_UL tag_lengths;;
  for_st (λ _, write_UL 0) (seqZ 0 number_of_frames);;
  mret table_start.

(** [WsiDicomFileWriter._write_pixel_data_start]; the offset table is 'bot',
    'eot' or [None]. *)
Definition _write_pixel_data_start (number_of_frames : Z)
    (offset_table : option string) : st DicomFile (option Z * Z) :=
  table_start ← (if decide (offset_table = Some "eot"%string)
                 then Some <$> _reserve_eot number_of_frames
                 else mret None);
  _write_tag PixelDataTag VR_OB None;;
  table_start ← (if decide (offset_table = Some "bot"%string)
                 then Some <$> _reserve_bot number_of_frames
                 else write_tag ItemTag;; write_UL 0;; mret table_start);
  pixel_data_start ← tell;
  mret (table_start, pixel_data_start).

(** [WsiDicomFileWriter._write_bot] *)
Definition _write_bot (bot_start pixel_data_start : Z)
    (frame_positions : list Z) : st DicomFile () :=
  let BYTES_PER_ITEM := 4 in
  last_position ← lift (py_getitem frame_positions (-1));
  let last_entry := last_position - pixel_data_start in
  if decide (last_entry > 2 ^ 32 - 1)
  then raise (NotImplementedError
                "Image data exceeds 2^32 - 1 bytes An extended offset table should be used")
  else
    seek bot_start;;
    _check_tag_and_length ItemTag
      (BYTES_PER_ITEM * Z.of_nat (length frame_positions)) false;;
    for_st (λ frame_position, write_UL (frame_position - pixel_data_start))
           frame_positions.

(** The loop of [_write_eot] that writes the lengths of all frames but the
    last: [for frame_end in frame_positions[1:]]. The start of the last frame
    is returned. *)
Fixpoint write_eot_lengths (frame_start : Z) (frame_ends : list Z)
    : st DicomFile Z :=
  match frame_ends with
  | [] => mret frame_start
  | frame_end :: frame_ends =>
      let frame_length := frame_end - frame_start in
      _write_unsigned_long_long frame_length;;
      write_eot_lengths frame_end frame_ends
  end.

(** [WsiDicomFileWriter._write_eot] *)
Definition _write_eot (eot_start pixel_data_start : Z)
    (frame_positions : list Z) (last_frame_end : Z) : st DicomFile () :=
  let BYTES_PER_ITEM := 8 in
  last_position ← lift (py_getitem frame_positions (-1));
  let last_entry := last_position - pixel_data_start in
  if decide (last_entry > 2 ^ 64 - 1)
  then raise (ValueError
                "Image data exceeds 2^64 - 1 bytes, likely something is wrong")
  else
    seek eot_start;;
    _check_tag_and_length ExtendedOffsetTableTag
      (BYTES_PER_ITEM * Z.of_nat (length frame_positions)) true;;
    for_st (λ frame_position,
              let relative_position := frame_position - pixel_data_start in
              _write_unsigned_long_long relative_position)
           frame_positions;;
    _check_tag_and_length ExtendedOffsetTableLengthsTag
      (BYTES_PER_ITEM * Z.of_nat (length frame_positions)) true;;
    frame_start ← lift (py_getitem frame_positions 0);
    frame_start ← write_eot_lengths frame_start (drop 1 frame_positions);
    let TAG_BYTES := 4 in
    let LENGHT_BYTES := 4 in
    let last_frame_start := frame_start + TAG_BYTES + LENGHT_BYTES in
    let last_frame_length := last_frame_end - last_frame_start in
    _write_unsigned_long_long last_frame_length.

(** [WsiDicomFileWriter._write_pixel_data_end] *)
Definition _write_pixel_data_end : st DicomFile () :=
  write_tag SequenceDelimiterTag;; write_UL 0.

(** pydicom's [itemize_frame(tile, 1)]: the tile as one item, padded to an
    even length. *)
Definition itemize_frame (tile : bytes) : bytes :=
  let fragment :=
    if decide (Z.of_nat (length tile) `mod` 2 = 0) then tile
    else tile ++ [x00] in
  [xfe; xff; x00; xe0] ++ Z_to_le 4 (Z.of_nat (length fragment)) ++ fragment.

(** The writes of [WsiDicomFileWriter._write_pixel_data] for the encoded
    tiles that the pool returns, in their order: the position of every item
    is recorded. *)
Fixpoint write_frames (tiles : list bytes) : st DicomFile (list Z) :=
  match tiles with
  | [] => mret []
  | tile :: tiles =>
      frame_position ← tell;
      write (itemize_frame tile);;
      frame_positions ← write_frames tiles;
      mret (frame_position :: frame_positions)
  end.

(** [WsiDicomFileWriter.write] from the pixel data on, for the encoded tiles
    of the planes. *)
Definition write_pixel_data (number_of_frames : Z)
    (offset_table : option string) (tiles : list bytes) : st DicomFile () :=
  '(table_start, pixels_start) ←
    _write_pixel_data_start number_of_frames offset_table;
  frame_positions ← write_frames tiles;
  pixels_end ← tell;
  _write_pixel_data_end;;
  match offset_table with
  | None => mret ()
  | Some offset_table =>
      match table_start with
      | None => raise (ValueError "Table start should not be None")
      | Some table_start =>
          if decide (offset_table = "eot")
          then _write_eot table_start pixels_start frame_positions pixels_end
          else if decide (offset_table = "bot")
          then _write_bot table_start pixels_start frame_positions
          else mret ()
      end
  end.

(** [WsiDicomFile.__init__] once the dataset is read, the file pointer at
    the extended offset table or at the pixel data. *)
Definition WsiDicomFile_init {F} (fp : DicomFile) (dataset : WsiDataset F)
    : result (WsiDicomFile F) :=
  '(frame_positions, fp) ← _parse_pixel_data (frame_count dataset) fp;
  Ok {| _fp := fp;
        file_dataset := dataset;
        file_frame_offset := frame_offset dataset;
        file_frame_count := frame_count dataset;
        file_frame_positions := frame_positions |}.

(** ** Example data

    Floats that hold integers: products of integers are exact and [round]
    leaves them as they are. *)
#[global] Instance Z_Float : Float Z := {|
  float_of_int := id;
  float_mul := Z.mul;
  float_round := λ v _, v;
|}.

(** A full-tiled dataset of 3×2 tiles, two focal planes and two optical
    paths. *)
Definition example_full_dataset : WsiDataset Z := {|
  frame_offset := 0;
  frame_count := 24;
  tile_type := "TILED_FULL";
  spacing_between_slices := 1;
  number_of_focal_planes := 2;
  frame_sequence := [];
  image_size := mkSize 3000 2000;
  tile_size := mkSize 1024 1024;
  optical_path_sequence :=
    [mkOpticalPathItem (Some "0"); mkOpticalPathItem (Some "1")];
  photometric_interpretation := "RGB";
  samples_per_pixel := 3;
|}.

(** The same dataset with no spacing between its two focal planes. *)
Definition example_unspaced_dataset : WsiDataset Z := {|
  frame_offset := 0;
  frame_count := 24;
  tile_type := "TILED_FULL";
  spacing_between_slices := 0;
  number_of_focal_planes := 2;
  frame_sequence := [];
  image_size := mkSize 3000 2000;
  tile_size := mkSize 1024 1024;
  optical_path_sequence :=
    [mkOpticalPathItem (Some "0"); mkOpticalPathItem (Some "1")];
  photometric_interpretation := "RGB";
  samples_per_pixel := 3;
|}.

(** Images known by their size only: an encoded image is the four bytes of
    its width and height. *)
#[global] Instance Size_Pillow : Pillow Size := {|
  Image_new := λ _ size _, size;
  Image_open := λ frame,
    mkSize (le_to_Z (take 2 frame)) (le_to_Z (take 2 (drop 2 frame)));
  Image_size := id;
  Image_crop := λ _ '(l, u, r, b),
    mkSize (r - l) (b - u);
  Image_paste := λ image _ _, image;
  Image_save := λ image _ _,
    Z_to_le 2 (width image) ++ Z_to_le 2 (height image);
|}.

(** An empty little-endian file with explicit value representations, as the
    writer opens it. *)
Definition empty_file : DicomFile :=
  {| fp_data := []; fp_pos := 0;
     is_little_endian := true; is_implicit_VR := false |}.

(** The encoded tile of 1024×1024 pixels. *)
Definition example_tile : bytes := [x00; x04; x00; x04].

(** A file written with the given offset table and read again from its
    start. *)
Definition example_file (dataset : WsiDataset Z)
    (offset_table : option string) (tiles : list bytes)
    : result (WsiDicomFile Z) :=
  '(_, fp) ← write_pixel_data (frame_count dataset) offset_table tiles
                              empty_file;
  WsiDicomFile_init (set_pos fp 0) dataset.

(** A full-tiled image of 2048×2048 pixels in 2×2 tiles. *)
Definition example_stitch_dataset : WsiDataset Z := {|
  frame_offset := 0;
  frame_count := 4;
  tile_type := "TILED_FULL";
  spacing_between_slices := 0;
  number_of_focal_planes := 1;
  frame_sequence := [];
  image_size := mkSize 2048 2048;
  tile_size := mkSize 1024 1024;
  optical_path_sequence := [mkOpticalPathItem (Some "0")];
  photometric_interpretation := "RGB";
  samples_per_pixel := 3;
|}.

(** The files that were written and read without an error. *)
Definition files_of (files : result (list (WsiDicomFile Z)))
    : list (WsiDicomFile Z) :=
  match files with
  | Ok files => files
  | Err _ => []
  end.

Definition example_stitch_files : list (WsiDicomFile Z) :=
  files_of (file ← example_file example_stitch_dataset (Some "bot"%string)
                                (replicate 4 example_tile);
            Ok [file]).

(** The same image in two concatenated files of two frames each. *)
Definition example_part_dataset (offset : Z) : WsiDataset Z := {|
  frame_offset := offset;
  frame_count := 2;
  tile_type := "TILED_FULL";
  spacing_between_slices := 0;
  number_of_focal_planes := 1;
  frame_sequence := [];
  image_size := mkSize 2048 2048;
  tile_size := mkSize 1024 1024;
  optical_path_sequence := [mkOpticalPathItem (Some "0")];
  photometric_interpretation := "RGB";
  samples_per_pixel := 3;
|}.

Definition example_part_files : list (WsiDicomFile Z) :=
  files_of (second ← example_file (example_part_dataset 2) (Some "eot"%string)
                                  (replicate 2 example_tile);
            first ← example_file (example_part_dataset 0) (Some "bot"%string)
                                 (replicate 2 example_tile);
            Ok [second; first]).

(** A full-tiled image of 1536×1024 pixels in 2×1 tiles: half of the tile
    (1, 0) is in the image. *)
Definition example_edge_dataset : WsiDataset Z := {|
  frame_offset := 0;
  frame_count := 2;
  tile_type := "TILED_FULL";
  spacing_between_slices := 0;
  number_of_focal_planes := 1;
  frame_sequence := [];
  image_size := mkSize 1536 1024;
  tile_size := mkSize 1024 1024;
  optical_path_sequence := [mkOpticalPathItem (Some "0")];
  photometric_interpretation := "RGB";
  samples_per_pixel := 3;
|}.

Definition example_edge_files : list (WsiDicomFile Z) :=
  files_of (file ← example_file example_edge_dataset (Some "bot"%string)
                                (replicate 2 example_tile);
            Ok [file]).



(** A basic offset table of two entries and the two items that it points
    to. *)
Definition example_table : bytes := Z_to_le 4 0 ++ Z_to_le 4 12.
Definition example_items : DicomFile :=
  set_data empty_file (itemize_frame example_tile ++ itemize_frame example_tile).



(** A file in which the extended offset table of two frames is reserved at
    the start. *)
Definition example_reserved_eot : DicomFile :=
  match _reserve_eot 2 empty_file with
  | Ok (_, fp) => fp
  | Err _ => empty_file
  end.

(** ** Predicates of the specification *)

Section predicates.
Context `{Float F} `{Pillow Image}.

Implicit Types (index : FullTileIndex F) (tile : Point) (z : F) (path : string).

(** A tile, focal plane and optical path that the index declares. *)
Definition valid_full_input index tile z path : Prop :=
  0 ≤ x tile < width (_tiled_size (full_base index))
  ∧ 0 ≤ y tile < height (_tiled_size (full_base index))
  ∧ z ∈ full_focal_planes index
  ∧ path ∈ _optical_paths (full_base index).

(** The number of frames addressed by the index: W*H*P*O. *)
Definition full_frame_space index : Z :=
  width (_tiled_size (full_base index))
  * height (_tiled_size (full_base index))
  * Z.of_nat (length (full_focal_planes index))
  * Z.of_nat (length (_optical_paths (full_base index))).

(** A dataset that declares several focal planes (not exactly one) with no
    spacing between them. *)
Definition missing_slice_spacing (dataset : WsiDataset F) : Prop :=
  spacing_between_slices dataset = float_of_int 0
  ∧ number_of_focal_planes dataset ≠ 1.

#[local] Instance missing_slice_spacing_dec dataset :
  Decision (missing_slice_spacing dataset).
Proof. unfold missing_slice_spacing. apply _. Defined.

(** The focal planes that a dataset declares. *)
Definition declared_plane (datasets : list (WsiDataset F)) (z : F) : Prop :=
  ∃ dataset plane,
    dataset ∈ datasets
    ∧ 0 ≤ plane < number_of_focal_planes dataset
    ∧ z = float_round
            (float_mul (float_mul (float_of_int plane)
                                  (spacing_between_slices dataset))
                       (float_of_int 1000)) 3.

(** The files that contribute to the instance, and the file whose range
    [frame_offset, frame_offset + frame_count) holds a frame index. *)
Definition contributing_file (self : WsiDicomImageData F Image)
    (file : WsiDicomFile F) : Prop :=
  (file_frame_offset file, file) ∈ _files self.

Definition file_holds (file : WsiDicomFile F) (frame_index : Z) : Prop :=
  file_frame_offset file ≤ frame_index
  < file_frame_offset file + file_frame_count file.

(** The pixels of the tile at a tile coordinate, and a pixel region that
    lies in them. *)
Definition in_tile (tile_size : Size) (tile : Point) (p : Point) : Prop :=
  x tile * width tile_size ≤ x p < (x tile + 1) * width tile_size
  ∧ y tile * height tile_size ≤ y p < (y tile + 1) * height tile_size.

(** The last pixel of a region that has pixels. *)
Definition last_pixel (r : Region) : Point := Point_sub_int (end_ r) 1.

(** The tile range that the specification gives for a pixel region: from the
    start floor-divided by the tile size to the end minus one floor-divided by
    the tile size. *)
Definition spec_tile_range (tile_size : Size) (pixel_region : Region)
    : Region :=
  Region_from_points
    (Point_floordiv (start pixel_region) tile_size)
    (Point_floordiv (Point_sub_int (end_ pixel_region) 1) tile_size).

(** The write cursor of the specification: after a paste it advances in x
    by the width of the pasted tile, and once x would reach or exceed the
    width of the region, x is reset to 0 and y advances by the height of the
    pasted tile. *)
Definition spec_next_cursor (region_size : Size) (cursor : Point)
    (pasted : Size) : Point :=
  if decide (x cursor + width pasted < width region_size)
  then mkPoint (x cursor + width pasted) (y cursor)
  else mkPoint 0 (y cursor + height pasted).

(** Pastes that are made at the successive positions of the write cursor. *)
Fixpoint follows_write_cursor (region_size : Size) (cursor : Point)
    (pastes : list (Image * Point)) : Prop :=
  match pastes with
  | [] => True
  | (tile_image, write_index) :: pastes =>
      write_index = cursor
      ∧ follows_write_cursor region_size
          (spec_next_cursor region_size cursor (Image_size tile_image)) pastes
  end.

(** A per-frame entry that assigns its frame to the tile [tile] of the plane
    of [z] and [path]: its coordinates and optical path are those of the
    plane and its tile is the cell of [tile] in the array of the plane. *)
Definition frame_assigns (index : TileIndex) (dataset : WsiDataset F)
    (frame : FrameItem F) (tile : Point) (z : F) (path : string) : Prop :=
  (_read_frame_coordinates (_tile_size index) frame).2 = z
  ∧ read_optical_path_identifier dataset frame = Ok path
  ∧ np_index (width (_tiled_size index))
             (x (_read_frame_coordinates (_tile_size index) frame).1)
    = np_index (width (_tiled_size index)) (x tile)
  ∧ np_index (height (_tiled_size index))
             (y (_read_frame_coordinates (_tile_size index) frame).1)
    = np_index (height (_tiled_size index)) (y tile).



End predicates.

(** The entries of an offset table of the type 'bot' (4 bytes, in the byte
    order of the file) or 'eot' (8 bytes, in the byte order of the host). *)
Definition table_bytes_per_item (table_type : string) : Z :=
  if decide (table_type = "bot") then 4 else 8.

Definition table_order (fp : DicomFile) (table_type : string) : byte_order :=
  if decide (table_type = "bot") then fp_order fp else native_order.

Definition table_entry (order : byte_order) (bytes_per_item : Z)
    (table : bytes) (i : nat) : Z :=
  bytes_to_Z order
    (slice table (bytes_per_item * Z.of_nat i)
                 (bytes_per_item * Z.of_nat i + bytes_per_item)).

(** The position and the length of frame [i] that the specification computes
    from the entries [i] and [i + 1]: the 8 bytes of the item header are
    taken off. *)
Definition computed_position (order : byte_order) (bytes_per_item : Z)
    (table : bytes) (pixels_start : Z) (i : nat) : Z * Z :=
  (pixels_start + table_entry order bytes_per_item table i + 8,
   table_entry order bytes_per_item table (S i)
   - table_entry order bytes_per_item table i - 8).

(** The item header of the last frame and the positions of the table, once
    the lengths computed from the entries are valid. *)
Definition read_last_frame (pixels_start this_offset : Z)
    (positions : list (Z * Z)) : st DicomFile (list (Z * Z)) :=
  seek (pixels_start + this_offset);;
  tag ← read_tag;
  if decide (tag ≠ ItemTag)
  then raise (WsiDicomFileError "Excepcted ItemTag in PixelData")
  else
    length ← read_UL;
    if decide (invalid_frame_length length)
    then raise (WsiDicomFileError "Invalid frame length")
    else mret (positions ++ [(pixels_start + (this_offset + 4 + 4), length)]).


(** Frame positions whose offsets relative to the start of the pixel data fit
    in unsigned integers of [bits] bits. *)
Definition offsets_fit (bits : Z) (pixel_data_start : Z)
    (frame_positions : list Z) : Prop :=
  ∀ frame_position,
    frame_position ∈ frame_positions →
    0 ≤ frame_position - pixel_data_start ≤ 2 ^ bits - 1.

(** Frame positions in the order in which the frames were written, the last
    frame of at most 2^64 - 1 bytes ending at [last_frame_end]. *)
Definition frames_in_order (frame_positions : list Z) (last_frame_end : Z)
    : Prop :=
  (∀ (i : nat) a b,
     frame_positions !! i = Some a → frame_positions !! S i = Some b → a ≤ b)
  ∧ (∀ a, last frame_positions = Some a →
          0 ≤ last_frame_end - (a + 8) ≤ 2 ^ 64 - 1).

(** The checks of the reserved table that [_write_bot] and [_write_eot] make
    before they write. *)
Definition check_bot (bot_start : Z) (frame_positions : list Z)
    : st DicomFile () :=
  seek bot_start;;
  _check_tag_and_length ItemTag (4 * Z.of_nat (length frame_positions)) false.

Definition check_eot (eot_start : Z) (frame_positions : list Z)
    : st DicomFile () :=
  seek eot_start;;
  _check_tag_and_length ExtendedOffsetTableTag
    (8 * Z.of_nat (length frame_positions)) true.

Definition check_eot_lengths (frame_positions : list Z) : st DicomFile () :=
  _check_tag_and_length ExtendedOffsetTableLengthsTag
    (8 * Z.of_nat (length frame_positions)) true.

(** The offsets of the extended offset table, as [_write_eot] writes them. *)
Definition write_eot_offsets (pixel_data_start : Z)
    (frame_positions : list Z) : st DicomFile () :=
  for_st (λ frame_position,
            let relative_position := frame_position - pixel_data_start in
            _write_unsigned_long_long relative_position)
         frame_positions.

(** ** Further predicates: planes, frames in file order *)

(** A plane whose array has the shape of the plane. *)
Definition plane_shaped (p : SparseTilePlane) : Prop :=
  length (plane p) = Z.to_nat (width (_shape p))
  ∧ Forall (λ column, length column = Z.to_nat (height (_shape p))) (plane p).

(** The cell of a numpy array of a shape that a position indexes. *)
Definition np_cell (shape : Size) (position : Point) : result (nat * nat) :=
  i ← np_index (width shape) (x position);
  j ← np_index (height shape) (y position);
  Ok (i, j).


(** The per-frame entries of the datasets in the order in which
    [_read_planes_from_datasets] reads them, each with its dataset and its
    number in the dataset. *)
Definition frames_in_file_order {F} (datasets : list (WsiDataset F))
    : list (WsiDataset F * Z * FrameItem F) :=
  dataset ← datasets;
  '(i, frame) ← enumerate (frame_sequence dataset);
  [(dataset, i, frame)].

(** The body of the loops of [_read_planes_from_datasets] for one per-frame
    entry of a dataset. *)
Definition read_plane_entry `{Float F} (self : TileIndex)
    (planes : gmap (F * string) SparseTilePlane)
    (entry : WsiDataset F * Z * FrameItem F)
    : result (gmap (F * string) SparseTilePlane) :=
  let '(dataset, i, frame) := entry in
  let '(tile, z) := _read_frame_coordinates (_tile_size self) frame in
  identifier ← read_optical_path_identifier dataset frame;
  '(plane, planes) ←
    match planes !! (z, identifier) with
    | Some plane => Ok (plane, planes)
    | None =>
        plane ← SparseTilePlane_init (_tiled_size self);
        Ok (plane, <[(z, identifier) := plane]> planes)
    end;
  plane ← SparseTilePlane_setitem plane tile (i + frame_offset dataset);
  Ok (<[(z, identifier) := plane]> planes).

(** ** Datasets, files and instances by their unique identifiers

    The checks for duplicates and the grouping of files read one attribute of
    their items, the unique identifier: [dataset.SOPInstanceUID],
    [instance.identifier] and [file.uids.identifier]. The items are of any
    type that has the attribute; [str] is their [__str__]. *)

(** The exception [WsiDicomUidDuplicateError(str(item), str(caller))]. *)
Inductive WsiDicomUidDuplicateError : Type :=
  | mkWsiDicomUidDuplicateError (item caller : string).

Section unique_identifiers.
Context {Item : Type} (uid : Item → string) (str : Item → string).

(** The loop of [WsiDataset.check_duplicate_dataset] and of
    [WsiInstance.check_duplicate_instance] over the items that are left,
    with the identifiers seen so far. *)
Fixpoint check_duplicate_loop (uids : list string) (items : list Item)
    (caller : string) : WsiDicomUidDuplicateError + () :=
  match items with
  | [] => inr ()
  | item :: items =>
      let item_uid := uid item in
      if decide (item_uid ∉ uids)
      then check_duplicate_loop (uids ++ [item_uid]) items caller
      else inl (mkWsiDicomUidDuplicateError (str item) caller)
  end.

(** [WsiDataset.check_duplicate_dataset], [uid] being [SOPInstanceUID]. *)
Definition check_duplicate_dataset (datasets : list Item) (caller : string)
    : WsiDicomUidDuplicateError + () :=
  check_duplicate_loop [] datasets caller.

(** [WsiInstance.check_duplicate_instance], [uid] being [identifier]. *)
Definition check_duplicate_instance (instances : list Item) (self : string)
    : WsiDicomUidDuplicateError + () :=
  check_duplicate_loop [] instances self.

(** [grouped_files[key].append(file)], and [grouped_files[key] = [file]] for
    a key that the dict does not have: a dict keeps its keys in the order in
    which they were first set. *)
Fixpoint dict_append (grouped_files : list (string * list Item))
    (key : string) (file : Item) : list (string * list Item) :=
  match grouped_files with
  | [] => [(key, [file])]
  | (key', files) :: grouped_files =>
      if decide (key = key') then (key', files ++ [file]) :: grouped_files
      else (key', files) :: dict_append grouped_files key file
  end.

(** [WsiDicomFile.group_files], [uid] being [uids.identifier]. *)
Definition group_files (files : list Item) : list (string * list Item) :=
  foldl (λ grouped_files file, dict_append grouped_files (uid file) file)
        [] files.

End unique_identifiers.

(** ** Further example data *)

(** A sparse-tiled image of 2048×2048 pixels whose third per-frame entry
    names the tile (0, 0) again. *)
Definition example_rewritten_dataset : WsiDataset Z := {|
  frame_offset := 0;
  frame_count := 3;
  tile_type := "TILED_SPARSE";
  spacing_between_slices := 0;
  number_of_focal_planes := 1;
  frame_sequence :=
    [mkFrameItem 1 1 0 None; mkFrameItem 1025 1025 0 None;
     mkFrameItem 1 1 0 None];
  image_size := mkSize 2048 2048;
  tile_size := mkSize 1024 1024;
  optical_path_sequence := [mkOpticalPathItem (Some "0")];
  photometric_interpretation := "RGB";
  samples_per_pixel := 3;
|}.

(** ** The bytes of written pixel data *)

(** A little-endian file with explicit value representations, as the writer
    opens it, with its bytes and its position; the position of a file that is
    written from its start is its end. *)
Definition le_file (data : bytes) (pos : Z) : DicomFile :=
  {| fp_data := data; fp_pos := pos;
     is_little_endian := true; is_implicit_VR := false |}.

Definition writer_file (data : bytes) : DicomFile :=
  le_file data (Z.of_nat (length data)).

(** The four bytes of a tag in a little-endian file: group, then element. *)
Definition tag_bytes (tag : Z) : bytes :=
  Z_to_le 2 (tag `div` 65536) ++ Z_to_le 2 (tag `mod` 65536).

(** The fragment of an item: the frame, with a zero byte after a frame of
    odd length. *)
Definition fragment (tile : bytes) : bytes :=
  if decide (Z.of_nat (length tile) `mod` 2 = 0) then tile else tile ++ [x00].

(** The position of the item of every frame, for items written from
    [position] on. *)
Fixpoint item_positions (position : Z) (tiles : list bytes) : list Z :=
  match tiles with
  | [] => []
  | tile :: tiles =>
      position
      :: item_positions (position + 8 + Z.of_nat (length (fragment tile)))
                        tiles
  end.

(** The position and the length of the data of every frame, for items
    written from [position] on: the data of a frame starts after the eight
    bytes of the tag and the length of its item. *)
Fixpoint frame_layout (position : Z) (tiles : list bytes) : list (Z * Z) :=
  match tiles with
  | [] => []
  | tile :: tiles =>
      (position + 8, Z.of_nat (length (fragment tile)))
      :: frame_layout (position + 8 + Z.of_nat (length (fragment tile)))
                      tiles
  end.

(** The header of a data element with an explicit value representation of
    two bytes and a length of four bytes: tag, value representation, two
    reserved bytes and length. *)
Definition element_header (tag : Z) (value_representation : bytes)
    (length : Z) : bytes :=
  tag_bytes tag ++ value_representation ++ Z_to_le 2 0 ++ Z_to_le 4 length.

(** The bytes of an offset table with entries of [width] bytes. *)
Definition table_bytes (width : nat) (entries : list Z) : bytes :=
  entries ≫= Z_to_le width.

(** The items of the frames, one after the other. *)
Definition item_bytes (tiles : list bytes) : bytes :=
  tiles ≫= itemize_frame.

(** The sequence delimiter that ends the pixel data. *)
Definition pixel_data_end : bytes :=
  tag_bytes SequenceDelimiterTag ++ Z_to_le 4 0.

(** The bytes from the start of the pixel data to their first frame: with an
    extended offset table its two elements come before the pixel data
    element; the first item of the pixel data is the basic offset table,
    empty when it is not the table chosen. *)
Definition pixel_data_start_bytes (offset_table : option string)
    (number_of_frames : Z) (offsets lengths : list Z) : bytes :=
  (if decide (offset_table = Some "eot"%string)
   then element_header ExtendedOffsetTableTag VR_OV (8 * number_of_frames)
        ++ table_bytes 8 offsets
        ++ element_header ExtendedOffsetTableLengthsTag VR_OV
             (8 * number_of_frames)
        ++ table_bytes 8 lengths
   else [])
  ++ element_header PixelDataTag VR_OB 0xFFFFFFFF
  ++ tag_bytes ItemTag
  ++ (if decide (offset_table = Some "bot"%string)
      then Z_to_le 4 (4 * number_of_frames) ++ table_bytes 4 offsets
      else Z_to_le 4 0).

(** The lengths that [_write_eot] writes after the offsets: for every frame
    but the last the distance to the next item, for the last frame the length
    of its data. *)
Fixpoint eot_lengths (frame_start : Z) (frame_ends : list Z)
    (last_frame_end : Z) : list Z :=
  match frame_ends with
  | [] => [last_frame_end - (frame_start + 4 + 4)]
  | frame_end :: frame_ends =>
      (frame_end - frame_start)
      :: eot_lengths frame_end frame_ends last_frame_end
  end.

(** The pixel data as the writer leaves them, after data of [start] bytes:
    the tables hold the offsets of the items from the first item. *)
Definition pixel_data_bytes (offset_table : option string) (start : Z)
    (tiles : list bytes) : bytes :=
  let number_of_frames := Z.of_nat (length tiles) in
  let reserved := replicate (length tiles) 0 in
  let first :=
    start
    + Z.of_nat (length (pixel_data_start_bytes offset_table number_of_frames
                          reserved reserved)) in
  let positions := item_positions first tiles in
  let offsets := (λ position, position - first) <$> positions in
  let lengths :=
    match positions with
    | [] => []
    | position :: positions =>
        eot_lengths position positions
          (first + Z.of_nat (length (item_bytes tiles)))
    end in
  pixel_data_start_bytes offset_table number_of_frames offsets lengths
  ++ item_bytes tiles ++ pixel_data_end.

(** ** Code that reads a file *)

(** Code that reads a file leaves its bytes as they are and its position in
    the file. *)
Definition reads {A} (m : st DicomFile A) : Prop :=
  ∀ fp a fp',
    0 ≤ fp_pos fp → m fp = Ok (a, fp') →
    fp_data fp' = fp_data fp ∧ 0 ≤ fp_pos fp'.



(** ** Chunks of tiles ([WsiDicomFileWriter._chunk_tile_points]) *)

(** Modelled from the spec: [Size / int] of [wsidicom.geometry], per axis,
    rounded up as [Size / Size] is. *)
Definition Size_truediv_int (a : Size) (n : Z) : Size :=
  mkSize (ceil_div (width a) n) (ceil_div (height a) n).

(** [WsiDicomFileWriter._chunk_tile_points], of the tiled size of the image
    data and of its [suggested_minimum_chunk_size], for which [getattr] gives
    1 when the image data has none. The generators are lists in the order in
    which they yield. A minimum chunk size of zero, an error of the division
    in Python, and a negative one, with which [range] has a step that is not
    positive, are outside of the model. *)
Definition _chunk_tile_points (tiled_size : Size)
    (suggested_minimum_chunk_size : option Z) (chunk_size scale : Z)
    : list (list Point) :=
  let minimum_chunk_size := default 1 suggested_minimum_chunk_size in
  let chunk_size :=
    Z.max minimum_chunk_size
          (chunk_size `div` minimum_chunk_size * minimum_chunk_size) in
  let new_tiled_size := Size_truediv_int tiled_size scale in
  y ← py_range 0 (height new_tiled_size) 1;
  x ← py_range 0 (width new_tiled_size) chunk_size;
  [iterate_all
     (mkRegion (mkPoint x y)
               (mkSize (Z.min chunk_size (width new_tiled_size - x)) 1))
     false].

(** ** What reading a tile leaves *)

(** A file with the position in its file pointer at the start. *)
Definition rewind {F} (file : WsiDicomFile F) : WsiDicomFile F :=
  set_fp file (set_pos (_fp file) 0).

Section tile_reads.
Context `{Float F} `{Pillow Image}.

(** The image data with its files rewound and no blank tile kept. *)
Definition at_rest (self : WsiDicomImageData F Image)
    : WsiDicomImageData F Image :=
  {| _files := (λ item, (item.1, rewind item.2)) <$> _files self;
     tiles := tiles self;
     _transfer_syntax := _transfer_syntax self;
     _photometric_interpretation := _photometric_interpretation self;
     _samples_per_pixel := _samples_per_pixel self;
     _blank_tile := None;
     _encoded_blank_tile := None |}.

(** The image data after tiles were read from it with [get_tile] and
    [get_encoded_tile], in any number and order. *)
Inductive after_reads (self : WsiDicomImageData F Image)
    : WsiDicomImageData F Image → Prop :=
  | after_no_read : after_reads self self
  | after_get_tile self1 self2 tile z path crop image :
      after_reads self self1 →
      get_tile tile z path crop self1 = Ok (image, self2) →
      after_reads self self2
  | after_get_encoded_tile self1 self2 tile z path crop frame :
      after_reads self self1 →
      get_encoded_tile tile z path crop self1 = Ok (frame, self2) →
      after_reads self self2.

(** The blank tiles that are kept are the ones that would be made. *)
Definition blank_tiles_kept (self : WsiDicomImageData F Image) : Prop :=
  (∀ image, _blank_tile self = Some image →
            _create_blank_tile self = Ok image)
  ∧ (∀ frame, _encoded_blank_tile self = Some frame →
              (image ← _create_blank_tile self; encode self image)
              = Ok frame).

End tile_reads.

(** * Properties *)

(** ** Helper lemmas *)

Lemma bind_Ok {A B} (m : result A) (f : A → result B) (b : B) :
  m ≫= f = Ok b ↔ ∃ a, m = Ok a ∧ f a = Ok b.
Proof.
  destruct m as [a|e]; simpl; split.
  - intros Hf. by exists a.
  - by intros (a' & [= <-] & Hf).
  - intros [=].
  - by intros (a' & [=] & _).
Qed.

Lemma st_bind_Ok {S A B} (m : st S A) (f : A → st S B) (s s' : S) (b : B) :
  (m ≫= f) s = Ok (b, s') ↔ ∃ a s1, m s = Ok (a, s1) ∧ f a s1 = Ok (b, s').
Proof.
  unfold mbind, st_bind. destruct (m s) as [[a s1]|e]; split.
  - intros Hf. by exists a, s1.
  - by intros (a' & s1' & [= <- <-] & Hf).
  - intros [=].
  - by intros (a' & s1' & [=] & _).
Qed.

Lemma lift_Ok {S A} (r : result A) (s s' : S) (a : A) :
  lift r s = Ok (a, s') ↔ r = Ok a ∧ s' = s.
Proof.
  unfold lift. destruct r; split; try intros [= <- <-]; try done.
  - by intros [[= <-] ->].
  - by intros [[=] _].
Qed.

Lemma enumerate_next_lookup `{EqDecision A} (l : list A) (v : A) (i : nat) :
  NoDup l → l !! i = Some v → enumerate_next l v = Some i.
Proof.
  intros Hnd Hi. unfold enumerate_next.
  destruct (list_find (λ item, item = v) l) as [[j w]|] eqn:Hfind; simpl.
  - apply list_find_Some in Hfind as (Hj & -> & _).
    f_equal. by eapply NoDup_lookup.
  - apply list_find_None in Hfind.
    rewrite Forall_forall in Hfind.
    destruct (Hfind v); [|done]. by eapply list_elem_of_lookup_2.
Qed.

Lemma enumerate_next_None `{EqDecision A} (l : list A) (v : A) :
  v ∉ l → enumerate_next l v = None.
Proof.
  intros Hv. unfold enumerate_next.
  destruct (list_find (λ item, item = v) l) as [[j w]|] eqn:Hfind; [|done].
  apply list_find_Some in Hfind as (Hj & -> & _).
  destruct Hv. by eapply list_elem_of_lookup_2.
Qed.

(** Uniqueness of the digits of a number in a mixed radix. *)
Lemma radix_unique (W a b a' b' : Z) :
  0 ≤ a < W → 0 ≤ a' < W → a + W * b = a' + W * b' → a = a' ∧ b = b'.
Proof. intros Ha Ha' Heq. assert (b = b') by nia. subst. lia. Qed.

(** ** The full tile index *)

Section full_index.
Context `{Float F}.

Implicit Types (index : FullTileIndex F) (tile : Point) (z : F) (path : string).

Lemma read_optical_paths_NoDup (datasets : list (WsiDataset F)) paths :
  _read_optical_paths_from_datasets datasets = Ok paths → NoDup paths.
Proof.
  unfold _read_optical_paths_from_datasets.
  intros (s & _ & [= <-])%bind_Ok. apply NoDup_elements.
Qed.

Lemma read_focal_planes_NoDup (datasets : list (WsiDataset F)) planes :
  _read_focal_planes_from_datasets datasets = Ok planes → NoDup planes.
Proof.
  unfold _read_focal_planes_from_datasets.
  intros (s & _ & [= <-])%bind_Ok. apply NoDup_elements.
Qed.

Lemma FullTileIndex_init_NoDup datasets index :
  FullTileIndex_init datasets = Ok index →
  NoDup (full_focal_planes index) ∧ NoDup (_optical_paths (full_base index)).
Proof.
  unfold FullTileIndex_init.
  intros (base & Hbase & (planes & Hplanes & [= <-])%bind_Ok)%bind_Ok.
  simpl. split; [by eapply read_focal_planes_NoDup|].
  unfold TileIndex_init in Hbase.
  apply bind_Ok in Hbase as (ds & _ & Hbase).
  apply bind_Ok in Hbase as (paths & Hpaths & [= <-]).
  simpl. by eapply read_optical_paths_NoDup.
Qed.

Lemma Full_get_frame_index_formula index tile z path (z_idx path_idx : nat) :
  NoDup (full_focal_planes index) →
  NoDup (_optical_paths (full_base index)) →
  full_focal_planes index !! z_idx = Some z →
  _optical_paths (full_base index) !! path_idx = Some path →
  Full_get_frame_index index tile z path =
    Ok (x tile + width (_tiled_size (full_base index)) * y tile
        + Z.of_nat z_idx * area (_tiled_size (full_base index))
        + Z.of_nat path_idx * Z.of_nat (length (full_focal_planes index))
          * area (_tiled_size (full_base index))).
Proof.
  intros Hz Hp Hzi Hpi.
  unfold Full_get_frame_index, _get_focal_plane_index, _get_optical_path_index.
  rewrite (enumerate_next_lookup _ _ _ Hz Hzi). simpl.
  by rewrite (enumerate_next_lookup _ _ _ Hp Hpi).
Qed.

Lemma Full_get_frame_index_not_found index tile z path :
  z ∉ full_focal_planes index ∨ path ∉ _optical_paths (full_base index) →
  ∃ what, Full_get_frame_index index tile z path
          = Err (WsiDicomNotFoundError what).
Proof.
  unfold Full_get_frame_index, _get_focal_plane_index, _get_optical_path_index.
  intros [Hz|Hp].
  - rewrite (enumerate_next_None _ _ Hz). simpl. eauto.
  - rewrite (enumerate_next_None _ _ Hp).
    destruct (enumerate_next _ z); simpl; eauto.
Qed.

Lemma Full_get_frame_index_Ok_inv index tile z path n :
  Full_get_frame_index index tile z path = Ok n →
  ∃ z_idx path_idx : nat,
    full_focal_planes index !! z_idx = Some z
    ∧ _optical_paths (full_base index) !! path_idx = Some path
    ∧ n = x tile + width (_tiled_size (full_base index)) * y tile
          + Z.of_nat z_idx * area (_tiled_size (full_base index))
          + Z.of_nat path_idx * Z.of_nat (length (full_focal_planes index))
            * area (_tiled_size (full_base index)).
Proof.
  unfold Full_get_frame_index, _get_focal_plane_index, _get_optical_path_index,
    enumerate_next.
  destruct (list_find _ (full_focal_planes index)) as [[i v]|] eqn:Hz;
    simpl; [|done].
  destruct (list_find _ (_optical_paths (full_base index))) as [[j w]|] eqn:Hp;
    simpl; [|done].
  intros [= <-].
  apply list_find_Some in Hz as (Hz & -> & _).
  apply list_find_Some in Hp as (Hp & -> & _).
  by exists i, j.
Qed.

Lemma plane_offset_bounds (W Ht a b : Z) :
  0 ≤ a < W → 0 ≤ b < Ht → 0 ≤ a + W * b < W * Ht.
Proof. intros Ha Hb. nia. Qed.

Lemma frame_number_bounds (A P O plane zi pi : Z) :
  0 ≤ plane < A → 0 ≤ zi < P → 0 ≤ pi < O →
  0 ≤ plane + zi * A + pi * P * A < A * P * O.
Proof.
  intros Hpl Hzi Hpi.
  assert (0 ≤ zi * A ≤ (P - 1) * A) by nia.
  assert (0 ≤ pi * (P * A) ≤ (O - 1) * (P * A)) by nia.
  nia.
Qed.

Lemma frame_number_unique (A P plane zi pi plane' zi' pi' : Z) :
  0 ≤ plane < A → 0 ≤ plane' < A → 0 ≤ zi < P → 0 ≤ zi' < P →
  plane + zi * A + pi * P * A = plane' + zi' * A + pi' * P * A →
  plane = plane' ∧ zi = zi' ∧ pi = pi'.
Proof.
  intros Hpl Hpl' Hzi Hzi' Heq.
  destruct (radix_unique A plane (zi + P * pi) plane' (zi' + P * pi'))
    as [-> Hq]; [done|done|lia|].
  destruct (radix_unique P zi pi zi' pi') as [-> ->]; done.
Qed.

(** C1. For a full tile index built from datasets, with tiled size W×H, P
    focal planes and O optical paths: [get_frame_index] of a tile (x, y), the
    focal plane at list index z_idx and the optical path at list index
    path_idx is x + W*y + z_idx*W*H + path_idx*P*W*H; on the valid inputs it
    is a bijection onto [0, W*H*P*O) (in range, injective, onto); a focal
    plane or an optical path that is not in the declared lists raises
    [WsiDicomNotFoundError]. *)
Theorem FullTileIndex_get_frame_index_bijection
    (datasets : list (WsiDataset F)) index :
  FullTileIndex_init datasets = Ok index →
  0 ≤ width (_tiled_size (full_base index)) →
  0 ≤ height (_tiled_size (full_base index)) →
  let W := width (_tiled_size (full_base index)) in
  let Ht := height (_tiled_size (full_base index)) in
  let P := Z.of_nat (length (full_focal_planes index)) in
  let O := Z.of_nat (length (_optical_paths (full_base index))) in
  (∀ tile z path (z_idx path_idx : nat),
     full_focal_planes index !! z_idx = Some z →
     _optical_paths (full_base index) !! path_idx = Some path →
     Full_get_frame_index index tile z path
     = Ok (x tile + W * y tile + Z.of_nat z_idx * W * Ht
           + Z.of_nat path_idx * P * W * Ht))
  ∧ (∀ tile z path,
       valid_full_input index tile z path →
       ∃ n, Full_get_frame_index index tile z path = Ok n
            ∧ 0 ≤ n < W * Ht * P * O)
  ∧ (∀ tile z path tile' z' path' n,
       valid_full_input index tile z path →
       valid_full_input index tile' z' path' →
       Full_get_frame_index index tile z path = Ok n →
       Full_get_frame_index index tile' z' path' = Ok n →
       tile = tile' ∧ z = z' ∧ path = path')
  ∧ (∀ n, 0 ≤ n < W * Ht * P * O →
       ∃ tile z path,
         valid_full_input index tile z path
         ∧ Full_get_frame_index index tile z path = Ok n)
  ∧ (∀ tile z path,
       z ∉ full_focal_planes index ∨ path ∉ _optical_paths (full_base index) →
       ∃ what, Full_get_frame_index index tile z path
               = Err (WsiDicomNotFoundError what)).
Proof.
  intros Hinit HW HH W Ht P O.
  destruct (FullTileIndex_init_NoDup _ _ Hinit) as [Hndz Hndp].
  assert (Hformula : ∀ tile z path (z_idx path_idx : nat),
     full_focal_planes index !! z_idx = Some z →
     _optical_paths (full_base index) !! path_idx = Some path →
     Full_get_frame_index index tile z path
     = Ok (x tile + W * y tile + Z.of_nat z_idx * W * Ht
           + Z.of_nat path_idx * P * W * Ht)).
  { intros tile z path z_idx path_idx Hz Hp.
    rewrite (Full_get_frame_index_formula _ _ _ _ _ _ Hndz Hndp Hz Hp).
    unfold area. fold W Ht P. f_equal. ring. }
  split; [exact Hformula|]. split; [|split; [|split]].
  - intros tile z path (Hx & Hy & Hz & Hp).
    apply list_elem_of_lookup_1 in Hz as [zi Hzi].
    apply list_elem_of_lookup_1 in Hp as [pi Hpi].
    eexists. split; [by apply Hformula|].
    apply lookup_lt_Some in Hzi, Hpi. fold W in Hx. fold Ht in Hy.
    pose proof (plane_offset_bounds W Ht _ _ Hx Hy) as Hpl.
    pose proof (frame_number_bounds (W * Ht) P O _ (Z.of_nat zi) (Z.of_nat pi)
                  Hpl) as Hb.
    unfold P, O. unfold P, O in Hb. lia.
  - intros tile z path tile' z' path' n (Hx & Hy & Hz & Hp)
      (Hx' & Hy' & Hz' & Hp') Hn Hn'.
    apply list_elem_of_lookup_1 in Hz as [zi Hzi].
    apply list_elem_of_lookup_1 in Hp as [pi Hpi].
    apply list_elem_of_lookup_1 in Hz' as [zi' Hzi'].
    apply list_elem_of_lookup_1 in Hp' as [pi' Hpi'].
    rewrite (Hformula _ _ _ _ _ Hzi Hpi) in Hn.
    rewrite (Hformula _ _ _ _ _ Hzi' Hpi') in Hn'.
    injection Hn as Hn. injection Hn' as Hn'.
    fold W in Hx, Hx'. fold Ht in Hy, Hy'.
    pose proof (lookup_lt_Some _ _ _ Hzi) as Hlt.
    pose proof (lookup_lt_Some _ _ _ Hzi') as Hlt'.
    destruct (frame_number_unique (W * Ht) P (x tile + W * y tile)
                (Z.of_nat zi) (Z.of_nat pi) (x tile' + W * y tile')
                (Z.of_nat zi') (Z.of_nat pi')) as (Hpl & Hzeq & Hpeq).
    { by apply plane_offset_bounds. }
    { by apply plane_offset_bounds. }
    { unfold P. lia. }
    { unfold P. lia. }
    { lia. }
    destruct (radix_unique W _ _ _ _ Hx Hx' Hpl) as [Hxeq Hyeq].
    apply Nat2Z.inj in Hzeq, Hpeq. subst zi' pi'.
    split; [|split]; [|congruence..].
    destruct tile, tile'; simpl in *; congruence.
  - intros n Hn.
    assert (0 < W * Ht ∧ 0 < P ∧ 0 < O) as (HA & HP & HO) by (unfold P, O in *; nia).
    assert (0 < W ∧ 0 < Ht) as [HW' HH'] by nia.
    set (plane := n `mod` (W * Ht)).
    set (q := n `div` (W * Ht)).
    assert (0 ≤ plane < W * Ht) as Hplane by (apply Z.mod_pos_bound; lia).
    assert (n = plane + (W * Ht) * q) as Hnq.
    { unfold plane, q. pose proof (Z.div_mod n (W * Ht)). lia. }
    assert (0 ≤ q < P * O) as Hq by nia.
    set (zi := q `mod` P). set (pi := q `div` P).
    assert (0 ≤ zi < P) as Hzi by (apply Z.mod_pos_bound; lia).
    assert (q = zi + P * pi) as Hqq.
    { unfold zi, pi. pose proof (Z.div_mod q P). lia. }
    assert (0 ≤ pi < O) as Hpi by nia.
    set (xx := plane `mod` W). set (yy := plane `div` W).
    assert (0 ≤ xx < W) as Hxx by (apply Z.mod_pos_bound; lia).
    assert (plane = xx + W * yy) as Hpp.
    { unfold xx, yy. pose proof (Z.div_mod plane W). lia. }
    assert (0 ≤ yy < Ht) as Hyy by nia.
    destruct (lookup_lt_is_Some_2 (full_focal_planes index) (Z.to_nat zi))
      as [z Hz]; [unfold P in Hzi; lia|].
    destruct (lookup_lt_is_Some_2 (_optical_paths (full_base index))
                (Z.to_nat pi)) as [path Hp]; [unfold O in Hpi; lia|].
    exists (mkPoint xx yy), z, path. split.
    + repeat split; simpl; try lia; by eapply list_elem_of_lookup_2.
    + rewrite (Hformula _ _ _ _ _ Hz Hp). simpl. f_equal.
      rewrite !Z2Nat.id by lia. rewrite Hnq, Hqq, Hpp. ring.
  - apply Full_get_frame_index_not_found.
Qed.

End full_index.

(** The theorem at a dataset of 3×2 tiles, two focal planes and two optical
    paths: every frame number below 24 is the frame of a valid input. *)
Lemma FullTileIndex_get_frame_index_bijection_witness :
  ∃ index,
    FullTileIndex_init [example_full_dataset] = Ok index
    ∧ ∀ n, 0 ≤ n < 3 * 2 * 2 * 2 →
        ∃ tile z path,
          valid_full_input index tile z path
          ∧ Full_get_frame_index index tile z path = Ok n.
Proof.
  eexists. split; [vm_compute; reflexivity|].
  match goal with
  | |- context [valid_full_input ?index] =>
      destruct (FullTileIndex_get_frame_index_bijection
                  [example_full_dataset] index) as (_ & _ & _ & Honto & _)
  end; [vm_compute; reflexivity|simpl; lia|simpl; lia|exact Honto].
Defined.

(** ** Focal planes of the full tile index *)

Section focal_planes.
Context `{Float F}.

Lemma add_planes_elem_of (slice_spacing : F) (planes : list Z)
    (focal_planes : gset F) z :
  z ∈ foldl (λ focal_planes plane,
               focal_planes ∪ {[ focal_plane_z slice_spacing plane ]})
            focal_planes planes
  ↔ z ∈ focal_planes ∨ ∃ plane, plane ∈ planes
                                ∧ z = focal_plane_z slice_spacing plane.
Proof.
  revert focal_planes. induction planes as [|p planes IH]; intros s; simpl.
  - split; [by left|]. intros [?|(p & Hp & _)]; [done|]. by inversion Hp.
  - rewrite IH, elem_of_union, elem_of_singleton. split.
    + intros [[?| ->]|(q & Hq & ->)]; [by left|right..].
      * exists p. split; [left|done].
      * exists q. split; [by right|done].
    + intros [?|(q & Hq & ->)]; [by left; left|].
      apply elem_of_cons in Hq as [->|Hq]; [by left; right|].
      right. by exists q.
Qed.

Lemma read_focal_planes_loop (datasets : list (WsiDataset F))
    (focal_planes : gset F) :
  let loop := for_each (λ (focal_planes : gset F) dataset,
      let slice_spacing := spacing_between_slices dataset in
      let number_of_focal_planes := number_of_focal_planes dataset in
      if bool_decide (slice_spacing = float_of_int 0)
         && bool_decide (number_of_focal_planes ≠ 1)
      then Err (ValueError "")
      else Ok (foldl (λ focal_planes plane,
                        focal_planes ∪ {[ focal_plane_z slice_spacing plane ]})
                     focal_planes (seqZ 0 number_of_focal_planes))) in
  (Exists missing_slice_spacing datasets →
   loop datasets focal_planes = Err (ValueError ""))
  ∧ (¬ Exists missing_slice_spacing datasets →
     ∃ s, loop datasets focal_planes = Ok s
          ∧ ∀ z, z ∈ s ↔ z ∈ focal_planes ∨ declared_plane datasets z).
Proof.
  intros loop. revert focal_planes.
  induction datasets as [|d ds IH]; intros s0.
  { split; [by intros ?%Exists_nil|]. intros _. exists s0. split; [done|].
    intros z. split; [by left|]. intros [?|(d & p & Hd & _)]; [done|].
    by inversion Hd. }
  subst loop. cbn [for_each]. cbv zeta in *.
  destruct (decide (missing_slice_spacing d)) as [Hbad|Hgood].
  - destruct Hbad as [Hs Hn].
    rewrite (bool_decide_eq_true_2 _ Hs), (bool_decide_eq_true_2 _ Hn). simpl.
    split; [done|].
    intros Hne. destruct Hne. by left.
  - assert (bool_decide (spacing_between_slices d = float_of_int 0)
            && bool_decide (number_of_focal_planes d ≠ 1) = false) as ->.
    { apply andb_false_iff. rewrite !bool_decide_eq_false.
      destruct (decide (spacing_between_slices d = float_of_int 0));
        [right|by left].
      intros Hn. by apply Hgood. }
    simpl.
    destruct (IH (foldl (λ focal_planes plane,
                    focal_planes ∪ {[ focal_plane_z (spacing_between_slices d)
                                        plane ]})
                  s0 (seqZ 0 (number_of_focal_planes d)))) as [IHbad IHgood].
    split.
    + intros [?|Hbad]%Exists_cons; [done|]. by apply IHbad.
    + intros Hne. destruct IHgood as (s & Hs & Hmem).
      { intros Hbad. apply Hne. by right. }
      exists s. split; [done|]. intros z. rewrite Hmem, add_planes_elem_of.
      split.
      * intros [[?|(p & Hp & ->)]|(d' & p & Hd' & Hp & ->)]; [by left|right..].
        -- exists d, p. apply elem_of_seqZ in Hp.
           split; [left|split; [lia|done]].
        -- exists d', p. split; [by right|done].
      * intros [?|(d' & p & Hd' & Hp & ->)]; [by left; left|].
        apply elem_of_cons in Hd' as [->|Hd'].
        -- left; right. exists p. split; [|done]. apply elem_of_seqZ. lia.
        -- right. by exists d', p.
Qed.

(** C10. Building the focal planes of a full tile index raises (ValueError)
    when some dataset has spacing between slices 0 and a number of focal
    planes other than 1; otherwise the focal planes are, without duplicates,
    exactly the values round(i * spacing_between_slices * 1000, 3) for
    0 <= i < number_of_focal_planes over all datasets. *)
Theorem read_focal_planes_from_datasets_spec (datasets : list (WsiDataset F)) :
  (Exists missing_slice_spacing datasets →
   _read_focal_planes_from_datasets datasets = Err (ValueError ""))
  ∧ (¬ Exists missing_slice_spacing datasets →
     ∃ focal_planes,
       _read_focal_planes_from_datasets datasets = Ok focal_planes
       ∧ NoDup focal_planes
       ∧ ∀ z, z ∈ focal_planes ↔ declared_plane datasets z).
Proof.
  destruct (read_focal_planes_loop datasets ∅) as (Hbad & Hgood).
  unfold _read_focal_planes_from_datasets. split.
  - intros Hex. pose proof (Hbad Hex) as E. cbv zeta in E. by rewrite E.
  - intros Hne. destruct (Hgood Hne) as (s & E & Hmem). cbv zeta in E.
    rewrite E. simpl.
    eexists. split; [done|]. split; [apply NoDup_elements|].
    intros z. rewrite elem_of_elements, Hmem.
    split; [intros [?%elem_of_empty|?]; done|by right].
Qed.

End focal_planes.

(** The theorem at a dataset with two focal planes 1 mm apart, and at the
    same dataset with the spacing set to 0. *)
Lemma read_focal_planes_from_datasets_spec_witness :
  (∃ focal_planes,
     _read_focal_planes_from_datasets [example_full_dataset] = Ok focal_planes
     ∧ NoDup focal_planes
     ∧ ∀ z, z ∈ focal_planes ↔ declared_plane [example_full_dataset] z)
  ∧ _read_focal_planes_from_datasets [example_unspaced_dataset]
    = Err (ValueError "").
Proof.
  split.
  - apply (read_focal_planes_from_datasets_spec [example_full_dataset]).
    intros [[Hs _]|Hex]%Exists_cons; [discriminate Hs|by inversion Hex].
  - apply (read_focal_planes_from_datasets_spec [example_unspaced_dataset]).
    left. split; [reflexivity|]. simpl. lia.
Defined.

(** ** Files of an instance *)

Section files.
Context `{Float F} `{Pillow Image}.

Implicit Types (self : WsiDicomImageData F Image) (file : WsiDicomFile F).

Lemma dict_set_keys {V} (key : V → Z) (d : list (Z * V)) (v : V) :
  Forall (λ item, item.1 = key item.2) d →
  Forall (λ item, item.1 = key item.2) (dict_set d (key v) v).
Proof.
  induction 1 as [|[k' v'] d Hk Hd IH]; simpl.
  - by repeat constructor.
  - destruct (decide (key v = k')); constructor; done.
Qed.

Lemma OrderedDict_keys {V} (key : V → Z) (l : list V) :
  Forall (λ item, item.1 = key item.2) (OrderedDict ((λ v, (key v, v)) <$> l)).
Proof.
  unfold OrderedDict.
  assert (∀ d, Forall (λ item : Z * V, item.1 = key item.2) d →
               Forall (λ item : Z * V, item.1 = key item.2)
                 (foldl (λ d '(k, v), dict_set d k v) d
                    ((λ v, (key v, v)) <$> l))) as Hgen.
  { induction l as [|v l IH]; intros d Hd; simpl; [done|].
    apply IH. by apply dict_set_keys. }
  apply Hgen. constructor.
Qed.

(** The keys of the files of an instance are their frame offsets. *)
Lemma WsiDicomImageData_init_keys files transfer_syntax self :
  WsiDicomImageData_init files transfer_syntax = Ok self →
  Forall (λ item, item.1 = file_frame_offset item.2) (_files self).
Proof.
  unfold WsiDicomImageData_init.
  intros (base_file & _ & (tiles & _ & (first & _ & [= <-])%bind_Ok)%bind_Ok)
    %bind_Ok.
  simpl. apply OrderedDict_keys.
Qed.

Lemma get_file_Ok self frame_index key file :
  _get_file self frame_index = Ok (key, file) →
  (key, file) ∈ _files self
  ∧ key ≤ frame_index < key + file_frame_count file.
Proof.
  unfold _get_file.
  destruct (list_find _ (_files self)) as [[i item]|] eqn:Hfind; [|done].
  simpl. intros [= ->].
  apply list_find_Some in Hfind as (Hi & Hholds & _). simpl in Hholds.
  split; [by eapply list_elem_of_lookup_2|lia].
Qed.

Lemma get_file_not_found self frame_index :
  (∀ key file, (key, file) ∈ _files self →
               ¬ key ≤ frame_index < key + file_frame_count file) →
  _get_file self frame_index = Err (WsiDicomNotFoundError "Frame index").
Proof.
  intros Hnone. unfold _get_file.
  destruct (list_find _ (_files self)) as [[i [key file]]|] eqn:Hfind; [|done].
  apply list_find_Some in Hfind as (Hi & Hholds & _). simpl in Hholds.
  destruct (Hnone key file); [by eapply list_elem_of_lookup_2|lia].
Qed.

Lemma get_file_found self frame_index key file :
  (key, file) ∈ _files self →
  key ≤ frame_index < key + file_frame_count file →
  ∃ item, _get_file self frame_index = Ok item.
Proof.
  intros Hin Hholds. unfold _get_file.
  destruct (list_find _ (_files self)) as [[i item]|] eqn:Hfind; [by eexists|].
  apply list_find_None in Hfind. rewrite Forall_forall in Hfind.
  destruct (Hfind _ Hin). simpl. lia.
Qed.

(** C9. In an instance built from files, the file lookup of a frame index
    returns a contributing file whose range
    [frame_offset, frame_offset + frame_count) holds the index, the one such
    file when there is only one; it raises [WsiDicomNotFoundError] when no
    contributing file holds the index, and so does the read of a tile,
    encoded or decoded, whose frame index no contributing file holds. *)
Theorem get_file_unique_or_not_found files transfer_syntax self
    (frame_index : Z) :
  WsiDicomImageData_init files transfer_syntax = Ok self →
  (∀ key file,
     _get_file self frame_index = Ok (key, file) →
     contributing_file self file ∧ file_holds file frame_index)
  ∧ (∀ file,
       contributing_file self file → file_holds file frame_index →
       (∀ file', contributing_file self file' → file_holds file' frame_index →
                 file' = file) →
       _get_file self frame_index = Ok (file_frame_offset file, file))
  ∧ ((∀ file, contributing_file self file → ¬ file_holds file frame_index) →
     _get_file self frame_index = Err (WsiDicomNotFoundError "Frame index")
     ∧ ∀ tile z path,
         _get_frame_index self tile z path = Ok frame_index →
         frame_index ≠ -1 →
         _get_encoded_tile tile z path self
           = Err (WsiDicomNotFoundError "Frame index")
         ∧ _get_decoded_tile tile z path self
           = Err (WsiDicomNotFoundError "Frame index")).
Proof.
  intros Hinit.
  pose proof (WsiDicomImageData_init_keys _ _ _ Hinit) as Hkeys.
  rewrite Forall_forall in Hkeys.
  assert (Hfound : ∀ key file,
     _get_file self frame_index = Ok (key, file) →
     contributing_file self file ∧ file_holds file frame_index).
  { intros key file [Hin Hholds]%get_file_Ok.
    pose proof (Hkeys _ Hin) as Hk. simpl in Hk. subst key. done. }
  split; [exact Hfound|]. split.
  - intros file Hin Hholds Huniq.
    destruct (get_file_found self frame_index _ file Hin Hholds)
      as [[key file'] Hget].
    destruct (Hfound _ _ Hget) as [Hin' Hholds'].
    pose proof (get_file_Ok _ _ _ _ Hget) as [Hin'' _].
    pose proof (Hkeys _ Hin'') as Hk. simpl in Hk.
    rewrite Hget, Hk. by rewrite (Huniq file' Hin' Hholds').
  - intros Hnone.
    assert (_get_file self frame_index
            = Err (WsiDicomNotFoundError "Frame index")) as Hget.
    { apply get_file_not_found. intros key file Hin Hholds.
      pose proof (Hkeys _ Hin) as Hk. simpl in Hk. subst key.
      by apply (Hnone file). }
    split; [exact Hget|].
    intros tile z path Hidx Hne.
    unfold _get_encoded_tile, _get_decoded_tile, mbind, st_bind, get, lift.
    rewrite Hidx. destruct (decide (frame_index = -1)); [done|].
    unfold _get_tile_frame. by rewrite Hget.
Qed.

End files.

(** The theorem at an instance of two concatenated files that hold the frames
    0 to 3: no file holds the frame 4. *)
Lemma get_file_unique_or_not_found_witness :
  ∃ self : WsiDicomImageData Z Size,
    WsiDicomImageData_init example_part_files JPEGBaseline8Bit = Ok self
    ∧ _get_file self 4 = Err (WsiDicomNotFoundError "Frame index").
Proof.
  eexists. split; [vm_compute; reflexivity|].
  match goal with
  | |- _get_file ?self _ = _ =>
      destruct (get_file_unique_or_not_found (Image:=Size) example_part_files
                  JPEGBaseline8Bit self 4) as (_ & _ & Hnone)
  end; [vm_compute; reflexivity|].
  apply Hnone. intros file Hin Hholds. unfold contributing_file in Hin.
  cbn [_files] in Hin.
  repeat (apply elem_of_cons in Hin as [Hin|Hin];
          [injection Hin as _ ->; unfold file_holds in Hholds;
           cbn [file_frame_offset file_frame_count] in Hholds; lia|]).
  by apply elem_of_nil in Hin.
Defined.

(** ** Region to tile range *)

Lemma ceil_div_sub_1 (a b : Z) : 0 < b → ceil_div a b - 1 = (a - 1) `div` b.
Proof.
  intros Hb. unfold ceil_div.
  pose proof (Z.div_mod (a - 1) b) as Hdm.
  pose proof (Z.mod_pos_bound (a - 1) b Hb) as Hr.
  assert ((- a) `div` b = - ((a - 1) `div` b) - 1) as ->; [|lia].
  symmetry. apply (Z.div_unique _ _ _ (b - (a - 1) `mod` b - 1)); lia.
Qed.

Lemma div_in_tile (a b t : Z) : t * b ≤ a < (t + 1) * b → a `div` b = t.
Proof.
  intros Ha. assert (0 < b) by lia.
  symmetry. apply (Z.div_unique _ _ _ (a - t * b)); lia.
Qed.

Lemma seqZ_one (m : Z) : seqZ m 1 = [m].
Proof. reflexivity. Qed.

Lemma seqZ_two (m : Z) : seqZ m 2 = [m; m + 1].
Proof. unfold seqZ. simpl. f_equal. f_equal. lia. Qed.

Lemma iterate_all_single (tile : Point) :
  iterate_all (mkRegion tile (mkSize 0 0)) true = [tile].
Proof.
  unfold iterate_all, start, end_. destruct tile as [tx ty]. simpl.
  replace (ty + 0 + 1 - ty) with 1 by lia.
  replace (tx + 0 + 1 - tx) with 1 by lia.
  by rewrite !seqZ_one.
Qed.

Lemma iterate_all_row_of_two (tile : Point) :
  iterate_all (mkRegion tile (mkSize 1 0)) true
  = [tile; mkPoint (x tile + 1) (y tile)].
Proof.
  unfold iterate_all, start, end_. destruct tile as [tx ty]. simpl.
  replace (ty + 0 + 1 - ty) with 1 by lia.
  replace (tx + 1 + 1 - tx) with 2 by lia.
  by rewrite seqZ_one, seqZ_two.
Qed.

Lemma iterate_all_column_of_two (tile : Point) :
  iterate_all (mkRegion tile (mkSize 0 1)) true
  = [tile; mkPoint (x tile) (y tile + 1)].
Proof.
  unfold iterate_all, start, end_. destruct tile as [tx ty]. simpl.
  replace (ty + 1 + 1 - ty) with 2 by lia.
  replace (tx + 0 + 1 - tx) with 1 by lia.
  by rewrite seqZ_one, seqZ_two.
Qed.

Section tile_range.
Context `{Float F} `{Pillow Image}.

Implicit Types (self : WsiDicomImageData F Image).

Lemma get_tile_range_unfold self pixel_region z path :
  0 < width (ImageData_tile_size self) →
  0 < height (ImageData_tile_size self) →
  get_tile_range self pixel_region z path
  = if valid_tiles self
         (spec_tile_range (ImageData_tile_size self) pixel_region) z path
    then Ok (spec_tile_range (ImageData_tile_size self) pixel_region)
    else Err (WsiDicomOutOfBoundsError "Tile region").
Proof.
  intros Hw Hh. unfold get_tile_range, spec_tile_range.
  assert (Point_sub_int
            (Point_truediv (end_ pixel_region) (ImageData_tile_size self)) 1
          = Point_floordiv (Point_sub_int (end_ pixel_region) 1)
              (ImageData_tile_size self)) as ->.
  { unfold Point_sub_int, Point_truediv, Point_floordiv. simpl.
    by rewrite !ceil_div_sub_1. }
  by destruct (valid_tiles _ _ _ _).
Qed.

(** C5. For a positive tile size, [get_tile_range] of a pixel region is the
    inclusive tile range from the region start floor-divided by the tile size
    to the region end minus one floor-divided by the tile size, returned when
    it is valid for the index, and [WsiDicomOutOfBoundsError] is raised when
    it is not. A region whose first and last pixel lie in one tile gives the
    range of that single tile; a region from one tile into the next tile of
    the row (or of the column) gives the range of these two tiles; the range
    of a region, so of a region of no area too, starts at the tile of its
    origin. *)
Theorem get_tile_range_spec self pixel_region z path :
  0 < width (ImageData_tile_size self) →
  0 < height (ImageData_tile_size self) →
  let tile_size := ImageData_tile_size self in
  let tile_region := spec_tile_range tile_size pixel_region in
  start tile_region = Point_floordiv (start pixel_region) tile_size
  ∧ end_ tile_region = Point_floordiv (last_pixel pixel_region) tile_size
  ∧ (valid_tiles self tile_region z path = true →
     get_tile_range self pixel_region z path = Ok tile_region)
  ∧ (valid_tiles self tile_region z path = false →
     get_tile_range self pixel_region z path
     = Err (WsiDicomOutOfBoundsError "Tile region"))
  ∧ (∀ tile,
       in_tile tile_size tile (start pixel_region) →
       in_tile tile_size tile (last_pixel pixel_region) →
       tile_region = mkRegion tile (mkSize 0 0)
       ∧ iterate_all tile_region true = [tile])
  ∧ (∀ tile,
       in_tile tile_size tile (start pixel_region) →
       in_tile tile_size (mkPoint (x tile + 1) (y tile))
               (last_pixel pixel_region) →
       tile_region = mkRegion tile (mkSize 1 0)
       ∧ iterate_all tile_region true = [tile; mkPoint (x tile + 1) (y tile)])
  ∧ (∀ tile,
       in_tile tile_size tile (start pixel_region) →
       in_tile tile_size (mkPoint (x tile) (y tile + 1))
               (last_pixel pixel_region) →
       tile_region = mkRegion tile (mkSize 0 1)
       ∧ iterate_all tile_region true = [tile; mkPoint (x tile) (y tile + 1)])
  ∧ (∀ tile,
       in_tile tile_size tile (position pixel_region) →
       position tile_region = tile).
Proof.
  intros Hw Hh tile_size tile_region.
  assert (Hrange : ∀ first last,
            in_tile tile_size first (start pixel_region) →
            in_tile tile_size last (last_pixel pixel_region) →
            tile_region
            = mkRegion first (mkSize (x last - x first) (y last - y first))).
  { intros [fx fy] [lx ly] [Hfx Hfy] [Hlx Hly]. simpl in *.
    unfold tile_region, spec_tile_range, Region_from_points, Size_from_points,
      Point_floordiv. fold (last_pixel pixel_region). simpl.
    by rewrite (div_in_tile _ _ _ Hfx), (div_in_tile _ _ _ Hfy),
      (div_in_tile _ _ _ Hlx), (div_in_tile _ _ _ Hly). }
  split; [done|]. split.
  { unfold tile_region, spec_tile_range, end_, Region_from_points,
      Size_from_points, Point_add_size, last_pixel, Point_floordiv. simpl.
    f_equal; ring. }
  split; [|split].
  { intros Hvalid. rewrite get_tile_range_unfold by done.
    fold tile_size tile_region. by rewrite Hvalid. }
  { intros Hvalid. rewrite get_tile_range_unfold by done.
    fold tile_size tile_region. by rewrite Hvalid. }
  split; [|split; [|split; [|]]].
  - intros tile Hfirst Hlast.
    rewrite (Hrange _ _ Hfirst Hlast), !Z.sub_diag.
    split; [done|]. apply iterate_all_single.
  - intros tile Hfirst Hlast.
    rewrite (Hrange _ _ Hfirst Hlast). simpl.
    replace (x tile + 1 - x tile) with 1 by lia. rewrite Z.sub_diag.
    split; [done|]. apply iterate_all_row_of_two.
  - intros tile Hfirst Hlast.
    rewrite (Hrange _ _ Hfirst Hlast). simpl.
    replace (y tile + 1 - y tile) with 1 by lia. rewrite Z.sub_diag.
    split; [done|]. apply iterate_all_column_of_two.
  - intros [tx ty] [Hx Hy]. simpl in *.
    unfold tile_region, spec_tile_range, Region_from_points, Point_floordiv,
      start. simpl.
    by rewrite (div_in_tile _ _ _ Hx), (div_in_tile _ _ _ Hy).
Qed.

End tile_range.

(** The theorem at the image of 2×2 tiles of 1024×1024 pixels: the region of
    100×100 pixels at (1000, 0) lies across the tiles (0, 0) and (1, 0). *)
Lemma get_tile_range_spec_witness :
  ∃ self : WsiDicomImageData Z Size,
    WsiDicomImageData_init example_stitch_files JPEGBaseline8Bit = Ok self
    ∧ get_tile_range self (mkRegion (mkPoint 1000 0) (mkSize 100 100)) 0 "0"
      = Ok (mkRegion (mkPoint 0 0) (mkSize 1 0)).
Proof.
  eexists. split; [vm_compute; reflexivity|].
  match goal with
  | |- get_tile_range ?self ?region ?z ?path = _ =>
      destruct (get_tile_range_spec self region z path)
        as (_ & _ & Hvalid & _)
  end; [reflexivity..|].
  etransitivity; [apply Hvalid; vm_compute; reflexivity|].
  vm_compute; reflexivity.
Defined.

(** ** Stitching *)

Section stitching.
Context `{Float F} `{Pillow Image}.

Implicit Types (self : WsiDicomImageData F Image).

Lemma write_indexer_spec (index : Point) (previous_size image_size : Size) :
  _write_indexer index previous_size image_size
  = spec_next_cursor image_size index previous_size.
Proof.
  unfold _write_indexer, spec_next_cursor. simpl.
  destruct (decide (x index + width previous_size >= width image_size)),
    (decide (x index + width previous_size < width image_size));
    done || lia.
Qed.

Lemma stitch_pastes_cursor tiles z path region write_index self pastes self' :
  stitch_pastes tiles z path region write_index self = Ok (pastes, self') →
  length pastes = length tiles
  ∧ follows_write_cursor (size region) write_index pastes.
Proof.
  revert write_index self pastes.
  induction tiles as [|tile tiles IH]; intros write_index self pastes; simpl.
  - by intros [= <- <-].
  - intros (tile_image & s1 & Htile & Hrest)%st_bind_Ok.
    apply st_bind_Ok in Hrest as (rest & s2 & Hrest & [= <- <-]).
    apply IH in Hrest as [Hlen Hfollows]. simpl.
    rewrite write_indexer_spec in Hfollows. by rewrite Hlen.
Qed.

Lemma stitch_tiles_pastes region path z self image self' :
  stitch_tiles region path z self = Ok (image, self') →
  ∃ mode stitching_tiles pastes,
    image_mode self = Ok mode
    ∧ get_tile_range self region z path = Ok stitching_tiles
    ∧ stitch_pastes (iterate_all stitching_tiles true) z path region
                    (mkPoint 0 0) self = Ok (pastes, self')
    ∧ image = foldl (λ image '(tile_image, write_index),
                       Image_paste image tile_image
                                   (x write_index, y write_index))
                    (Image_new mode (size region) None) pastes.
Proof.
  unfold stitch_tiles.
  intros (s0 & s1 & [= <- <-] & Hrest)%st_bind_Ok.
  apply st_bind_Ok in Hrest as (mode & s1 & [Hmode ->]%lift_Ok & Hrest).
  apply st_bind_Ok in Hrest as (range & s1 & [Hrange ->]%lift_Ok & Hrest).
  apply st_bind_Ok in Hrest as (pastes & s1 & Hpastes & [= <- <-]).
  by exists mode, range, pastes.
Qed.

Lemma aligned_tile_range self (a b : Z) z path stitching_tiles :
  ImageData_tile_size self = mkSize 1024 1024 →
  get_tile_range self
    (mkRegion (mkPoint (1024 * a) (1024 * b)) (mkSize 2048 2048)) z path
  = Ok stitching_tiles →
  iterate_all stitching_tiles true
  = [mkPoint a b; mkPoint (a + 1) b; mkPoint a (b + 1);
     mkPoint (a + 1) (b + 1)].
Proof.
  intros Hts. rewrite get_tile_range_unfold by (rewrite Hts; done).
  rewrite Hts. destruct (valid_tiles _ _ _ _); [|done]. intros [= <-].
  unfold spec_tile_range, iterate_all, Region_from_points, Size_from_points,
    Point_floordiv, Point_sub_int, start, end_, Point_add_size. simpl.
  rewrite (div_in_tile (1024 * a) 1024 a) by lia.
  rewrite (div_in_tile (1024 * b) 1024 b) by lia.
  rewrite (div_in_tile (1024 * a + 2048 - 1) 1024 (a + 1)) by lia.
  rewrite (div_in_tile (1024 * b + 2048 - 1) 1024 (b + 1)) by lia.
  replace (b + (b + 1 - b) + 1 - b) with 2 by lia.
  replace (a + (a + 1 - a) + 1 - a) with 2 by lia.
  by rewrite !seqZ_two.
Qed.

(** C7. The pastes of [stitch_tiles] are made at a write cursor that starts
    at (0, 0), advances in x by the width of the pasted tile after each
    paste, and is reset to x = 0 with y advanced by the height of the pasted
    tile once x would reach or exceed the width of the region. Stitching a
    region of 2048×2048 pixels that starts at a tile corner, from tiles of
    1024×1024 pixels, pastes the four tiles of the region at (0, 0),
    (1024, 0), (0, 1024) and (1024, 1024). *)
Theorem stitch_tiles_write_cursor region path z self image self' :
  stitch_tiles region path z self = Ok (image, self') →
  ∃ mode stitching_tiles pastes,
    image_mode self = Ok mode
    ∧ get_tile_range self region z path = Ok stitching_tiles
    ∧ stitch_pastes (iterate_all stitching_tiles true) z path region
                    (mkPoint 0 0) self = Ok (pastes, self')
    ∧ image = foldl (λ image '(tile_image, write_index),
                       Image_paste image tile_image
                                   (x write_index, y write_index))
                    (Image_new mode (size region) None) pastes
    ∧ length pastes = length (iterate_all stitching_tiles true)
    ∧ follows_write_cursor (size region) (mkPoint 0 0) pastes
    ∧ (∀ a b,
         ImageData_tile_size self = mkSize 1024 1024 →
         region = mkRegion (mkPoint (1024 * a) (1024 * b))
                           (mkSize 2048 2048) →
         Forall (λ paste, Image_size paste.1 = mkSize 1024 1024) pastes →
         iterate_all stitching_tiles true
         = [mkPoint a b; mkPoint (a + 1) b; mkPoint a (b + 1);
            mkPoint (a + 1) (b + 1)]
         ∧ snd <$> pastes
           = [mkPoint 0 0; mkPoint 1024 0; mkPoint 0 1024;
              mkPoint 1024 1024]).
Proof.
  intros (mode & range & pastes & Hmode & Hrange & Hpastes & ->)
    %stitch_tiles_pastes.
  exists mode, range, pastes.
  destruct (stitch_pastes_cursor _ _ _ _ _ _ _ _ Hpastes) as [Hlen Hfollows].
  do 6 (split; [done|]).
  intros a b Hts -> Hsizes.
  pose proof (aligned_tile_range _ _ _ _ _ _ Hts Hrange) as Htiles.
  split; [done|]. rewrite Htiles in Hlen.
  destruct pastes as [|[i0 p0] [|[i1 p1] [|[i2 p2] [|[i3 p3] [|? ?]]]]];
    try discriminate Hlen.
  apply Forall_cons in Hsizes as [Hs0 Hsizes].
  apply Forall_cons in Hsizes as [Hs1 Hsizes].
  apply Forall_cons in Hsizes as [Hs2 Hsizes].
  apply Forall_cons in Hsizes as [Hs3 _].
  simpl in *. destruct Hfollows as (-> & Hf1).
  rewrite Hs0 in Hf1. destruct Hf1 as (-> & Hf2).
  rewrite Hs1 in Hf2. destruct Hf2 as (-> & Hf3).
  rewrite Hs2 in Hf3. destruct Hf3 as (-> & _).
  reflexivity.
Qed.

End stitching.

(** The theorem at the image of 2×2 tiles of 1024×1024 pixels, stitched as a
    whole. *)
Lemma stitch_tiles_write_cursor_witness :
  ∃ (self : WsiDicomImageData Z Size) image self',
    WsiDicomImageData_init example_stitch_files JPEGBaseline8Bit = Ok self
    ∧ stitch_tiles (mkRegion (mkPoint 0 0) (mkSize 2048 2048)) "0" 0 self
      = Ok (image, self')
    ∧ ∃ pastes,
        stitch_pastes (iterate_all (mkRegion (mkPoint 0 0) (mkSize 1 1)) true)
          0 "0" (mkRegion (mkPoint 0 0) (mkSize 2048 2048)) (mkPoint 0 0) self
        = Ok (pastes, self')
        ∧ snd <$> pastes
          = [mkPoint 0 0; mkPoint 1024 0; mkPoint 0 1024; mkPoint 1024 1024].
Proof.
  eexists _, _, _. split; [vm_compute; reflexivity|].
  split; [vm_compute; reflexivity|].
  match goal with
  | |- ∃ pastes, stitch_pastes _ _ _ ?region _ ?self = Ok (_, ?self') ∧ _ =>
      destruct (stitch_tiles_write_cursor region "0" 0 self
                  (mkSize 2048 2048) self')
        as (mode & range & pastes & _ & Hrange & Hpastes & _ & _ & _
            & Hexample)
  end; [vm_compute; reflexivity|].
  injection Hrange as <-. exists pastes. split; [exact Hpastes|].
  apply (Hexample 0 0); [reflexivity|reflexivity|].
  vm_compute in Hpastes. injection Hpastes as <-.
  repeat constructor.
Defined.

(** ** Cropped tiles *)

Section cropping.
Context `{Float F} `{Pillow Image}.

Implicit Types (self : WsiDicomImageData F Image).

Lemma blank_tile_Ok self image self' :
  blank_tile self = Ok (image, self') →
  _files self' = _files self ∧ tiles self' = tiles self
  ∧ _transfer_syntax self' = _transfer_syntax self
  ∧ _blank_tile self' = Some image
  ∧ (∀ cached, _blank_tile self = Some cached → image = cached ∧ self' = self)
  ∧ (_blank_tile self = None → _create_blank_tile self = Ok image).
Proof.
  unfold blank_tile. destruct (_blank_tile self) as [cached|] eqn:Hcache.
  - intros [= <- <-]. split_and!; try done. by intros ? [= <-].
  - destruct (_create_blank_tile self) as [created|] eqn:Hcreate; [|done].
    simpl. intros [= <- <-]. split_and!; done.
Qed.

Lemma blank_encoded_tile_Ok self frame self' :
  blank_encoded_tile self = Ok (frame, self') →
  _files self' = _files self ∧ tiles self' = tiles self
  ∧ _encoded_blank_tile self' = Some frame
  ∧ (∀ cached, _encoded_blank_tile self = Some cached →
               frame = cached ∧ self' = self)
  ∧ (_encoded_blank_tile self = None →
     ∃ image s1, blank_tile self = Ok (image, s1)
                 ∧ encode s1 image = Ok frame).
Proof.
  unfold blank_encoded_tile.
  destruct (_encoded_blank_tile self) as [cached|] eqn:Hcache.
  - intros [= <- <-]. split_and!; try done. by intros ? [= <-].
  - destruct (blank_tile self) as [[image s1]|] eqn:Hblank; [|done]. simpl.
    destruct (encode s1 image) as [encoded|] eqn:Hencode; [|done]. simpl.
    intros [= <- <-].
    destruct (blank_tile_Ok _ _ _ Hblank) as (Hf & Ht & _). simpl.
    split_and!; try done. intros _. by exists image, s1.
Qed.

Lemma get_tile_frame_Ok frame_index self frame self' :
  _get_tile_frame frame_index self = Ok (frame, self') →
  tiles self' = tiles self ∧ _transfer_syntax self' = _transfer_syntax self.
Proof.
  unfold _get_tile_frame.
  destruct (_get_file self frame_index) as [[key file]|]; [|done]. simpl.
  destruct (read_frame frame_index file) as [[tile_frame file']|]; [|done].
  simpl. by intros [= <- <-].
Qed.

Lemma get_decoded_tile_tiles tile z path self image self' :
  _get_decoded_tile tile z path self = Ok (image, self') →
  tiles self' = tiles self.
Proof.
  unfold _get_decoded_tile.
  intros (s0 & s1 & [= <- <-] & Hrest)%st_bind_Ok.
  apply st_bind_Ok in Hrest as (frame_index & s1 & [_ ->]%lift_Ok & Hrest).
  destruct (decide (frame_index = -1)).
  - by apply blank_tile_Ok in Hrest as (_ & ? & _).
  - apply st_bind_Ok in Hrest as (frame & s1 & Hframe & [= <- <-]).
    by apply get_tile_frame_Ok in Hframe as [? _].
Qed.

Lemma get_encoded_tile_tiles tile z path self frame self' :
  _get_encoded_tile tile z path self = Ok (frame, self') →
  tiles self' = tiles self.
Proof.
  unfold _get_encoded_tile.
  intros (s0 & s1 & [= <- <-] & Hrest)%st_bind_Ok.
  apply st_bind_Ok in Hrest as (frame_index & s1 & [_ ->]%lift_Ok & Hrest).
  destruct (decide (frame_index = -1)).
  - by apply blank_encoded_tile_Ok in Hrest as (_ & ? & _).
  - by apply get_tile_frame_Ok in Hrest as [? _].
Qed.

(** [get_tile] returns the decoded tile clipped to its intersection with the
    crop region, and the decoded tile as it is when the intersection has the
    size of a tile. *)
Lemma get_tile_clips tile z path region self image self' :
  _get_decoded_tile tile z path self = Ok (image, self') →
  let tile_crop := inside_crop region tile (ImageData_tile_size self) in
  get_tile tile z path (CropRegion region) self
  = Ok (if decide (size tile_crop = ImageData_tile_size self) then image
        else Image_crop image (box tile_crop), self').
Proof.
  intros Hdecoded tile_crop. unfold get_tile, mbind, st_bind.
  rewrite Hdecoded. simpl.
  pose proof (get_decoded_tile_tiles _ _ _ _ _ _ Hdecoded) as Htiles.
  unfold ImageData_tile_size. rewrite Htiles.
  fold (ImageData_tile_size self).
  by destruct (decide (_ = _)).
Qed.

(** [get_encoded_tile] of a tile that is partly in the crop region encodes
    the whole decoded tile: nothing of the crop region is in the result. *)
Lemma get_encoded_tile_not_clipped tile z path region self tile_frame self' :
  _get_encoded_tile tile z path self = Ok (tile_frame, self') →
  size (inside_crop region tile (ImageData_tile_size self))
  ≠ ImageData_tile_size self →
  get_encoded_tile tile z path (CropRegion region) self
  = lift (encode self' (Image_open tile_frame)) self'.
Proof.
  intros Hencoded Hsize. unfold get_encoded_tile, mbind, st_bind.
  rewrite Hencoded. simpl.
  pose proof (get_encoded_tile_tiles _ _ _ _ _ _ Hencoded) as Htiles.
  unfold ImageData_tile_size in *. rewrite Htiles.
  by destruct (decide (_ ≠ _)).
Qed.

End cropping.

(** C6 at the image of 1536×1024 pixels in tiles of 1024×1024: of the tile
    (1, 0), 512×1024 pixels are in the image. [get_tile] returns an image of
    512×1024 pixels, and [get_encoded_tile] returns bytes that decode to an
    image of 1024×1024 pixels. *)
Theorem get_encoded_tile_edge_not_clipped :
  ∃ (self : WsiDicomImageData Z Size) image s1 tile_frame s2,
    WsiDicomImageData_init example_edge_files JPEGBaseline8Bit = Ok self
    ∧ size (inside_crop (image_region self) (mkPoint 1 0)
                        (ImageData_tile_size self)) = mkSize 512 1024
    ∧ get_tile (mkPoint 1 0) 0 "0" (CropBool true) self = Ok (image, s1)
    ∧ Image_size image = mkSize 512 1024
    ∧ get_encoded_tile (mkPoint 1 0) 0 "0" (CropBool true) self
      = Ok (tile_frame, s2)
    ∧ Image_size (Image_open tile_frame) = mkSize 1024 1024.
Proof.
  eexists _, _, _, _, _. split; [vm_compute; reflexivity|].
  split; [vm_compute; reflexivity|].
  split; [vm_compute; reflexivity|].
  split; [vm_compute; reflexivity|].
  split; [vm_compute; reflexivity|].
  vm_compute; reflexivity.
Qed.

(** ** The sparse tile index *)

Lemma for_each_invariant {S A} (P : S → Prop) (f : S → A → result S)
    (l : list A) (s s' : S) :
  (∀ s a s', a ∈ l → P s → f s a = Ok s' → P s') →
  P s → for_each f l s = Ok s' → P s'.
Proof.
  revert s. induction l as [|a l IH]; intros s Hstep Hs; simpl.
  - by intros [= <-].
  - intros (s1 & Hf & Hrest)%bind_Ok.
    apply (IH s1); [|by eapply Hstep; [left|..]|done].
    intros s2 b s3 Hb. apply Hstep. by right.
Qed.


Lemma np_index_Ok (n i : Z) (k : nat) :
  np_index n i = Ok k → (k < Z.to_nat n)%nat.
Proof.
  unfold np_index. destruct (decide (0 ≤ i < n)); [intros [= <-]; lia|].
  destruct (decide (- n ≤ i < 0)); [intros [= <-]; lia|done].
Qed.

Section sparse_index.
Context `{Float F}.




End sparse_index.

Section sparse_tiles.
Context `{Float F} `{Pillow Image}.

Implicit Types (self : WsiDicomImageData F Image).

Lemma TileIndex_init_tiled_size (datasets : list (WsiDataset F)) base :
  TileIndex_init datasets = Ok base →
  _tiled_size base = Size_truediv (_image_size base) (_tile_size base).
Proof.
  unfold TileIndex_init.
  by intros (ds & _ & (paths & _ & [= <-])%bind_Ok)%bind_Ok.
Qed.

Lemma valid_tiles_in_bounds self tile z path :
  valid_tiles self (mkRegion tile (mkSize 0 0)) z path = true →
  0 ≤ x tile < width (tiled_size self) ∧ 0 ≤ y tile < height (tiled_size self).
Proof.
  unfold valid_tiles, is_inside, plane_region, start, end_. simpl.
  rewrite !andb_true_iff, !bool_decide_eq_true. lia.
Qed.

(** The tiles that an instance with a sparse index holds valid are in the
    bounds of the index. *)
Lemma valid_tiles_sparse_in_bounds (datasets : list (WsiDataset F))
    (index : SparseTileIndex F) self tile z path :
  SparseTileIndex_init datasets = Ok index →
  tiles self = Sparse index →
  valid_tiles self (mkRegion tile (mkSize 0 0)) z path = true →
  0 ≤ x tile < width (_tiled_size (sparse_base index))
  ∧ 0 ≤ y tile < height (_tiled_size (sparse_base index)).
Proof.
  intros Hinit Htiles Hvalid.
  unfold SparseTileIndex_init in Hinit.
  apply bind_Ok in Hinit as (base & Hbase & Hinit).
  apply bind_Ok in Hinit as (planes & Hplanes & [= <-]). simpl in *.
  destruct (valid_tiles_in_bounds _ _ _ _ Hvalid) as [Hx Hy].
  unfold tiled_size, ImageData_image_size, ImageData_tile_size in Hx, Hy.
  rewrite Htiles in Hx, Hy. cbn [tiles_base sparse_base] in Hx, Hy.
  by rewrite <- (TileIndex_init_tiled_size _ _ Hbase) in Hx, Hy.
Qed.


End sparse_tiles.


(** ** Offset tables *)

Lemma unpack_table_entry (order : byte_order) (bytes_per_item : Z)
    (table : bytes) (i n : nat) :
  0 < bytes_per_item →
  Z.of_nat (length table) = Z.of_nat n * bytes_per_item →
  (i < n)%nat →
  unpack order (Z.to_nat bytes_per_item)
    (slice table (bytes_per_item * Z.of_nat i)
           (bytes_per_item * Z.of_nat i + bytes_per_item))
  = Ok (table_entry order bytes_per_item table i).
Proof.
  intros Hb Hlen Hi. unfold unpack, table_entry.
  rewrite decide_True; [done|].
  unfold slice. rewrite length_take, length_drop. nia.
Qed.

Lemma parse_table_loop (order : byte_order) (bytes_per_item : Z)
    (table : bytes) (pixels_start : Z) (n : nat) :
  0 < bytes_per_item →
  Z.of_nat (length table) = Z.of_nat n * bytes_per_item →
  ∀ (m k : nat) (acc : list (Z * Z)),
    (k + m < n)%nat →
    for_each
      (λ '(this_offset, positions) index,
         next_offset ← unpack order (Z.to_nat bytes_per_item)
                              (slice table index (index + bytes_per_item));
         if decide (invalid_frame_length
                      (next_offset - (this_offset + 4 + 4)))
         then Err (WsiDicomFileError "Invalid frame length")
         else Ok (next_offset,
                  positions ++ [(pixels_start + (this_offset + 4 + 4),
                                 next_offset - (this_offset + 4 + 4))]))
      ((λ j : nat, bytes_per_item + bytes_per_item * Z.of_nat j) <$> seq k m)
      (table_entry order bytes_per_item table k, acc)
    = if decide (Forall (λ position : Z * Z,
                           ¬ invalid_frame_length position.2)
                   (computed_position order bytes_per_item table pixels_start
                    <$> seq k m))
      then Ok (table_entry order bytes_per_item table (k + m),
               acc ++ (computed_position order bytes_per_item table
                         pixels_start <$> seq k m))
      else Err (WsiDicomFileError "Invalid frame length").
Proof.
  intros Hb Hlen m. induction m as [|m IH]; intros k acc Hk.
  - cbn [seq fmap list_fmap for_each]. rewrite decide_True by constructor.
    by rewrite Nat.add_0_r, app_nil_r.
  - cbn [seq fmap list_fmap for_each].
    replace (bytes_per_item + bytes_per_item * Z.of_nat k)
      with (bytes_per_item * Z.of_nat (S k)) by lia.
    rewrite (unpack_table_entry _ _ _ _ n) by (done || lia).
    cbn [mbind result_bind].
    destruct (decide (invalid_frame_length
                        (table_entry order bytes_per_item table (S k)
                         - (table_entry order bytes_per_item table k + 4 + 4))))
      as [Hbad|Hgood].
    + rewrite decide_False; [done|].
      intros [Hhead _]%Forall_cons. apply Hhead. simpl.
      by replace (table_entry order bytes_per_item table (S k)
                  - table_entry order bytes_per_item table k - 8)
        with (table_entry order bytes_per_item table (S k)
              - (table_entry order bytes_per_item table k + 4 + 4)) by lia.
    + cbn [mbind result_bind]. rewrite IH by lia.
      assert (computed_position order bytes_per_item table pixels_start k
              = (pixels_start
                 + (table_entry order bytes_per_item table k + 4 + 4),
                 table_entry order bytes_per_item table (S k)
                 - (table_entry order bytes_per_item table k + 4 + 4)))
        as Hcomp.
      { unfold computed_position. f_equal; lia. }
      destruct (decide (Forall _ (_ <$> seq (S k) m))) as [Hrest|Hrest].
      * rewrite decide_True.
        -- rewrite <- app_assoc. cbn [app]. rewrite Hcomp.
           by replace (S k + m)%nat with (k + S m)%nat by lia.
        -- apply Forall_cons. split; [|done]. by rewrite Hcomp.
      * rewrite decide_False; [done|]. by intros [_ ?]%Forall_cons.
Qed.

Lemma py_range_table (bytes_per_item : Z) (n : nat) :
  0 < bytes_per_item → (0 < n)%nat →
  py_range bytes_per_item (Z.of_nat n * bytes_per_item) bytes_per_item
  = (λ j : nat, bytes_per_item + bytes_per_item * Z.of_nat j)
    <$> seq 0 (n - 1).
Proof.
  intros Hb Hn. unfold py_range.
  replace (bytes_per_item - Z.of_nat n * bytes_per_item)
    with ((1 - Z.of_nat n) * bytes_per_item) by lia.
  rewrite Z.div_mul by lia.
  replace (- (1 - Z.of_nat n)) with (Z.of_nat (n - 1)) by lia.
  unfold seqZ. rewrite Nat2Z.id, <- list_fmap_compose.
  apply list_fmap_ext. intros i j _. simpl. f_equal. lia.
Qed.

Lemma unpack_first_entry (order : byte_order) (bytes_per_item : Z)
    (table : bytes) (n : nat) :
  0 < bytes_per_item →
  Z.of_nat (length table) = Z.of_nat n * bytes_per_item →
  (0 < n)%nat →
  unpack order (Z.to_nat bytes_per_item) (slice table 0 bytes_per_item)
  = Ok (table_entry order bytes_per_item table 0).
Proof.
  intros Hb Hlen Hn.
  rewrite <- (unpack_table_entry order bytes_per_item table 0 n) by done.
  by rewrite Z.mul_0_r, Z.add_0_l.
Qed.

Lemma parse_table_unfold (table : bytes) (table_type : string)
    (pixels_start : Z) (fp : DicomFile) (n : nat) :
  table_type = "bot" ∨ table_type = "eot" →
  (0 < n)%nat →
  Z.of_nat (length table) = Z.of_nat n * table_bytes_per_item table_type →
  let order := table_order fp table_type in
  let bytes_per_item := table_bytes_per_item table_type in
  let computed :=
    computed_position order bytes_per_item table pixels_start
    <$> seq 0 (n - 1) in
  _parse_table table table_type pixels_start fp
  = if decide (Forall (λ position : Z * Z,
                         ¬ invalid_frame_length position.2) computed)
    then read_last_frame pixels_start
           (table_entry order bytes_per_item table (n - 1)) computed fp
    else Err (WsiDicomFileError "Invalid frame length").
Proof.
  intros Htype Hn Hlen order bytes_per_item computed.
  subst order bytes_per_item.
  assert (0 < table_bytes_per_item table_type) as Hb.
  { unfold table_bytes_per_item. by case_decide. }
  pose proof (parse_table_loop (table_order fp table_type)
                (table_bytes_per_item table_type) table pixels_start n Hb
                Hlen (n - 1) 0 [] ltac:(lia)) as Hloop.
  rewrite <- py_range_table in Hloop by done.
  pose proof (unpack_first_entry (table_order fp table_type)
                (table_bytes_per_item table_type) table n Hb Hlen Hn)
    as Hfirst.
  fold computed in Hloop. rewrite Nat.add_0_l, app_nil_l in Hloop.
  rewrite <- Hlen in Hloop.
  unfold _parse_table.
  destruct Htype as [-> | ->].
  - change (table_bytes_per_item "bot") with 4 in *.
    change (table_order fp "bot") with (fp_order fp) in *.
    destruct (decide ("bot" = "bot")); [|done].
    cbv zeta. unfold mbind at 1, st_bind, get.
    unfold mbind at 1. unfold mret, st_ret.
    unfold mbind at 1. unfold lift at 1. rewrite Hfirst.
    unfold mbind at 1. unfold lift at 1. rewrite Hloop.
    by destruct (decide (Forall _ computed)).
  - change (table_bytes_per_item "eot") with 8 in *.
    change (table_order fp "eot") with native_order in *.
    destruct (decide ("eot" = "bot")); [done|].
    destruct (decide ("eot" = "eot")); [|done].
    cbv zeta. unfold mbind at 1, st_bind, get.
    unfold mbind at 1. unfold mret, st_ret.
    unfold mbind at 1. unfold lift at 1. rewrite Hfirst.
    unfold mbind at 1. unfold lift at 1. rewrite Hloop.
    by destruct (decide (Forall _ computed)).
Qed.

Lemma computed_lookup (order : byte_order) (bytes_per_item : Z)
    (table : bytes) (pixels_start : Z) (n i : nat) :
  (i < n)%nat →
  (computed_position order bytes_per_item table pixels_start <$> seq 0 n) !! i
  = Some (computed_position order bytes_per_item table pixels_start i).
Proof. intros Hi. by rewrite list_lookup_fmap, lookup_seq_lt. Qed.

(** C3. For an offset table of n >= 1 entries, basic or extended: when the
    parser returns, frame i < n - 1 has the length
    entry[i+1] - entry[i] - 8 and the position of its data; the last frame
    has the length read from the item header at the position of the last
    entry; no length is zero or odd. A computed length that is zero or odd,
    and a length read from the item header that is zero or odd, abort the
    parsing with [WsiDicomFileError]. *)
Theorem parse_table_frame_lengths (table : bytes) (table_type : string)
    (pixels_start : Z) (fp : DicomFile) (n : nat) :
  table_type = "bot" ∨ table_type = "eot" →
  (0 < n)%nat →
  Z.of_nat (length table) = Z.of_nat n * table_bytes_per_item table_type →
  let entry := table_entry (table_order fp table_type)
                           (table_bytes_per_item table_type) table in
  (∀ positions fp',
     _parse_table table table_type pixels_start fp = Ok (positions, fp') →
     length positions = n
     ∧ (∀ i, (i < n - 1)%nat →
             positions !! i
             = Some (pixels_start + entry i + 8, entry (S i) - entry i - 8))
     ∧ (∃ fp1 length,
          (seek (pixels_start + entry (n - 1)%nat);; read_tag) fp
          = Ok (ItemTag, fp1)
          ∧ read_UL fp1 = Ok (length, fp')
          ∧ positions !! (n - 1)%nat
            = Some (pixels_start + entry (n - 1)%nat + 8, length))
     ∧ Forall (λ position, ¬ invalid_frame_length position.2) positions)
  ∧ (∀ i, (i < n - 1)%nat →
          invalid_frame_length (entry (S i) - entry i - 8) →
          _parse_table table table_type pixels_start fp
          = Err (WsiDicomFileError "Invalid frame length"))
  ∧ (∀ fp1 fp2 length,
       (seek (pixels_start + entry (n - 1)%nat);; read_tag) fp
       = Ok (ItemTag, fp1) →
       read_UL fp1 = Ok (length, fp2) →
       invalid_frame_length length →
       _parse_table table table_type pixels_start fp
       = Err (WsiDicomFileError "Invalid frame length")).
Proof.
  intros Htype Hn Hlen entry.
  rewrite (parse_table_unfold _ _ _ _ n) by done. cbv zeta.
  fold entry.
  set (computed := computed_position _ _ table pixels_start <$> seq 0 (n - 1)).
  assert (length computed = (n - 1)%nat) as Hcomputed.
  { unfold computed. by rewrite length_fmap, length_seq. }
  split; [|split].
  - intros positions fp'.
    destruct (decide (Forall _ computed)) as [Hvalid|]; [|done].
    unfold read_last_frame.
    intros ([] & fp0 & Hseek & Hrest)%st_bind_Ok.
    apply st_bind_Ok in Hrest as (tag & fp1 & Htag & Hrest).
    destruct (decide (tag ≠ ItemTag)) as [|Heq]; [done|].
    apply dec_stable in Heq as ->.
    assert ((seek (pixels_start + entry (n - 1)%nat);; read_tag) fp
            = Ok (ItemTag, fp1)) as Hheader.
    { apply st_bind_Ok. by exists (), fp0. }
    apply st_bind_Ok in Hrest as (len & fp2 & Hlength & Hrest).
    destruct (decide (invalid_frame_length len)) as [|Hlast]; [done|].
    injection Hrest as <- <-.
    split; [rewrite length_app, Hcomputed; simpl; lia|].
    split; [|split].
    + intros i Hi. rewrite lookup_app_l by lia.
      unfold computed. by rewrite computed_lookup by done.
    + exists fp1, len. split; [done|]. split; [done|].
      rewrite lookup_app_r by lia.
      replace (n - 1 - length computed)%nat with 0%nat by lia. simpl.
      do 2 f_equal. lia.
    + apply Forall_app. split; [done|]. by repeat constructor.
  - intros i Hi Hbad. rewrite decide_False; [done|].
    intros Hvalid. rewrite Forall_lookup in Hvalid.
    by apply (Hvalid i _ (computed_lookup _ _ _ _ _ _ Hi)).
  - intros fp1 fp2 len Htag Hlength Hbad.
    destruct (decide (Forall _ computed)); [|done].
    unfold read_last_frame.
    apply st_bind_Ok in Htag as ([] & fp0 & Hseek & Htag).
    unfold mbind, st_bind. rewrite Hseek, Htag.
    destruct (decide (ItemTag ≠ ItemTag)); [done|].
    rewrite Hlength. by rewrite decide_True.
Qed.

(** The theorem at a basic offset table of two entries. *)
Lemma parse_table_frame_lengths_witness :
  ∃ positions fp',
    _parse_table example_table "bot" 0 example_items = Ok (positions, fp')
    ∧ length positions = 2%nat
    ∧ Forall (λ position, ¬ invalid_frame_length position.2) positions.
Proof.
  eexists _, _. split; [vm_compute; reflexivity|].
  destruct (parse_table_frame_lengths example_table "bot" 0 example_items 2)
    as (Hok & _); [by left|lia|reflexivity|].
  destruct (Hok _ _ ltac:(vm_compute; reflexivity)) as (Hlen & _ & _ & Hvalid).
  split; [exact Hlen|exact Hvalid].
Defined.

(** ** Pixel data *)














(** ** Writing the offset tables *)

Lemma write_Ok (data : bytes) (fp : DicomFile) :
  ∃ fp', write data fp = Ok ((), fp').
Proof. cbv [write mbind st_bind get put]. by eexists. Qed.

Lemma write_UL_Ok (value : Z) (fp : DicomFile) :
  0 ≤ value ≤ 2 ^ 32 - 1 → ∃ fp', write_UL value fp = Ok ((), fp').
Proof.
  intros Hvalue. unfold write_UL, mbind, st_bind, get, lift, pack.
  rewrite decide_True by (change (8 * Z.of_nat 4) with 32; lia).
  apply write_Ok.
Qed.

Lemma write_UL_Err (value : Z) (fp : DicomFile) :
  value > 2 ^ 32 - 1 →
  write_UL value fp = Err (StructError "argument out of range").
Proof.
  intros Hvalue. unfold write_UL, mbind, st_bind, get, lift, pack.
  by rewrite decide_False by (change (8 * Z.of_nat 4) with 32; lia).
Qed.

Lemma write_unsigned_long_long_Ok (value : Z) (fp : DicomFile) :
  0 ≤ value ≤ 2 ^ 64 - 1 →
  ∃ fp', _write_unsigned_long_long value fp = Ok ((), fp').
Proof.
  intros Hvalue. unfold _write_unsigned_long_long, mbind, st_bind, lift, pack.
  rewrite decide_True by (change (8 * Z.of_nat 8) with 64; lia).
  apply write_Ok.
Qed.

Lemma for_st_Ok {S A} (body : A → st S ()) (l : list A) (s : S) :
  (∀ a s, a ∈ l → ∃ s', body a s = Ok ((), s')) →
  ∃ s', for_st body l s = Ok ((), s').
Proof.
  revert s. induction l as [|a l IH]; intros s Hbody; simpl.
  - by eexists.
  - destruct (Hbody a s) as [s1 Ha]; [left|].
    unfold mbind, st_bind. rewrite Ha. apply IH.
    intros b s2 Hb. apply Hbody. by right.
Qed.

Lemma for_st_Err {S A} (body : A → st S ()) (l : list A) (a : A) (s : S) :
  a ∈ l → (∀ s, ∃ e, body a s = Err e) → ∃ e, for_st body l s = Err e.
Proof.
  intros Ha Hbody. revert s. induction l as [|b l IH]; intros s.
  - by inversion Ha.
  - simpl. unfold mbind, st_bind.
    destruct (body b s) as [[[] s1]|e] eqn:Hb; [|by eexists].
    apply elem_of_cons in Ha as [->|Ha]; [|by apply IH].
    destruct (Hbody s) as [e He]. congruence.
Qed.

Lemma py_getitem_last {A} (l : list A) (a : A) :
  last l = Some a → py_getitem l (-1) = Ok a.
Proof.
  intros Hlast. unfold py_getitem.
  rewrite decide_False by lia.
  pose proof (last_lookup l) as Hlookup. rewrite Hlast in Hlookup.
  assert (l ≠ []) as Hne by (by intros ->).
  assert (0 < length l)%nat as Hlen by (destruct l; simpl; [done|lia]).
  rewrite decide_True by lia.
  replace (Z.to_nat (Z.of_nat (length l) + -1)) with (pred (length l)) by lia.
  by rewrite <- Hlookup.
Qed.

Lemma py_getitem_first {A} (l : list A) (a : A) :
  head l = Some a → py_getitem l 0 = Ok a.
Proof.
  intros Hhead. unfold py_getitem. rewrite decide_True by lia.
  destruct l; [done|]. by injection Hhead as ->.
Qed.

Lemma write_eot_lengths_Ok (frame_start : Z) (frame_ends : list Z)
    (bound : Z) (fp : DicomFile) :
  (∀ (i : nat) a b,
     (frame_start :: frame_ends) !! i = Some a →
     (frame_start :: frame_ends) !! S i = Some b → a ≤ b) →
  (∀ a, a ∈ frame_start :: frame_ends → bound ≤ a ≤ bound + (2 ^ 64 - 1)) →
  ∃ fp', write_eot_lengths frame_start frame_ends fp
         = Ok (default frame_start (last frame_ends), fp').
Proof.
  revert frame_start fp.
  induction frame_ends as [|frame_end frame_ends IH];
    intros frame_start fp Hsorted Hbound; simpl.
  - by eexists.
  - pose proof (Hsorted 0%nat frame_start frame_end eq_refl eq_refl) as Hle.
    pose proof (Hbound frame_start ltac:(left)) as Hs.
    pose proof (Hbound frame_end ltac:(right; left)) as He.
    destruct (write_unsigned_long_long_Ok (frame_end - frame_start) fp)
      as [fp1 Hwrite]; [lia|].
    unfold mbind, st_bind. rewrite Hwrite.
    destruct (IH frame_end fp1) as [fp2 Hrest].
    + intros i a b Ha Hb. by apply (Hsorted (S i)).
    + intros a Ha. apply Hbound. by right.
    + exists fp2. rewrite Hrest. do 2 f_equal.
      rewrite last_cons. by destruct (last frame_ends).
Qed.

Lemma last_is_Some {A} (l : list A) : l ≠ [] → ∃ a, last l = Some a.
Proof.
  intros Hne. destruct (last l) as [a|] eqn:Hlast; [by exists a|].
  by apply last_None in Hlast.
Qed.

Lemma last_elem_of {A} (l : list A) (a : A) : last l = Some a → a ∈ l.
Proof.
  rewrite last_lookup. apply list_elem_of_lookup_2.
Qed.

Lemma write_bot_unfold (bot_start pixel_data_start : Z)
    (frame_positions : list Z) (last_position : Z) (fp : DicomFile) :
  last frame_positions = Some last_position →
  last_position - pixel_data_start ≤ 2 ^ 32 - 1 →
  _write_bot bot_start pixel_data_start frame_positions fp
  = match check_bot bot_start frame_positions fp with
    | Ok (_, fp1) =>
        for_st (λ frame_position,
                  write_UL (frame_position - pixel_data_start))
               frame_positions fp1
    | Err e => Err e
    end.
Proof.
  intros Hlast Hfit. unfold _write_bot. cbv zeta.
  unfold mbind at 1. unfold st_bind at 1. unfold lift at 1.
  rewrite (py_getitem_last _ _ Hlast).
  rewrite decide_False by lia.
  unfold check_bot, mbind, st_bind.
  by destruct (seek bot_start fp) as [[[] fp0]|e].
Qed.

Lemma write_eot_unfold (eot_start pixel_data_start : Z)
    (frame_positions : list Z) (last_frame_end first_position last_position : Z)
    (fp : DicomFile) :
  head frame_positions = Some first_position →
  last frame_positions = Some last_position →
  last_position - pixel_data_start ≤ 2 ^ 64 - 1 →
  _write_eot eot_start pixel_data_start frame_positions last_frame_end fp
  = match check_eot eot_start frame_positions fp with
    | Ok (_, fp1) =>
        match write_eot_offsets pixel_data_start frame_positions fp1 with
        | Ok (_, fp2) =>
            match check_eot_lengths frame_positions fp2 with
            | Ok (_, fp3) =>
                match write_eot_lengths first_position
                        (drop 1 frame_positions) fp3 with
                | Ok (frame_start, fp4) =>
                    _write_unsigned_long_long
                      (last_frame_end - (frame_start + 4 + 4)) fp4
                | Err e => Err e
                end
            | Err e => Err e
            end
        | Err e => Err e
        end
    | Err e => Err e
    end.
Proof.
  intros Hfirst Hlast Hfit. unfold _write_eot. cbv zeta.
  unfold mbind at 1. unfold st_bind at 1. unfold lift at 1.
  rewrite (py_getitem_last _ _ Hlast).
  rewrite decide_False by lia.
  unfold check_eot, check_eot_lengths, write_eot_offsets, mbind, st_bind.
  destruct (seek eot_start fp) as [[[] fp0]|e]; [|done].
  destruct (_check_tag_and_length ExtendedOffsetTableTag _ _ fp0)
    as [[[] fp1]|e]; [|done].
  destruct (for_st _ frame_positions fp1) as [[[] fp2]|e]; [|done].
  destruct (_check_tag_and_length ExtendedOffsetTableLengthsTag _ _ fp2)
    as [[[] fp3]|e]; [|done].
  unfold lift. by rewrite (py_getitem_first _ _ Hfirst).
Qed.

(** C8. Writing the basic offset table raises when the offset of a frame
    relative to the start of the pixel data is above 2^32 - 1
    (NotImplementedError when it is the one of the last frame), and when all
    offsets fit in 32 bits it raises only what the check of the reserved
    table raises. Writing the extended offset table of frame positions in
    their written order whose offsets fit in 64 bits raises only what the
    checks of the two reserved tables raise, and succeeds when they pass. *)
Theorem write_offset_table_limits (table_start pixel_data_start : Z)
    (frame_positions : list Z) (last_frame_end : Z) (fp : DicomFile) :
  (∀ frame_position,
     frame_position ∈ frame_positions →
     frame_position - pixel_data_start > 2 ^ 32 - 1 →
     ∃ e, _write_bot table_start pixel_data_start frame_positions fp = Err e)
  ∧ (∀ frame_position,
       last frame_positions = Some frame_position →
       frame_position - pixel_data_start > 2 ^ 32 - 1 →
       ∃ message,
         _write_bot table_start pixel_data_start frame_positions fp
         = Err (NotImplementedError message))
  ∧ (frame_positions ≠ [] →
     offsets_fit 32 pixel_data_start frame_positions →
     (∀ e, check_bot table_start frame_positions fp = Err e →
           _write_bot table_start pixel_data_start frame_positions fp = Err e)
     ∧ (∀ fp1, check_bot table_start frame_positions fp = Ok ((), fp1) →
               ∃ fp2, _write_bot table_start pixel_data_start frame_positions
                                 fp = Ok ((), fp2)))
  ∧ (frame_positions ≠ [] →
     offsets_fit 64 pixel_data_start frame_positions →
     frames_in_order frame_positions last_frame_end →
     (∀ e, check_eot table_start frame_positions fp = Err e →
           _write_eot table_start pixel_data_start frame_positions
                      last_frame_end fp = Err e)
     ∧ (∀ fp1,
          check_eot table_start frame_positions fp = Ok ((), fp1) →
          ∃ fp2,
            write_eot_offsets pixel_data_start frame_positions fp1
            = Ok ((), fp2)
            ∧ (∀ e, check_eot_lengths frame_positions fp2 = Err e →
                    _write_eot table_start pixel_data_start frame_positions
                               last_frame_end fp = Err e)
            ∧ (∀ fp3, check_eot_lengths frame_positions fp2 = Ok ((), fp3) →
                      ∃ fp4,
                        _write_eot table_start pixel_data_start
                                   frame_positions last_frame_end fp
                        = Ok ((), fp4)))).
Proof.
  split; [|split; [|split]].
  - intros frame_position Hin Hlarge.
    unfold _write_bot. cbv zeta.
    unfold mbind at 1. unfold st_bind at 1. unfold lift at 1.
    destruct (py_getitem frame_positions (-1)) as [last_position|e];
      [|by eexists].
    case_decide; [by eexists|].
    unfold mbind at 1. unfold st_bind at 1.
    destruct (seek table_start fp) as [[[] fp0]|e]; [|by eexists].
    unfold mbind at 1. unfold st_bind at 1.
    destruct (_check_tag_and_length _ _ _ fp0) as [[[] fp1]|e]; [|by eexists].
    apply (for_st_Err _ _ frame_position); [done|].
    intros s. eexists. by apply write_UL_Err.
  - intros frame_position Hlast Hlarge.
    unfold _write_bot. cbv zeta.
    unfold mbind at 1. unfold st_bind at 1. unfold lift at 1.
    rewrite (py_getitem_last _ _ Hlast).
    rewrite decide_True by done. by eexists.
  - intros Hne Hfit.
    destruct (last_is_Some _ Hne) as [last_position Hlast].
    pose proof (Hfit _ (last_elem_of _ _ Hlast)) as Hlast_fit.
    rewrite (write_bot_unfold _ _ _ _ _ Hlast) by lia.
    destruct (check_bot table_start frame_positions fp) as [[[] fp1]|e];
      [|by split].
    split; [done|]. intros ? _.
    apply for_st_Ok. intros a s Ha. apply write_UL_Ok. by apply Hfit.
  - intros Hne Hfit [Hsorted Hend].
    destruct (last_is_Some _ Hne) as [last_position Hlast].
    pose proof (Hfit _ (last_elem_of _ _ Hlast)) as Hlast_fit.
    destruct frame_positions as [|first_position rest] eqn:Hpositions;
      [done|]. rewrite <- Hpositions in *.
    assert (head frame_positions = Some first_position) as Hfirst
      by (by rewrite Hpositions).
    assert (drop 1 frame_positions = rest) as Hdrop by (by rewrite Hpositions).
    rewrite (write_eot_unfold _ _ _ _ _ _ _ Hfirst Hlast) by lia.
    destruct (check_eot table_start frame_positions fp) as [[[] fp1]|e];
      [|by split].
    split; [done|]. intros ? [= <-].
    destruct (for_st_Ok
                (λ frame_position,
                   _write_unsigned_long_long
                     (frame_position - pixel_data_start))
                frame_positions fp1) as [fp2 Hfp2].
    { intros a s Ha. apply write_unsigned_long_long_Ok. by apply Hfit. }
    exists fp2. unfold write_eot_offsets. cbv zeta. rewrite Hfp2.
    split; [done|].
    destruct (check_eot_lengths frame_positions fp2) as [[[] fp3]|e];
      [|by split].
    split; [done|]. intros ? _. rewrite Hdrop.
    destruct (write_eot_lengths_Ok first_position rest pixel_data_start fp3)
      as [fp4 Hfp4].
    { rewrite <- Hpositions. exact Hsorted. }
    { intros a Ha. rewrite <- Hpositions in Ha. pose proof (Hfit a Ha). lia. }
    rewrite Hfp4. apply write_unsigned_long_long_Ok.
    assert (default first_position (last rest) = last_position) as ->.
    { rewrite Hpositions, last_cons in Hlast.
      destruct (last rest); by injection Hlast as ->. }
    pose proof (Hend _ Hlast). lia.
Qed.

(** The theorem at two frames, the second 2^33 bytes after the start of the
    pixel data: the basic offset table is refused and the extended offset
    table is written. *)
Lemma write_offset_table_limits_witness :
  (∃ e, _write_bot 0 0 [0; 2 ^ 33] example_reserved_eot = Err e)
  ∧ (∃ fp, _write_eot 0 0 [0; 2 ^ 33] (2 ^ 33 + 12) example_reserved_eot
           = Ok ((), fp)).
Proof.
  destruct (write_offset_table_limits 0 0 [0; 2 ^ 33] (2 ^ 33 + 12)
              example_reserved_eot) as (Hbot & _ & _ & Heot).
  split.
  - apply (Hbot (2 ^ 33)); [by right; left|reflexivity].
  - destruct Heot as [_ Hok].
    { done. }
    { intros frame_position Hin.
      apply elem_of_cons in Hin as [->|Hin]; [vm_compute; by split|].
      apply list_elem_of_singleton in Hin as ->. vm_compute. by split. }
    { split.
      - intros [|[|i]] a b; simpl; try done. intros [= <-] [= <-]. done.
      - simpl. intros a [= <-]. vm_compute. by split. }
    destruct (Hok _ ltac:(vm_compute; reflexivity))
      as (fp2 & Hoffsets & _ & Hlengths).
    vm_compute in Hoffsets. injection Hoffsets as <-.
    apply (Hlengths _ ltac:(vm_compute; reflexivity)).
Defined.

(** * Further properties of the code *)

Set Warnings "-clear-no-such-hyp".

(** ** Sparse tile planes *)

Lemma np_cell_Ok (shape : Size) (position : Point) (i j : nat) :
  np_cell shape position = Ok (i, j) →
  np_index (width shape) (x position) = Ok i
  ∧ np_index (height shape) (y position) = Ok j
  ∧ (i < Z.to_nat (width shape))%nat ∧ (j < Z.to_nat (height shape))%nat.
Proof.
  unfold np_cell.
  intros (i' & Hi & (j' & Hj & [= -> ->])%bind_Ok)%bind_Ok.
  split_and!; eauto using np_index_Ok.
Qed.



Lemma SparseTilePlane_getitem_cell (p : SparseTilePlane) (position : Point) :
  SparseTilePlane_getitem p position
  = '(i, j) ← np_cell (_shape p) position;
    column ← or_raise (plane p !! i) IndexError;
    or_raise (column !! j) IndexError.
Proof.
  unfold SparseTilePlane_getitem, np_cell.
  destruct (np_index (width _) _); simpl; [|done].
  by destruct (np_index (height _) _).
Qed.

Lemma SparseTilePlane_setitem_cell (p : SparseTilePlane) (position : Point)
    (frame_index : Z) :
  SparseTilePlane_setitem p position frame_index
  = '(i, j) ← np_cell (_shape p) position;
    column ← or_raise (plane p !! i) IndexError;
    if decide (j < length column)%nat
    then Ok {| _shape := _shape p;
               plane := <[i := <[j := frame_index]> column]> (plane p) |}
    else Err IndexError.
Proof.
  unfold SparseTilePlane_setitem, np_cell.
  destruct (np_index (width _) _); simpl; [|done].
  by destruct (np_index (height _) _).
Qed.

Lemma SparseTilePlane_init_shaped (tiled_size : Size) p :
  SparseTilePlane_init tiled_size = Ok p →
  _shape p = tiled_size ∧ plane_shaped p.
Proof.
  unfold SparseTilePlane_init. case_decide; [done|]. intros [= <-].
  split; [done|]. split; simpl; [by rewrite length_replicate|].
  apply Forall_replicate. by rewrite length_replicate.
Qed.

Lemma SparseTilePlane_setitem_shaped p position frame_index p' :
  plane_shaped p →
  SparseTilePlane_setitem p position frame_index = Ok p' →
  _shape p' = _shape p ∧ plane_shaped p'.
Proof.
  intros [Hlen Hcols]. rewrite SparseTilePlane_setitem_cell.
  intros ([i j] & Hcell & (column & Hcol & Hset)%bind_Ok)%bind_Ok.
  case_decide; [|done]. injection Hset as <-.
  split; [done|]. split; simpl; [by rewrite length_insert|].
  destruct (plane p !! i) as [column'|] eqn:Hpi; [|done].
  injection Hcol as ->.
  apply Forall_insert; [done|]. rewrite length_insert.
  rewrite Forall_forall in Hcols. apply Hcols.
  by eapply list_elem_of_lookup_2.
Qed.


Lemma plane_shaped_cell p (i j : nat) :
  plane_shaped p →
  (i < Z.to_nat (width (_shape p)))%nat →
  (j < Z.to_nat (height (_shape p)))%nat →
  ∃ column, plane p !! i = Some column ∧ (j < length column)%nat.
Proof.
  intros [Hlen Hcols] Hi Hj.
  destruct (lookup_lt_is_Some_2 (plane p) i) as [column Hcol]; [lia|].
  exists column. split; [done|].
  rewrite Forall_forall in Hcols.
  rewrite (Hcols column) by (by eapply list_elem_of_lookup_2). done.
Qed.

Lemma SparseTilePlane_setitem_Ok p position frame_index (i j : nat) :
  plane_shaped p →
  np_cell (_shape p) position = Ok (i, j) →
  ∃ column,
    plane p !! i = Some column ∧ (j < length column)%nat
    ∧ SparseTilePlane_setitem p position frame_index
      = Ok {| _shape := _shape p;
              plane := <[i := <[j := frame_index]> column]> (plane p) |}.
Proof.
  intros Hp Hcell.
  destruct (np_cell_Ok _ _ _ _ Hcell) as (_ & _ & Hi & Hj).
  destruct (plane_shaped_cell p i j Hp Hi Hj) as (column & Hcol & Hlt).
  exists column. split; [done|]. split; [done|].
  rewrite SparseTilePlane_setitem_cell, Hcell. simpl. rewrite Hcol. simpl.
  by rewrite decide_True.
Qed.



(** ** The sparse tile index: the last entry of a tile gives its frame *)

Lemma for_each_app {S A} (f : S → A → result S) (l1 l2 : list A) (s : S) :
  for_each f (l1 ++ l2) s = s' ← for_each f l1 s; for_each f l2 s'.
Proof.
  revert s. induction l1 as [|a l1 IH]; intros s; simpl; [done|].
  destruct (f s a); simpl; [apply IH|done].
Qed.

Section sparse_frames.
Context `{Float F}.

Lemma read_planes_in_file_order (base : TileIndex)
    (datasets : list (WsiDataset F)) :
  _read_planes_from_datasets base datasets
  = for_each (read_plane_entry base) (frames_in_file_order datasets) ∅.
Proof.
  unfold _read_planes_from_datasets, frames_in_file_order.
  generalize (∅ : gmap (F * string) SparseTilePlane).
  induction datasets as [|dataset datasets IH]; intros planes; [done|].
  cbn [for_each mbind list_bind]. rewrite for_each_app.
  assert (∀ frames planes,
            for_each (λ (planes : gmap (F * string) SparseTilePlane)
                        '(i, frame),
                        read_plane_entry base planes (dataset, i, frame))
                     frames planes
            = for_each (read_plane_entry base)
                (frames ≫= λ '(i, frame), [(dataset, i, frame)]) planes)
    as Hinner.
  { clear. induction frames as [|[i frame] frames IH]; intros planes; [done|].
    cbn [for_each mbind list_bind app].
    destruct (read_plane_entry _ _ _); simpl; [apply IH|done]. }
  rewrite <- Hinner.
  match goal with
  | |- mbind _ ?m = mbind _ ?m' => replace m' with m
  end.
  - destruct (for_each _ _ planes); simpl; [apply IH|done].
  - f_equal.
Qed.

(** What one entry does to the planes: the plane of its focal plane and
    optical path gets its frame number at its tile, the other planes are
    kept. *)
Lemma read_plane_entry_Ok (base : TileIndex) planes planes'
    (dataset : WsiDataset F) (i : Z) (frame : FrameItem F) :
  read_plane_entry base planes (dataset, i, frame) = Ok planes' →
  ∃ identifier p0 p1,
    let coordinates := _read_frame_coordinates (_tile_size base) frame in
    read_optical_path_identifier dataset frame = Ok identifier
    ∧ (planes !! (coordinates.2, identifier) = Some p0
       ∨ planes !! (coordinates.2, identifier) = None
         ∧ SparseTilePlane_init (_tiled_size base) = Ok p0)
    ∧ SparseTilePlane_setitem p0 coordinates.1 (i + frame_offset dataset)
      = Ok p1
    ∧ planes' !! (coordinates.2, identifier) = Some p1
    ∧ ∀ key, key ≠ (coordinates.2, identifier) →
             planes' !! key = planes !! key.
Proof.
  unfold read_plane_entry.
  destruct (_read_frame_coordinates (_tile_size base) frame)
    as [frame_tile frame_z] eqn:Hcoords.
  intros (identifier & Hid & ([p0 planes0] & Hplane & (p1 & Hset & [= <-])
                              %bind_Ok)%bind_Ok)%bind_Ok.
  exists identifier, p0, p1. simpl.
  split; [done|].
  destruct (planes !! (frame_z, identifier)) as [p2|] eqn:Hlookup.
  - injection Hplane as <- <-. split; [by left|]. split; [done|].
    split; [by rewrite lookup_insert_eq|].
    intros key Hkey. by rewrite lookup_insert_ne.
  - apply bind_Ok in Hplane as (p2 & Hinit & [= <- <-]).
    split; [by right|]. split; [done|].
    split; [by rewrite lookup_insert_eq|].
    intros key Hkey. by rewrite !lookup_insert_ne.
Qed.

(** Every plane that the entries make has the shape of the tiled size. *)
Lemma read_plane_entries_shaped (base : TileIndex) entries planes planes' :
  (∀ key p, planes !! key = Some p →
            _shape p = _tiled_size base ∧ plane_shaped p) →
  for_each (read_plane_entry base) entries planes = Ok planes' →
  ∀ key p, planes' !! key = Some p →
           _shape p = _tiled_size base ∧ plane_shaped p.
Proof.
  intros Hplanes Hentries.
  eapply (for_each_invariant
            (λ planes : gmap (F * string) SparseTilePlane,
               ∀ key p, planes !! key = Some p →
                        _shape p = _tiled_size base ∧ plane_shaped p));
    [|exact Hplanes|exact Hentries].
  clear. intros planes [[dataset i] frame] planes' _ Hinv Hentry key p.
  apply read_plane_entry_Ok in Hentry
    as (identifier & p0 & p1 & _ & Hp0 & Hset & Hp1 & Hother).
  assert (_shape p0 = _tiled_size base ∧ plane_shaped p0) as [Hshape Hshaped].
  { destruct Hp0 as [Hp0|[_ Hinit]]; [by eapply Hinv|].
    by apply SparseTilePlane_init_shaped. }
  destruct (decide (key = ((_read_frame_coordinates (_tile_size base) frame).2,
                           identifier))) as [->|Hkey].
  - rewrite Hp1. intros [= <-].
    destruct (SparseTilePlane_setitem_shaped _ _ _ _ Hshaped Hset) as [-> ?].
    by split.
  - rewrite Hother by done. apply Hinv.
Qed.

Lemma SparseTilePlane_getitem_setitem_eq p position other frame_index p' :
  plane_shaped p →
  np_cell (_shape p) other = np_cell (_shape p) position →
  SparseTilePlane_setitem p position frame_index = Ok p' →
  SparseTilePlane_getitem p' other = Ok frame_index.
Proof.
  intros Hp Hcell Hset.
  destruct (np_cell (_shape p) position) as [[i j]|] eqn:Hposition.
  - destruct (SparseTilePlane_setitem_Ok p position frame_index i j Hp
                Hposition) as (column & Hcol & Hlt & Hset').
    rewrite Hset' in Hset. injection Hset as <-.
    rewrite SparseTilePlane_getitem_cell. simpl. rewrite Hcell. simpl.
    rewrite list_lookup_insert_eq by (by eapply lookup_lt_Some). simpl.
    by rewrite list_lookup_insert_eq.
  - rewrite SparseTilePlane_setitem_cell, Hposition in Hset. done.
Qed.

Lemma SparseTilePlane_getitem_setitem_ne p position other frame_index p' :
  plane_shaped p →
  np_cell (_shape p) other ≠ np_cell (_shape p) position →
  SparseTilePlane_setitem p position frame_index = Ok p' →
  SparseTilePlane_getitem p' other = SparseTilePlane_getitem p other.
Proof.
  intros Hp Hcell Hset.
  destruct (np_cell (_shape p) position) as [[i j]|] eqn:Hposition.
  - destruct (SparseTilePlane_setitem_Ok p position frame_index i j Hp
                Hposition) as (column & Hcol & Hlt & Hset').
    rewrite Hset' in Hset. injection Hset as <-.
    rewrite !SparseTilePlane_getitem_cell. simpl.
    destruct (np_cell (_shape p) other) as [[i' j']|] eqn:Hother; [|done].
    simpl. destruct (decide (i' = i)) as [->|Hi].
    + rewrite list_lookup_insert_eq by (by eapply lookup_lt_Some).
      rewrite Hcol. simpl. rewrite list_lookup_insert_ne; [done|].
      intros <-. by apply Hcell.
    + by rewrite list_lookup_insert_ne.
  - rewrite SparseTilePlane_setitem_cell, Hposition in Hset. done.
Qed.

(** An entry that assigns its frame to a tile, in terms of cells. *)
Lemma frame_assigns_cell (base : TileIndex) (dataset : WsiDataset F)
    (frame : FrameItem F) (tile : Point) (z : F) (path : string) :
  frame_assigns base dataset frame tile z path →
  np_cell (_tiled_size base) tile
  = np_cell (_tiled_size base)
            (_read_frame_coordinates (_tile_size base) frame).1.
Proof. intros (_ & _ & Hx & Hy). unfold np_cell. by rewrite Hx, Hy. Qed.

Lemma np_cell_eq_inv (shape : Size) (p q : Point) (i j : nat) :
  np_cell shape p = Ok (i, j) → np_cell shape q = np_cell shape p →
  np_index (width shape) (x q) = np_index (width shape) (x p)
  ∧ np_index (height shape) (y q) = np_index (height shape) (y p).
Proof.
  intros Hp Hq. rewrite Hp in Hq.
  apply np_cell_Ok in Hp as (-> & -> & _).
  apply np_cell_Ok in Hq as (-> & -> & _). done.
Qed.

(** X2. In a sparse index the frame of a tile is the one of the last
    per-frame entry, in the order of the files and of their frames, that
    names the tile on the plane: a later entry of the same tile replaces an
    earlier one. *)
Theorem sparse_last_frame_wins (datasets : list (WsiDataset F))
    (index : SparseTileIndex F) before after (dataset : WsiDataset F)
    (i : Z) (frame : FrameItem F) (tile : Point) (z : F) (path : string) :
  SparseTileIndex_init datasets = Ok index →
  frames_in_file_order datasets = before ++ (dataset, i, frame) :: after →
  frame_assigns (sparse_base index) dataset frame tile z path →
  (∀ dataset' i' frame',
     (dataset', i', frame') ∈ after →
     ¬ frame_assigns (sparse_base index) dataset' frame' tile z path) →
  Sparse_get_frame_index index tile z path = Ok (i + frame_offset dataset).
Proof.
  unfold SparseTileIndex_init.
  intros (base & Hbase & (planes & Hread & [= <-])%bind_Ok)%bind_Ok.
  cbn [sparse_base]. intros Horder Hassigns Hafter.
  rewrite read_planes_in_file_order, Horder in Hread.
  rewrite for_each_app in Hread.
  apply bind_Ok in Hread as (planes1 & Hbefore & Hread).
  cbn [for_each] in Hread.
  apply bind_Ok in Hread as (planes2 & Hentry & Hread).
  assert (∀ key p, planes1 !! key = Some p →
                   _shape p = _tiled_size base ∧ plane_shaped p) as Hshaped1.
  { eapply read_plane_entries_shaped; [|exact Hbefore].
    intros key p. by rewrite lookup_empty. }
  assert (∀ key p, planes2 !! key = Some p →
                   _shape p = _tiled_size base ∧ plane_shaped p) as Hshaped2.
  { eapply (read_plane_entries_shaped base [(dataset, i, frame)]);
      [exact Hshaped1|]. cbn [for_each]. by rewrite Hentry. }
  pose proof (frame_assigns_cell _ _ _ _ _ _ Hassigns) as Hcell.
  destruct Hassigns as (Hz & Hpath & _).
  apply read_plane_entry_Ok in Hentry
    as (identifier & p0 & p1 & Hid & Hp0 & Hset & Hp1 & _).
  cbn zeta in *. rewrite Hpath in Hid. injection Hid as <-.
  rewrite Hz in *.
  assert (_shape p0 = _tiled_size base ∧ plane_shaped p0) as [Hshape0 Hp0'].
  { destruct Hp0 as [Hp0|[_ Hinit]]; [by eapply Hshaped1|].
    by apply SparseTilePlane_init_shaped. }
  assert (SparseTilePlane_getitem p1 tile = Ok (i + frame_offset dataset))
    as Hget.
  { eapply SparseTilePlane_getitem_setitem_eq; [done| |exact Hset].
    by rewrite Hshape0. }
  assert (∃ cell, np_cell (_tiled_size base) tile = Ok cell) as [cell Htile].
  { rewrite SparseTilePlane_getitem_cell in Hget.
    destruct (Hshaped2 _ _ Hp1) as [Hshape1 _]. rewrite Hshape1 in Hget.
    destruct (np_cell (_tiled_size base) tile); [by eexists|done]. }
  clear Hp0 Hset Hp0' Hshape0 Hbefore Hshaped1 Horder.
  unfold Sparse_get_frame_index. cbn [_planes].
  enough (∃ p, planes !! (z, path) = Some p
               ∧ SparseTilePlane_getitem p tile
                 = Ok (i + frame_offset dataset)) as (p & -> & Hp); [done|].
  revert Hafter Hread.
  assert (∃ p, planes2 !! (z, path) = Some p
               ∧ SparseTilePlane_getitem p tile
                 = Ok (i + frame_offset dataset)) as Hinv by eauto.
  clear Hp1 Hget p1.
  revert planes2 Hshaped2 Hinv.
  induction after as [|[[dataset' i'] frame'] after IH];
    intros planes2 Hshaped2 Hinv Hafter; cbn [for_each].
  { by intros [= <-]. }
  intros (planes3 & Hentry & Hread)%bind_Ok.
  assert (∀ key p, planes3 !! key = Some p →
                   _shape p = _tiled_size base ∧ plane_shaped p) as Hshaped3.
  { eapply (read_plane_entries_shaped base [(dataset', i', frame')]);
      [exact Hshaped2|]. cbn [for_each]. by rewrite Hentry. }
  apply (IH planes3); [done| |intros ????; eapply Hafter; by right|done].
  destruct Hinv as (p & Hp & Hget).
  pose proof (Hafter dataset' i' frame' ltac:(left)) as Hnot.
  apply read_plane_entry_Ok in Hentry
    as (identifier & q0 & q1 & Hid & Hq0 & Hset & Hq1 & Hother).
  cbn zeta in *.
  destruct (decide ((z, path)
                    = ((_read_frame_coordinates (_tile_size base) frame').2,
                       identifier))) as [Hkey|Hkey].
  - assert ((_read_frame_coordinates (_tile_size base) frame').2 = z
            ∧ identifier = path) as [Hz' Hpath'] by (by inversion Hkey).
    rewrite <- Hkey in Hq0, Hq1.
    destruct Hq0 as [Hq0|[Hq0 _]]; [|congruence].
    rewrite Hp in Hq0. injection Hq0 as <-.
    destruct (Hshaped2 _ _ Hp) as [Hshape Hshaped].
    exists q1. split; [done|].
    rewrite <- Hget.
    eapply SparseTilePlane_getitem_setitem_ne; [done| |exact Hset].
    rewrite Hshape. intros Heq. apply Hnot.
    unfold frame_assigns.
    split; [exact Hz'|]. split; [by rewrite Hid, Hpath'|].
    symmetry in Heq. rewrite Htile in Heq.
    destruct cell as [ci cj].
    destruct (np_cell_eq_inv _ _ _ _ _ Htile
                (eq_trans Heq (eq_sym Htile))) as [-> ->]. done.
  - exists p. by rewrite Hother.
Qed.

End sparse_frames.

Lemma sparse_last_frame_wins_witness :
  ∃ index : SparseTileIndex Z,
    SparseTileIndex_init [example_rewritten_dataset] = Ok index
    ∧ Sparse_get_frame_index index (mkPoint 0 0) 0 "0" = Ok 2.
Proof.
  eexists. split; [vm_compute; reflexivity|].
  match goal with
  | |- Sparse_get_frame_index ?index _ _ _ = _ =>
      apply (sparse_last_frame_wins [example_rewritten_dataset] index
               [(example_rewritten_dataset, 0, mkFrameItem 1 1 0 None);
                (example_rewritten_dataset, 1, mkFrameItem 1025 1025 0 None)]
               [] example_rewritten_dataset 2 (mkFrameItem 1 1 0 None))
  end.
  - vm_compute; reflexivity.
  - reflexivity.
  - by split_and!.
  - by intros ??? ?%elem_of_nil.
Defined.

(** ** The optical paths of a tile index *)

Section optical_paths.
Context {F : Type}.



End optical_paths.

(** ** Frame numbers of an instance with a full tile index *)

Section full_frames.
Context `{Float F} `{Pillow Image}.

Implicit Types (self : WsiDicomImageData F Image).

Lemma valid_tiles_single self tile z path :
  valid_tiles self (mkRegion tile (mkSize 0 0)) z path = true
  ↔ 0 ≤ x tile < width (tiled_size self)
    ∧ 0 ≤ y tile < height (tiled_size self)
    ∧ z ∈ focal_planes self ∧ path ∈ optical_paths self.
Proof.
  unfold valid_tiles, is_inside, plane_region, start, end_. simpl.
  rewrite !andb_true_iff, !bool_decide_eq_true. intuition lia.
Qed.

(** X4. In an instance with a full tile index the frame number of a tile is
    found for the tiles of the plane on a declared focal plane and optical
    path, and only for them: every other request raises
    WsiDicomOutOfBoundsError, and the index itself never fails to find a
    plane or a path that the instance holds valid. *)
Theorem get_frame_index_full_total (datasets : list (WsiDataset F))
    (index : FullTileIndex F) self tile z path :
  FullTileIndex_init datasets = Ok index →
  tiles self = Full index →
  (valid_full_input index tile z path →
   ∃ z_idx path_idx : nat,
     full_focal_planes index !! z_idx = Some z
     ∧ _optical_paths (full_base index) !! path_idx = Some path
     ∧ _get_frame_index self tile z path
       = Ok (x tile + width (_tiled_size (full_base index)) * y tile
             + Z.of_nat z_idx * area (_tiled_size (full_base index))
             + Z.of_nat path_idx * Z.of_nat (length (full_focal_planes index))
               * area (_tiled_size (full_base index))))
  ∧ (¬ valid_full_input index tile z path →
     _get_frame_index self tile z path
     = Err (WsiDicomOutOfBoundsError "Tile region")).
Proof.
  intros Hinit Htiles.
  destruct (FullTileIndex_init_NoDup _ _ Hinit) as [Hplanes Hpaths].
  assert (_tiled_size (full_base index) = tiled_size self) as Hsize.
  { unfold FullTileIndex_init in Hinit.
    apply bind_Ok in Hinit as (base & Hbase & Hinit).
    apply bind_Ok in Hinit as (planes & _ & [= <-]).
    unfold tiled_size, ImageData_image_size, ImageData_tile_size.
    rewrite Htiles. cbn [tiles_base full_base].
    by eapply TileIndex_init_tiled_size. }
  assert (valid_tiles self (mkRegion tile (mkSize 0 0)) z path = true
          ↔ valid_full_input index tile z path) as Hvalid.
  { rewrite valid_tiles_single. unfold valid_full_input.
    rewrite Hsize. unfold focal_planes, optical_paths. by rewrite Htiles. }
  unfold _get_frame_index. split.
  - intros Hinput. rewrite (proj2 Hvalid Hinput). cbn [negb].
    destruct Hinput as (_ & _ & (z_idx & Hz)%list_elem_of_lookup_1
                        & (path_idx & Hpath)%list_elem_of_lookup_1).
    exists z_idx, path_idx. split; [done|]. split; [done|].
    rewrite Htiles. cbn [tiles_get_frame_index].
    by apply Full_get_frame_index_formula.
  - intros Hinput.
    destruct (valid_tiles self _ z path); [|done].
    by destruct Hinput; apply Hvalid.
Qed.

End full_frames.

Lemma get_frame_index_full_total_witness :
  ∃ (self : WsiDicomImageData Z Size),
    WsiDicomImageData_init example_stitch_files JPEGBaseline8Bit = Ok self
    ∧ _get_frame_index self (mkPoint 1 1) 0 "0" = Ok 3
    ∧ _get_frame_index self (mkPoint 2 1) 0 "0"
      = Err (WsiDicomOutOfBoundsError "Tile region").
Proof.
  eexists. split; [vm_compute; reflexivity|].
  match goal with
  | |- _get_frame_index ?self _ _ _ = _ ∧ _ =>
      destruct (@get_frame_index_full_total Z Z_Float Size
                  [example_stitch_dataset] _ self (mkPoint 1 1) 0 "0"
                  ltac:(vm_compute; reflexivity) eq_refl) as [Hvalid _];
      destruct (@get_frame_index_full_total Z Z_Float Size
                  [example_stitch_dataset] _ self (mkPoint 2 1) 0 "0"
                  ltac:(vm_compute; reflexivity) eq_refl) as [_ Hinvalid]
  end.
  split.
  - destruct Hvalid as (z_idx & path_idx & Hz & Hpath & Hindex).
    { split_and!; [done..| |]; apply list_elem_of_singleton; reflexivity. }
    rewrite Hindex.
    destruct z_idx; [|by destruct z_idx].
    destruct path_idx; [|by destruct path_idx]. reflexivity.
  - apply Hinvalid. intros ([_ Hx] & _). vm_compute in Hx. done.
Defined.

(** ** The files of an instance, by frame offset *)

Lemma filter_none {A} (P : A → Prop) `{∀ a, Decision (P a)} (l : list A) :
  Forall (λ a, ¬ P a) l → filter P l = [].
Proof.
  induction 1 as [|a l Ha Hl IH]; [done|].
  by rewrite filter_cons, decide_False.
Qed.

Section sorted_files.
Context {A : Type} (key : A → Z).

Lemma insert_sorted_Permutation (a : A) (l : list A) :
  insert_sorted key a l ≡ₚ a :: l.
Proof.
  induction l as [|b l IH]; simpl; [done|].
  case_decide; [done|]. by rewrite IH, Permutation_swap.
Qed.

Lemma insert_sorted_ascending (a : A) (l : list A) :
  StronglySorted Z.le (key <$> l) →
  StronglySorted Z.le (key <$> insert_sorted key a l).
Proof.
  induction l as [|b l IH]; simpl.
  { intros _. repeat constructor. }
  intros [Hl Hb]%StronglySorted_inv. case_decide; simpl.
  - constructor; [by constructor|].
    constructor; [lia|]. eapply Forall_impl; [exact Hb|]. simpl. lia.
  - constructor; [by apply IH|].
    rewrite insert_sorted_Permutation. by constructor; [lia|].
Qed.

Lemma filter_insert_sorted (k : Z) (a : A) (l : list A) :
  StronglySorted Z.le (key <$> l) →
  filter (λ b, key b = k) (insert_sorted key a l)
  = filter (λ b, key b = k) l ++ (if decide (key a = k) then [a] else []).
Proof.
  induction l as [|b l IH]; cbn [insert_sorted fmap list_fmap].
  { intros _. rewrite filter_cons. by case_decide. }
  intros [Hl Hb]%StronglySorted_inv.
  destruct (decide (key a < key b)) as [Hlt|Hlt].
  - rewrite (filter_cons _ a). destruct (decide (key a = k)) as [Ha|Ha].
    + rewrite (filter_none _ (b :: l)); [done|].
      constructor; [lia|].
      rewrite Forall_fmap in Hb. eapply Forall_impl; [exact Hb|].
      simpl. lia.
    + by rewrite app_nil_r.
  - rewrite !(filter_cons _ b). rewrite IH by done.
    by destruct (decide (key b = k)).
Qed.

Lemma sorted_spec (l : list A) :
  StronglySorted Z.le (key <$> sorted key l)
  ∧ ∀ k, filter (λ b, key b = k) (sorted key l) = filter (λ b, key b = k) l.
Proof.
  unfold sorted.
  assert (∀ acc,
            StronglySorted Z.le (key <$> acc) →
            StronglySorted Z.le
              (key <$> foldl (λ acc a, insert_sorted key a acc) acc l)
            ∧ ∀ k, filter (λ b, key b = k)
                     (foldl (λ acc a, insert_sorted key a acc) acc l)
                   = filter (λ b, key b = k) acc ++ filter (λ b, key b = k) l)
    as Hgen.
  { induction l as [|a l IH]; intros acc Hacc; simpl.
    { split; [done|]. intros k. by rewrite app_nil_r. }
    destruct (IH (insert_sorted key a acc)) as [Hsorted Hfilter].
    { by apply insert_sorted_ascending. }
    split; [done|]. intros k.
    rewrite Hfilter, filter_insert_sorted by done.
    rewrite filter_cons, <- app_assoc. by case_decide. }
  destruct (Hgen []) as [Hsorted Hfilter]; [constructor|]. done.
Qed.

End sorted_files.

Lemma StronglySorted_lt_snoc (keys : list Z) (k : Z) :
  StronglySorted Z.lt keys → Forall (λ k', k' < k) keys →
  StronglySorted Z.lt (keys ++ [k]).
Proof.
  induction 1 as [|k' keys Hkeys IH Hk']; simpl.
  { intros _. repeat constructor. }
  intros [Hlt Hall]%Forall_cons. constructor; [by apply IH|].
  apply Forall_app. split; [done|]. by repeat constructor.
Qed.

Section ordered_dict.
Context {V : Type}.

Implicit Types (d : list (Z * V)).

Lemma dict_set_fst d (k : Z) (v : V) :
  (dict_set d k v).*1 = if decide (k ∈ d.*1) then d.*1 else d.*1 ++ [k].
Proof.
  induction d as [|[k' v'] d IH]; cbn [dict_set fmap list_fmap fst].
  { by destruct (decide (k ∈ [])) as [?%elem_of_nil|]. }
  destruct (decide (k = k')) as [->|Hk]; cbn [fmap list_fmap fst].
  - rewrite decide_True; [done|]. by left.
  - rewrite IH. destruct (decide (k ∈ d.*1)).
    + rewrite decide_True; [done|]. by right.
    + rewrite decide_False; [done|]. by intros [?|?]%elem_of_cons.
Qed.

Lemma dict_set_NoDup d (k : Z) (v : V) :
  NoDup d.*1 → NoDup (dict_set d k v).*1.
Proof.
  intros Hd. rewrite dict_set_fst. case_decide; [done|].
  apply NoDup_app. split; [done|]. split; [|apply NoDup_singleton].
  by intros k' Hk' ->%list_elem_of_singleton.
Qed.

Lemma dict_set_elem_of d (k k' : Z) (v v' : V) :
  NoDup d.*1 →
  (k', v') ∈ dict_set d k v ↔ k' = k ∧ v' = v ∨ k' ≠ k ∧ (k', v') ∈ d.
Proof.
  induction d as [|[k0 v0] d IH]; simpl.
  { intros _. rewrite list_elem_of_singleton, elem_of_nil. naive_solver. }
  intros [Hk0 Hd]%NoDup_cons. destruct (decide (k = k0)) as [->|Hk].
  - rewrite !elem_of_cons. split.
    + intros [[= -> ->]|Hin]; [by left|]. right. split; [|by right].
      intros ->. apply Hk0. apply list_elem_of_fmap. by exists (k0, v').
    + intros [[-> ->]|[Hne [[= -> ->]|Hin]]]; [by left|done|by right].
  - rewrite !elem_of_cons, IH by done. naive_solver.
Qed.

Lemma OrderedDict_elem_of (items : list (Z * V)) (k : Z) (v : V) :
  (k, v) ∈ OrderedDict items
  ↔ last (filter (λ item, item.1 = k) items) = Some (k, v).
Proof.
  unfold OrderedDict.
  assert (∀ d, NoDup d.*1 →
            ((k, v) ∈ foldl (λ d '(k, v), dict_set d k v) d items
             ↔ last (filter (λ item, item.1 = k) items) = Some (k, v)
               ∨ filter (λ item, item.1 = k) items = [] ∧ (k, v) ∈ d))
    as Hgen.
  { induction items as [|[k0 v0] items IH]; intros d Hd; simpl.
    { naive_solver. }
    rewrite IH by (by apply dict_set_NoDup).
    rewrite dict_set_elem_of by done.
    rewrite filter_cons. simpl. destruct (decide (k0 = k)) as [->|Hk].
    - rewrite last_cons.
      destruct (filter _ items) as [|item rest] eqn:Hfilter.
      + simpl. naive_solver.
      + destruct (last_is_Some (item :: rest)) as [w Hw]; [done|].
        rewrite Hw. naive_solver.
    - naive_solver. }
  rewrite Hgen by constructor. rewrite elem_of_nil. naive_solver.
Qed.

Lemma OrderedDict_increasing (items : list (Z * V)) :
  StronglySorted Z.le items.*1 → StronglySorted Z.lt (OrderedDict items).*1.
Proof.
  unfold OrderedDict.
  assert (∀ d, StronglySorted Z.lt d.*1 →
               Forall (λ k', Forall (λ k, k' ≤ k) items.*1) d.*1 →
               StronglySorted Z.le items.*1 →
               StronglySorted Z.lt
                 (foldl (λ d '(k, v), dict_set d k v) d items).*1) as Hgen.
  { induction items as [|[k0 v0] items IH]; intros d Hd Hle Hitems; simpl.
    { done. }
    simpl in Hitems. apply StronglySorted_inv in Hitems as [Hitems Hk0].
    assert (Forall (λ k', k' ≤ k0) d.*1) as Hle0.
    { eapply Forall_impl; [exact Hle|]. simpl.
      by intros k' [? _]%Forall_cons. }
    apply IH; [| |done].
    - rewrite dict_set_fst. case_decide as Hin; [done|].
      apply StronglySorted_lt_snoc; [done|].
      rewrite Forall_forall in Hle0. apply Forall_forall. intros k' Hk'.
      specialize (Hle0 k' Hk'). assert (k' ≠ k0) by congruence. lia.
    - rewrite dict_set_fst.
      assert (Forall (λ k', Forall (λ k, k' ≤ k) items.*1) d.*1) as Hle'.
      { eapply Forall_impl; [exact Hle|]. simpl.
        by intros k' [_ ?]%Forall_cons. }
      case_decide; [done|]. apply Forall_app. split; [done|].
      by repeat constructor. }
  intros Hitems. apply Hgen; [constructor|constructor|done].
Qed.

End ordered_dict.

Section instance_files.
Context `{Float F} `{Pillow Image}.

(** X5. The files of an instance are kept by their frame offset, in the
    order of the offsets and one file for an offset: of the files given with
    the same frame offset, the last one is kept and the earlier ones are
    dropped without an error. No instance is made from no file. *)
Theorem WsiDicomImageData_init_files (files : list (WsiDicomFile F))
    (transfer_syntax : string) :
  (files = [] →
   WsiDicomImageData_init (Image:=Image) files transfer_syntax
   = Err IndexError)
  ∧ ∀ self : WsiDicomImageData F Image,
      WsiDicomImageData_init files transfer_syntax = Ok self →
      StronglySorted Z.lt (_files self).*1
      ∧ ∀ frame_offset file,
          (frame_offset, file) ∈ _files self
          ↔ last (filter (λ file, file_frame_offset file = frame_offset) files)
            = Some file.
Proof.
  split; [by intros ->|].
  intros self. unfold WsiDicomImageData_init.
  intros (base_file & _ & (tiles & _ & (first & _ & [= <-])%bind_Ok)%bind_Ok)
    %bind_Ok.
  cbn [_files].
  destruct (sorted_spec file_frame_offset files) as [Hsorted Hfilter].
  split.
  - apply OrderedDict_increasing. by rewrite <- list_fmap_compose.
  - intros frame_offset file. rewrite OrderedDict_elem_of.
    assert (∀ l : list (WsiDicomFile F),
              filter (λ item : Z * WsiDicomFile F, item.1 = frame_offset)
                     ((λ file, (file_frame_offset file, file)) <$> l)
              = (λ file, (file_frame_offset file, file))
                <$> filter (λ file, file_frame_offset file = frame_offset) l)
      as Hmap.
    { induction l as [|a l IH]; [done|].
      rewrite fmap_cons, !filter_cons, IH. simpl. by case_decide. }
    rewrite Hmap, Hfilter, fmap_last.
    destruct (last _) as [file'|] eqn:Hlast; simpl; [|done].
    split; [by intros [= _ ->]|]. intros [= ->]. do 2 f_equal.
    apply last_Some in Hlast as [l' Hl'].
    assert (file ∈ filter (λ file, file_frame_offset file = frame_offset)
                          files) as Hin.
    { rewrite Hl'. apply elem_of_app. right. by left. }
    by apply list_elem_of_filter in Hin as [? _].
Qed.

End instance_files.

Lemma WsiDicomImageData_init_files_witness :
  ∃ (self : WsiDicomImageData Z Size) file,
    WsiDicomImageData_init example_part_files JPEGBaseline8Bit = Ok self
    ∧ StronglySorted Z.lt (_files self).*1
    ∧ (2, file) ∈ _files self.
Proof.
  eexists. eexists. split; [vm_compute; reflexivity|].
  match goal with
  | |- StronglySorted _ (_files ?self).*1 ∧ _ =>
      destruct (proj2 (WsiDicomImageData_init_files (Image:=Size)
                         example_part_files JPEGBaseline8Bit)
                  self ltac:(vm_compute; reflexivity)) as [Hsorted Hfiles]
  end.
  split; [exact Hsorted|]. apply Hfiles. vm_compute. reflexivity.
Defined.

(** ** Duplicates and groups by unique identifier *)

Section unique_identifiers.
Context {Item : Type} (uid : Item → string) (str : Item → string).

Lemma check_duplicate_loop_spec (uids : list string) (items : list Item)
    (caller : string) :
  NoDup uids →
  match check_duplicate_loop uid str uids items caller with
  | inr _ => NoDup (uids ++ (uid <$> items))
  | inl e =>
      ∃ before item after,
        items = before ++ item :: after
        ∧ NoDup (uids ++ (uid <$> before))
        ∧ uid item ∈ uids ++ (uid <$> before)
        ∧ e = mkWsiDicomUidDuplicateError (str item) caller
  end.
Proof.
  revert uids. induction items as [|item items IH]; intros uids Huids; simpl.
  { by rewrite app_nil_r. }
  destruct (decide (uid item ∉ uids)) as [Hnew|Hseen].
  - specialize (IH (uids ++ [uid item])).
    destruct (check_duplicate_loop _ _ _ items caller) as [e|[]].
    + destruct IH as (before & item' & after & -> & Hbefore & Hin & ->).
      { apply NoDup_app. split; [done|]. split; [|apply NoDup_singleton].
        by intros k Hk ->%list_elem_of_singleton. }
      exists (item :: before), item', after. simpl.
      rewrite <- app_assoc in Hbefore, Hin. done.
    + rewrite <- app_assoc in IH. apply IH.
      apply NoDup_app. split; [done|]. split; [|apply NoDup_singleton].
      by intros k Hk ->%list_elem_of_singleton.
  - exists [], item, items. simpl. rewrite app_nil_r.
    split; [done|]. split; [done|]. split; [|done].
    by destruct (decide (uid item ∈ uids)).
Qed.

(** X6. The checks for duplicates pass for the lists in which every unique
    identifier occurs once, and only for them; the error of a list with a
    duplicate names the first item whose identifier an earlier item has. *)
Theorem check_duplicate_spec (items : list Item) (caller : string) :
  (check_duplicate_dataset uid str items caller = inr ()
   ↔ NoDup (uid <$> items))
  ∧ (check_duplicate_instance uid str items caller = inr ()
     ↔ NoDup (uid <$> items))
  ∧ ∀ e, check_duplicate_dataset uid str items caller = inl e →
         ∃ before item after,
           items = before ++ item :: after
           ∧ NoDup (uid <$> before)
           ∧ uid item ∈ uid <$> before
           ∧ e = mkWsiDicomUidDuplicateError (str item) caller.
Proof.
  unfold check_duplicate_dataset, check_duplicate_instance.
  pose proof (check_duplicate_loop_spec [] items caller (NoDup_nil_2))
    as Hspec.
  destruct (check_duplicate_loop uid str [] items caller) as [e|[]].
  - destruct Hspec as (before & item & after & -> & Hbefore & Hin & ->).
    simpl in Hbefore, Hin.
    assert (¬ NoDup (uid <$> before ++ item :: after)) as Hdup.
    { rewrite fmap_app, fmap_cons. intros [_ [Hnot _]]%NoDup_app.
      apply (Hnot _ Hin). by left. }
    split; [done|]. split; [done|]. intros e' [= <-]. by eexists _, _, _.
  - simpl in Hspec. split; [done|]. split; [done|]. by intros e [=].
Qed.

Lemma dict_append_fst (d : list (string * list Item)) (key : string)
    (file : Item) :
  (dict_append d key file).*1
  = if decide (key ∈ d.*1) then d.*1 else d.*1 ++ [key].
Proof.
  induction d as [|[k' v'] d IH]; cbn [dict_append fmap list_fmap fst].
  { by destruct (decide (key ∈ [])) as [?%elem_of_nil|]. }
  destruct (decide (key = k')) as [->|Hk]; cbn [fmap list_fmap fst].
  - rewrite decide_True; [done|]. by left.
  - rewrite IH. destruct (decide (key ∈ d.*1)).
    + rewrite decide_True; [done|]. by right.
    + rewrite decide_False; [done|]. by intros [?|?]%elem_of_cons.
Qed.

Lemma dict_append_elem_of (d : list (string * list Item)) (key k : string)
    (file : Item) (g : list Item) :
  NoDup d.*1 →
  (k, g) ∈ dict_append d key file
  ↔ k ≠ key ∧ (k, g) ∈ d
    ∨ k = key ∧ ((∃ g0, (key, g0) ∈ d ∧ g = g0 ++ [file])
                  ∨ (key ∉ d.*1) ∧ g = [file]).
Proof.
  induction d as [|[k0 g0] d IH]; cbn [dict_append fmap list_fmap fst].
  { intros _. rewrite list_elem_of_singleton. split.
    - intros [= -> ->]. right. split; [done|]. right.
      split; [apply not_elem_of_nil|done].
    - intros [[_ []%elem_of_nil]|[-> [(? & []%elem_of_nil & _)|[_ ->]]]].
      done. }
  intros [Hk0 Hd]%NoDup_cons.
  assert (∀ g', (k0, g') ∈ d → False) as Hfresh.
  { intros g' Hin. apply Hk0. apply list_elem_of_fmap. by exists (k0, g'). }
  destruct (decide (key = k0)) as [->|Hkey].
  - rewrite !elem_of_cons. split.
    + intros [[= -> ->]|Hin].
      * right. split; [done|]. left. exists g0. split; [by left|done].
      * left. split; [|by right]. intros ->. by eapply Hfresh.
    + intros [[Hne [[= -> ->]|Hin]]|[-> [(g1 & [[= ->]|Hin]%elem_of_cons & ->)
                                         |[Hnot ->]]]].
      * done.
      * by right.
      * by left.
      * by destruct (Hfresh g1).
      * destruct Hnot. by left.
  - rewrite elem_of_cons, IH by done. split.
    + intros [[= -> ->]|[[Hne Hin]|[-> [(g1 & Hin & ->)|[Hnot ->]]]]].
      * left. split; [done|]. by left.
      * left. split; [done|]. by right.
      * right. split; [done|]. left. exists g1. split; [by right|done].
      * right. split; [done|]. right. split; [|done].
        by intros [?|?]%elem_of_cons.
    + intros [[Hne [[= -> ->]|Hin]%elem_of_cons]
             |[-> [(g1 & [[= ? ->]|Hin]%elem_of_cons & ->)|[Hnot ->]]]].
      * by left.
      * right. left. by split.
      * done.
      * right. right. split; [done|]. left. by exists g1.
      * right. right. split; [done|]. right. split; [|done].
        intros Hin. apply Hnot. by right.
Qed.

(** X7. The files are grouped by their identifier: the groups have different
    identifiers, the group of an identifier holds the files of this
    identifier, all of them and in the order of the list, and no group is
    empty; the groups are in the order in which their identifiers first
    occur in the list. *)
Theorem group_files_spec (files : list Item) :
  NoDup (group_files uid files).*1
  ∧ (∀ key group,
       (key, group) ∈ group_files uid files
       ↔ group = filter (λ file, uid file = key) files ∧ group ≠ [])
  ∧ ∀ (i j : nat) key1 key2,
      (i < j)%nat →
      (group_files uid files).*1 !! i = Some key1 →
      (group_files uid files).*1 !! j = Some key2 →
      ∃ n : nat,
        (uid <$> files) !! n = Some key1
        ∧ ∀ m : nat, (m ≤ n)%nat → (uid <$> files) !! m ≠ Some key2.
Proof.
  unfold group_files.
  induction files as [|file files IH] using rev_ind.
  { simpl. split; [constructor|]. split.
    - intros key group. rewrite elem_of_nil. by split; [|intros [-> ?]].
    - by intros i j ?? _ ?. }
  rewrite foldl_snoc.
  destruct IH as (Hnodup & Hgroups & Horder).
  set (d := foldl (λ grouped_files file,
                     dict_append grouped_files (uid file) file) [] files) in *.
  assert (∀ key, key ∈ d.*1 ↔ key ∈ uid <$> files) as Hkeys.
  { intros key. rewrite !list_elem_of_fmap. split.
    - intros ([k g] & -> & Hin). apply Hgroups in Hin as [-> Hne].
      destruct (filter _ files) as [|f rest] eqn:Hfilter; [done|].
      assert (f ∈ filter (λ file, uid file = k) files) as Hf.
      { rewrite Hfilter. by left. }
      apply list_elem_of_filter in Hf as [Hf ?]. by exists f.
    - intros (f & -> & Hf).
      exists (uid f, filter (λ file, uid file = uid f) files).
      split; [done|]. apply Hgroups. split; [done|].
      intros Hnil. eapply (filter_nil_not_elem_of _ _ f); done. }
  split; [|split].
  - rewrite dict_append_fst. case_decide as Hin; [done|].
    apply NoDup_app. split; [done|]. split; [|apply NoDup_singleton].
    by intros k Hk ->%list_elem_of_singleton.
  - intros key group. rewrite dict_append_elem_of by done.
    rewrite filter_app, filter_cons, filter_nil.
    destruct (decide (uid file = key)) as [<-|Hne].
    + split.
      * intros [[Hkey _]|[_ [(g0 & Hin & ->)|[Hnot ->]]]]; [done|..].
        -- apply Hgroups in Hin as [-> _]. split; [done|].
           by intros [_ ?]%app_eq_nil.
        -- rewrite (filter_none _ files); [done|].
           apply Forall_forall. intros f Hf Heq. apply Hnot, Hkeys.
           rewrite <- Heq. by apply list_elem_of_fmap_2.
      * intros [-> _]. right. split; [done|].
        destruct (decide (uid file ∈ d.*1)) as [Hin|Hnot].
        -- left. eexists. split; [|done]. apply Hgroups. split; [done|].
           apply Hkeys in Hin.
           apply list_elem_of_fmap in Hin as (f & Heq & Hf).
           intros Hnil. by eapply (filter_nil_not_elem_of _ _ f).
        -- right. split; [done|]. rewrite (filter_none _ files); [done|].
           apply Forall_forall. intros f Hf Heq. apply Hnot, Hkeys.
           rewrite <- Heq. by apply list_elem_of_fmap_2.
    + rewrite app_nil_r. split.
      * intros [[_ Hin]|[-> _]]; [by apply Hgroups|done].
      * intros Hgroup. left. split; [congruence|]. by apply Hgroups.
  - intros i j key1 key2 Hij. rewrite dict_append_fst, fmap_app.
    destruct (decide (uid file ∈ d.*1)) as [Hin|Hnot].
    + intros Hi Hj. destruct (Horder i j key1 key2 Hij Hi Hj) as (n & Hn & Hm).
      exists n. split; [by apply lookup_app_l_Some|].
      intros m Hle. rewrite lookup_app_l; [by apply Hm|].
      apply lookup_lt_Some in Hn. lia.
    + intros Hi Hj.
      assert (i < length d.*1)%nat as Hlen.
      { apply lookup_lt_Some in Hj. rewrite length_app in Hj. simpl in Hj.
        lia. }
      rewrite lookup_app_l in Hi by done.
      destruct (decide (j < length d.*1)%nat) as [Hj'|Hj'].
      * rewrite lookup_app_l in Hj by done.
        destruct (Horder i j key1 key2 Hij Hi Hj) as (n & Hn & Hm).
        exists n. split; [by apply lookup_app_l_Some|].
        intros m Hle. rewrite lookup_app_l; [by apply Hm|].
        apply lookup_lt_Some in Hn. lia.
      * rewrite lookup_app_r in Hj by lia.
        apply list_lookup_singleton_Some in Hj as [_ <-].
        assert (key1 ∈ uid <$> files) as (n & Hn)%list_elem_of_lookup_1.
        { apply Hkeys. by eapply list_elem_of_lookup_2. }
        exists n. split; [by apply lookup_app_l_Some|].
        intros m Hle Hlookup. apply Hnot, Hkeys.
        rewrite lookup_app_l in Hlookup
          by (apply lookup_lt_Some in Hn; lia).
        by eapply list_elem_of_lookup_2.
Qed.

End unique_identifiers.

(** ** Bytes and integers *)

Lemma byte_to_of_Z (v : Z) : 0 ≤ v < 256 → byte_to_Z (byte_of_Z v) = v.
Proof.
  intros Hv. unfold byte_to_Z, byte_of_Z.
  rewrite Z.mod_small by done.
  destruct (Byte.of_N (Z.to_N v)) as [b|] eqn:Hb; simpl.
  - apply Byte.to_of_N in Hb. rewrite Hb. lia.
  - apply Byte.of_N_None_iff in Hb. lia.
Qed.

Lemma byte_to_of_Z_mod (v : Z) : byte_to_Z (byte_of_Z v) = v `mod` 256.
Proof.
  rewrite <- (byte_to_of_Z (v `mod` 256)) by (apply Z.mod_pos_bound; lia).
  unfold byte_of_Z. by rewrite Z.mod_mod by lia.
Qed.

Lemma length_Z_to_le (n : nat) (v : Z) : length (Z_to_le n v) = n.
Proof. revert v. induction n as [|n IH]; intros v; simpl; [done|]. by rewrite IH. Qed.

Lemma le_to_Z_to_le (n : nat) (v : Z) :
  0 ≤ v < 2 ^ (8 * Z.of_nat n) → le_to_Z (Z_to_le n v) = v.
Proof.
  revert v. induction n as [|n IH]; intros v Hv.
  { simpl in *. lia. }
  cbn [Z_to_le]. unfold le_to_Z in *. cbn [foldr].
  rewrite byte_to_of_Z_mod, IH.
  - pose proof (Z.div_mod v 256). lia.
  - replace (8 * Z.of_nat (S n)) with (8 + 8 * Z.of_nat n) in Hv by lia.
    rewrite Z.pow_add_r in Hv by lia. change (2 ^ 8) with 256 in Hv.
    split; [apply Z.div_pos; lia|].
    apply Z.div_lt_upper_bound; lia.
Qed.

Lemma unpack_Z_to_le (n : nat) (v : Z) :
  0 ≤ v < 2 ^ (8 * Z.of_nat n) →
  unpack LittleEndian n (Z_to_le n v) = Ok v.
Proof.
  intros Hv. unfold unpack. rewrite decide_True by apply length_Z_to_le.
  simpl. by rewrite le_to_Z_to_le.
Qed.

Lemma pack_Z_to_le (n : nat) (v : Z) :
  0 ≤ v < 2 ^ (8 * Z.of_nat n) → pack LittleEndian n v = Ok (Z_to_le n v).
Proof. intros Hv. unfold pack. by rewrite decide_True. Qed.

(** ** Reads and writes of a little-endian file *)

Lemma st_bind_step {S A B} (m : st S A) (f : A → st S B) (s s' : S) (a : A) :
  m s = Ok (a, s') → (m ≫= f) s = f a s'.
Proof. intros Hm. unfold mbind, st_bind. by rewrite Hm. Qed.

Lemma st_bind_assoc {S A B C} (m : st S A) (f : A → st S B)
    (g : B → st S C) (s : S) :
  ((m ≫= f) ≫= g) s = (m ≫= λ a, f a ≫= g) s.
Proof.
  unfold mbind, st_bind. destruct (m s) as [[a s']|e]; [|done]. done.
Qed.

Lemma st_ret_step {S A B} (a : A) (f : A → st S B) (s : S) :
  (mret a ≫= f) s = f a s.
Proof. done. Qed.

Lemma st_get_step {S B} (f : S → st S B) (s : S) : (get ≫= f) s = f s s.
Proof. done. Qed.

Lemma st_lift_step {S A B} (a : A) (f : A → st S B) (s : S) :
  (lift (Ok a) ≫= f) s = f a s.
Proof. done. Qed.

Lemma drop_suffix {A} (l mid rest : list A) (n : nat) :
  drop n l = mid ++ rest → drop (n + length mid) l = rest.
Proof.
  intros Hdrop. rewrite <- drop_drop, Hdrop.
  by rewrite drop_app_length.
Qed.

Lemma seek_le_file (data : bytes) (pos offset : Z) :
  0 ≤ offset → seek offset (le_file data pos) = Ok ((), le_file data offset).
Proof.
  intros Hoffset. unfold seek, mbind, st_bind, get. simpl.
  by rewrite decide_False by lia.
Qed.

Lemma seek_cur_le_file (data : bytes) (pos offset : Z) :
  0 ≤ pos + offset →
  seek_cur offset (le_file data pos) = Ok ((), le_file data (pos + offset)).
Proof.
  intros Hoffset. unfold seek_cur. unfold mbind at 1, st_bind, get. simpl.
  by apply seek_le_file.
Qed.

Lemma read_le_file (data mid rest : bytes) (pos length : Z) :
  0 ≤ pos → drop (Z.to_nat pos) data = mid ++ rest →
  length = Z.of_nat (List.length mid) →
  read length (le_file data pos) = Ok (mid, le_file data (pos + length))
  ∧ drop (Z.to_nat (pos + length)) data = rest.
Proof.
  intros Hpos Hdrop ->. split.
  - unfold read, mbind, st_bind, get, put, mret, st_ret. simpl.
    rewrite Hdrop, Nat2Z.id, take_app_length. done.
  - rewrite Z2Nat.inj_add, Nat2Z.id by lia. by apply drop_suffix.
Qed.

Lemma read_exact_le_file (data mid rest : bytes) (pos length : Z) :
  0 ≤ pos → drop (Z.to_nat pos) data = mid ++ rest →
  length = Z.of_nat (List.length mid) →
  read_exact length (le_file data pos)
  = Ok (mid, le_file data (pos + length))
  ∧ drop (Z.to_nat (pos + length)) data = rest.
Proof.
  intros Hpos Hdrop Hlength.
  destruct (read_le_file _ _ _ _ _ Hpos Hdrop Hlength) as [Hread Hrest].
  split; [|done]. unfold read_exact.
  rewrite (st_bind_step _ _ _ _ _ Hread).
  by rewrite decide_False by lia.
Qed.

Lemma read_UL_le_file (data rest : bytes) (pos value : Z) :
  0 ≤ pos → 0 ≤ value < 2 ^ 32 →
  drop (Z.to_nat pos) data = Z_to_le 4 value ++ rest →
  read_UL (le_file data pos) = Ok (value, le_file data (pos + 4))
  ∧ drop (Z.to_nat (pos + 4)) data = rest.
Proof.
  intros Hpos Hvalue Hdrop.
  destruct (read_le_file _ _ _ _ 4 Hpos Hdrop) as [Hread Hrest].
  { by rewrite length_Z_to_le. }
  split; [|done]. unfold read_UL. unfold mbind at 1, st_bind, get.
  rewrite (st_bind_step _ _ _ _ _ Hread). unfold lift.
  change (fp_order (le_file data pos)) with LittleEndian.
  by rewrite unpack_Z_to_le.
Qed.

(** Four bytes of any content, read as an unsigned long. *)
Lemma read_UL_any (data mid rest : bytes) (pos : Z) :
  0 ≤ pos → length mid = 4%nat →
  drop (Z.to_nat pos) data = mid ++ rest →
  ∃ value, read_UL (le_file data pos) = Ok (value, le_file data (pos + 4))
           ∧ drop (Z.to_nat (pos + 4)) data = rest.
Proof.
  intros Hpos Hmid Hdrop.
  destruct (read_le_file _ _ _ _ 4 Hpos Hdrop) as [Hread Hrest].
  { by rewrite Hmid. }
  eexists. split; [|done]. unfold read_UL. unfold mbind at 1, st_bind, get.
  rewrite (st_bind_step _ _ _ _ _ Hread). unfold lift, unpack.
  by rewrite decide_True.
Qed.

Lemma read_tag_le_file (data rest : bytes) (pos tag : Z) :
  0 ≤ pos → 0 ≤ tag < 2 ^ 32 →
  drop (Z.to_nat pos) data = tag_bytes tag ++ rest →
  read_tag (le_file data pos) = Ok (tag, le_file data (pos + 4))
  ∧ drop (Z.to_nat (pos + 4)) data = rest.
Proof.
  intros Hpos Htag Hdrop.
  destruct (read_exact_le_file _ _ _ _ 4 Hpos Hdrop) as [Hread Hrest].
  { unfold tag_bytes. by rewrite length_app, !length_Z_to_le. }
  split; [|done]. unfold read_tag. unfold mbind at 1, st_bind, get.
  rewrite (st_bind_step _ _ _ _ _ Hread).
  change (fp_order (le_file data pos)) with LittleEndian.
  unfold tag_bytes.
  rewrite take_app_length' by (by rewrite length_Z_to_le).
  rewrite drop_app_length' by (by rewrite length_Z_to_le).
  assert (0 ≤ tag `div` 65536 < 2 ^ (8 * Z.of_nat 2)) as Hgroup.
  { split; [apply Z.div_pos; lia|]. apply Z.div_lt_upper_bound; lia. }
  assert (0 ≤ tag `mod` 65536 < 2 ^ (8 * Z.of_nat 2)) as Helement.
  { apply Z.mod_pos_bound. lia. }
  unfold lift, mbind, st_bind.
  rewrite !unpack_Z_to_le by done. unfold mret, st_ret.
  do 2 f_equal. pose proof (Z.div_mod tag 65536). lia.
Qed.

Lemma write_append (data out : bytes) :
  write out (writer_file data) = Ok ((), writer_file (data ++ out)).
Proof.
  unfold write, writer_file, le_file, mbind, st_bind, get, put, set_pos,
    set_data. simpl.
  rewrite Nat2Z.id, Nat.sub_diag. simpl. rewrite app_nil_r.
  rewrite take_ge by lia. rewrite drop_ge by lia.
  rewrite app_nil_r, length_app. do 3 f_equal. lia.
Qed.

Lemma write_over (pre old post new : bytes) (pos : Z) :
  pos = Z.of_nat (length pre) → length new = length old →
  write new (le_file (pre ++ old ++ post) pos)
  = Ok ((), le_file (pre ++ new ++ post) (pos + Z.of_nat (length new))).
Proof.
  intros -> Hlength.
  unfold write, le_file, mbind, st_bind, get, put, set_pos, set_data. simpl.
  rewrite Nat2Z.id.
  replace (length pre - length (pre ++ old ++ post))%nat with 0%nat
    by (rewrite length_app; lia).
  simpl. rewrite app_nil_r.
  rewrite take_app_length.
  rewrite drop_app_add', Hlength, drop_app_length by done. done.
Qed.

(** ** What the writer appends *)

Lemma tell_le_file (data : bytes) (pos : Z) :
  tell (le_file data pos) = Ok (pos, le_file data pos).
Proof. done. Qed.

Lemma tell_writer_file (data : bytes) :
  tell (writer_file data) = Ok (Z.of_nat (length data), writer_file data).
Proof. done. Qed.

Lemma write_US_append (data : bytes) (value : Z) :
  0 ≤ value < 2 ^ 16 →
  write_US value (writer_file data)
  = Ok ((), writer_file (data ++ Z_to_le 2 value)).
Proof.
  intros Hvalue. unfold write_US. unfold mbind at 1, st_bind, get.
  change (fp_order (writer_file data)) with LittleEndian.
  rewrite pack_Z_to_le by done. simpl. apply write_append.
Qed.

Lemma write_UL_append (data : bytes) (value : Z) :
  0 ≤ value < 2 ^ 32 →
  write_UL value (writer_file data)
  = Ok ((), writer_file (data ++ Z_to_le 4 value)).
Proof.
  intros Hvalue. unfold write_UL. unfold mbind at 1, st_bind, get.
  change (fp_order (writer_file data)) with LittleEndian.
  rewrite pack_Z_to_le by done. simpl. apply write_append.
Qed.

Lemma write_unsigned_long_long_append (data : bytes) (value : Z) :
  0 ≤ value < 2 ^ 64 →
  _write_unsigned_long_long value (writer_file data)
  = Ok ((), writer_file (data ++ Z_to_le 8 value)).
Proof.
  intros Hvalue. unfold _write_unsigned_long_long.
  unfold mbind at 1, st_bind, lift.
  rewrite pack_Z_to_le by done. apply write_append.
Qed.

Lemma write_tag_append (data : bytes) (tag : Z) :
  0 ≤ tag < 2 ^ 32 →
  write_tag tag (writer_file data)
  = Ok ((), writer_file (data ++ tag_bytes tag)).
Proof.
  intros Htag. unfold write_tag, tag_bytes.
  assert (0 ≤ tag `div` 65536 < 2 ^ 16) as Hgroup.
  { split; [apply Z.div_pos; lia|]. apply Z.div_lt_upper_bound; lia. }
  rewrite (st_bind_step _ _ _ _ _ (write_US_append _ _ Hgroup)).
  rewrite write_US_append, <- app_assoc; [done|].
  apply Z.mod_pos_bound. lia.
Qed.

Lemma write_element_header_append (data : bytes) (tag : Z)
    (value_representation : bytes) (length : option Z) :
  0 ≤ tag < 2 ^ 32 → 0 ≤ default 0xFFFFFFFF length < 2 ^ 32 →
  _write_tag tag value_representation length (writer_file data)
  = Ok ((), writer_file
              (data ++ element_header tag value_representation
                         (default 0xFFFFFFFF length))).
Proof.
  intros Htag Hlength. unfold _write_tag, element_header.
  rewrite (st_bind_step _ _ _ _ _ (write_tag_append _ _ Htag)).
  rewrite (st_bind_step _ _ _ _ _ (write_append _ _)).
  rewrite (st_bind_step _ _ _ _ _ (write_US_append _ 0 ltac:(done))).
  rewrite <- !app_assoc.
  destruct length as [length|]; cbn [default] in *.
  - rewrite write_UL_append by exact Hlength. by rewrite <- !app_assoc.
  - rewrite write_UL_append by exact Hlength. by rewrite <- !app_assoc.
Qed.

Lemma for_st_append {A} (body : A → st DicomFile ()) (out : A → bytes)
    (l : list A) (data : bytes) :
  (∀ a data, a ∈ l →
             body a (writer_file data)
             = Ok ((), writer_file (data ++ out a))) →
  for_st body l (writer_file data)
  = Ok ((), writer_file (data ++ (l ≫= out))).
Proof.
  revert data. induction l as [|a l IH]; intros data Hbody; simpl.
  { by rewrite app_nil_r. }
  rewrite (st_bind_step _ _ _ _ _ (Hbody a data ltac:(left))).
  rewrite IH, <- app_assoc; [done|].
  intros b data' Hb. apply Hbody. by right.
Qed.

Lemma length_seqZ' (m n : Z) : length (seqZ m n) = Z.to_nat n.
Proof. unfold seqZ. by rewrite length_fmap, length_seq. Qed.

Lemma table_bytes_zero (width : nat) (n : nat) (l : list Z) :
  length l = n →
  l ≫= (λ _, Z_to_le width 0) = table_bytes width (replicate n 0).
Proof.
  intros <-. unfold table_bytes.
  induction l as [|a l IH]; [done|].
  cbn [length replicate mbind list_bind]. by f_equal.
Qed.

Lemma reserve_bot_append (data : bytes) (number_of_frames : Z) :
  0 ≤ 4 * number_of_frames < 2 ^ 32 →
  _reserve_bot number_of_frames (writer_file data)
  = Ok (Z.of_nat (length data),
        writer_file
          (data ++ tag_bytes ItemTag ++ Z_to_le 4 (4 * number_of_frames)
           ++ table_bytes 4 (replicate (Z.to_nat number_of_frames) 0))).
Proof.
  intros Hn. unfold _reserve_bot.
  rewrite (st_bind_step _ _ _ _ _ (tell_writer_file _)).
  rewrite (st_bind_step _ _ _ _ _ (write_tag_append _ ItemTag ltac:(done))).
  rewrite (st_bind_step _ _ _ _ _ (write_UL_append _ _ Hn)).
  erewrite st_bind_step.
  2:{ apply (for_st_append _ (λ _, Z_to_le 4 0)).
      intros _ data' _. by apply write_UL_append. }
  rewrite (table_bytes_zero 4 (Z.to_nat number_of_frames))
    by apply length_seqZ'.
  by rewrite <- !app_assoc.
Qed.

Lemma reserve_eot_append (data : bytes) (number_of_frames : Z) :
  0 ≤ 8 * number_of_frames < 2 ^ 32 →
  _reserve_eot number_of_frames (writer_file data)
  = Ok (Z.of_nat (length data),
        writer_file
          (data
           ++ element_header ExtendedOffsetTableTag VR_OV
                (8 * number_of_frames)
           ++ table_bytes 8 (replicate (Z.to_nat number_of_frames) 0)
           ++ element_header ExtendedOffsetTableLengthsTag VR_OV
                (8 * number_of_frames)
           ++ table_bytes 8 (replicate (Z.to_nat number_of_frames) 0))).
Proof.
  intros Hn. unfold _reserve_eot.
  rewrite (st_bind_step _ _ _ _ _ (tell_writer_file _)).
  rewrite (st_bind_step _ _ _ _ _
             (write_element_header_append _ ExtendedOffsetTableTag _ (Some _)
                ltac:(done) Hn)).
  erewrite st_bind_step.
  2:{ apply (for_st_append _ (λ _, Z_to_le 8 0)).
      intros _ data' _. by apply write_unsigned_long_long_append. }
  rewrite (st_bind_step _ _ _ _ _
             (write_element_header_append _ ExtendedOffsetTableLengthsTag _
                (Some _) ltac:(done) Hn)).
  erewrite st_bind_step.
  2:{ apply (for_st_append _ (λ _, Z_to_le 8 0)).
      intros _ data' _. by apply write_unsigned_long_long_append. }
  rewrite !(table_bytes_zero 8 (Z.to_nat number_of_frames))
    by apply length_seqZ'.
  by rewrite <- !app_assoc.
Qed.

Lemma itemize_frame_bytes (tile : bytes) :
  itemize_frame tile
  = tag_bytes ItemTag ++ Z_to_le 4 (Z.of_nat (length (fragment tile)))
    ++ fragment tile.
Proof. done. Qed.

Lemma length_itemize_frame (tile : bytes) :
  Z.of_nat (length (itemize_frame tile))
  = 8 + Z.of_nat (length (fragment tile)).
Proof.
  rewrite itemize_frame_bytes, !length_app, length_Z_to_le.
  change (length (tag_bytes ItemTag)) with 4%nat. lia.
Qed.

Lemma write_frames_append (tiles : list bytes) (data : bytes) :
  write_frames tiles (writer_file data)
  = Ok (item_positions (Z.of_nat (length data)) tiles,
        writer_file (data ++ item_bytes tiles)).
Proof.
  revert data. induction tiles as [|tile tiles IH]; intros data.
  { simpl. by rewrite app_nil_r. }
  cbn [write_frames].
  rewrite (st_bind_step _ _ _ _ _ (tell_writer_file _)).
  rewrite (st_bind_step _ _ _ _ _ (write_append _ _)).
  rewrite (st_bind_step _ _ _ _ _ (IH _)).
  unfold item_bytes. cbn [mbind list_bind item_positions].
  rewrite <- app_assoc, length_app.
  unfold mret, st_ret. do 3 f_equal.
  pose proof (length_itemize_frame tile). f_equal. lia.
Qed.

Lemma write_pixel_data_end_append (data : bytes) :
  _write_pixel_data_end (writer_file data)
  = Ok ((), writer_file (data ++ pixel_data_end)).
Proof.
  unfold _write_pixel_data_end, pixel_data_end.
  rewrite (st_bind_step _ _ _ _ _
             (write_tag_append _ SequenceDelimiterTag ltac:(done))).
  rewrite write_UL_append by done. by rewrite <- app_assoc.
Qed.

Lemma write_pixel_data_start_append (data : bytes) (number_of_frames : Z)
    (offset_table : option string) :
  0 ≤ 8 * number_of_frames < 2 ^ 32 →
  let reserved := replicate (Z.to_nat number_of_frames) 0 in
  let start_bytes :=
    pixel_data_start_bytes offset_table number_of_frames reserved reserved in
  _write_pixel_data_start number_of_frames offset_table (writer_file data)
  = Ok ((if decide (offset_table = Some "eot"%string)
         then Some (Z.of_nat (length data))
         else if decide (offset_table = Some "bot"%string)
         then Some (Z.of_nat (length data) + 12)
         else None,
         Z.of_nat (length (data ++ start_bytes))),
        writer_file (data ++ start_bytes)).
Proof.
  intros Hn reserved start_bytes. subst start_bytes.
  unfold _write_pixel_data_start, pixel_data_start_bytes.
  destruct (decide (offset_table = Some "eot"%string)) as [->|Heot].
  - destruct (decide (Some "eot"%string = Some "bot"%string)) as [[=]|_].
    unfold fmap at 1, st_fmap.
    rewrite (st_bind_step _ _ (writer_file data) _ _
               (f_equal (λ r, match r with
                              | Ok (a, s) => Ok (Some a, s)
                              | Err e => Err e
                              end)
                  (reserve_eot_append data number_of_frames Hn))).
    rewrite (st_bind_step _ _ _ _ _
               (write_element_header_append _ PixelDataTag VR_OB None
                  ltac:(done) ltac:(done))).
    rewrite !st_bind_assoc.
    rewrite (st_bind_step _ _ _ _ _
               (write_tag_append _ ItemTag ltac:(done))).
    rewrite !st_bind_assoc.
    rewrite (st_bind_step _ _ _ _ _ (write_UL_append _ 0 ltac:(done))).
    rewrite st_ret_step.
    rewrite (st_bind_step _ _ _ _ _ (tell_writer_file _)).
    cbn [default]. by rewrite <- !app_assoc.
  - rewrite st_ret_step.
    rewrite (st_bind_step _ _ _ _ _
               (write_element_header_append _ PixelDataTag VR_OB None
                  ltac:(done) ltac:(done))).
    cbn [default app].
    destruct (decide (offset_table = Some "bot"%string)) as [->|Hbot].
    + unfold fmap at 1, st_fmap.
      assert (0 ≤ 4 * number_of_frames < 2 ^ 32) as Hn' by lia.
      rewrite (st_bind_step _ _ (writer_file _) _ _
                 (f_equal (λ r, match r with
                                | Ok (a, s) => Ok (Some a, s)
                                | Err e => Err e
                                end)
                    (reserve_bot_append _ number_of_frames Hn'))).
      rewrite (st_bind_step _ _ _ _ _ (tell_writer_file _)).
      unfold mret, st_ret. rewrite <- !app_assoc.
      do 4 f_equal. rewrite length_app. unfold element_header.
      rewrite !length_app, !length_Z_to_le.
      change (length (tag_bytes PixelDataTag)) with 4%nat.
      change (length VR_OB) with 2%nat. lia.
    + rewrite !st_bind_assoc.
      rewrite (st_bind_step _ _ _ _ _
                 (write_tag_append _ ItemTag ltac:(done))).
      rewrite !st_bind_assoc.
      rewrite (st_bind_step _ _ _ _ _ (write_UL_append _ 0 ltac:(done))).
      rewrite st_ret_step.
      rewrite (st_bind_step _ _ _ _ _ (tell_writer_file _)).
      by rewrite <- !app_assoc.
Qed.

(** ** What the writer reads and overwrites in the tables *)

Lemma read_tag_length_le_file (with_vr : bool) (data vr rest : bytes)
    (pos length : Z) :
  0 ≤ pos → 0 ≤ length < 2 ^ 32 →
  List.length vr = (if with_vr then 4 else 0)%nat →
  drop (Z.to_nat pos) data = vr ++ Z_to_le 4 length ++ rest →
  _read_tag_length with_vr (le_file data pos)
  = Ok (length, le_file data (pos + Z.of_nat (List.length vr) + 4))
  ∧ drop (Z.to_nat (pos + Z.of_nat (List.length vr) + 4)) data = rest.
Proof.
  intros Hpos Hlength Hvr Hdrop. unfold _read_tag_length.
  rewrite st_get_step. cbn [is_implicit_VR le_file negb andb].
  destruct with_vr.
  - destruct (read_UL_any _ _ _ _ Hpos Hvr Hdrop) as (value & Hread & Hrest).
    rewrite !st_bind_assoc.
    rewrite (st_bind_step _ _ _ _ _ Hread). rewrite st_ret_step.
    rewrite Hvr.
    by apply read_UL_le_file; [lia|..].
  - destruct vr; [|done]. rewrite st_ret_step.
    simpl in Hdrop. rewrite Z.add_0_r.
    by apply read_UL_le_file.
Qed.

Lemma check_tag_and_length_le_file (with_vr : bool) (data vr rest : bytes)
    (pos tag length : Z) :
  0 ≤ pos → 0 ≤ tag < 2 ^ 32 → 0 ≤ length < 2 ^ 32 →
  List.length vr = (if with_vr then 4 else 0)%nat →
  drop (Z.to_nat pos) data = tag_bytes tag ++ vr ++ Z_to_le 4 length ++ rest →
  _check_tag_and_length tag length with_vr (le_file data pos)
  = Ok ((), le_file data (pos + 4 + Z.of_nat (List.length vr) + 4))
  ∧ drop (Z.to_nat (pos + 4 + Z.of_nat (List.length vr) + 4)) data = rest.
Proof.
  intros Hpos Htag Hlength Hvr Hdrop. unfold _check_tag_and_length.
  destruct (read_tag_le_file _ _ _ _ Hpos Htag Hdrop) as [Hread Hrest].
  rewrite (st_bind_step _ _ _ _ _ Hread).
  rewrite decide_False by (by intros ?).
  destruct (read_tag_length_le_file with_vr _ _ _ (pos + 4) _
              ltac:(lia) Hlength Hvr Hrest) as [Hread' Hrest'].
  rewrite (st_bind_step _ _ _ _ _ Hread').
  by rewrite decide_False by (by intros ?).
Qed.

Lemma length_table_bytes (width : nat) (entries : list Z) :
  length (table_bytes width entries) = (width * length entries)%nat.
Proof.
  unfold table_bytes.
  induction entries as [|entry entries IH]; cbn [mbind list_bind length];
    [lia|].
  rewrite length_app, length_Z_to_le, IH. lia.
Qed.

(** A loop that overwrites the entries of a table one after the other. *)
Lemma for_st_over {A} (body : A → st DicomFile ()) (width : nat)
    (out : A → Z) (l : list A) (olds : list Z) (pre post : bytes) :
  (∀ a pre old post,
     a ∈ l → length old = width →
     body a (le_file (pre ++ old ++ post) (Z.of_nat (length pre)))
     = Ok ((), le_file (pre ++ Z_to_le width (out a) ++ post)
                       (Z.of_nat (length pre) + Z.of_nat width))) →
  length olds = length l →
  for_st body l (le_file (pre ++ table_bytes width olds ++ post)
                         (Z.of_nat (length pre)))
  = Ok ((), le_file (pre ++ table_bytes width (out <$> l) ++ post)
                    (Z.of_nat (length pre)
                     + Z.of_nat (width * length l))).
Proof.
  revert olds pre. induction l as [|a l IH]; intros olds pre Hbody Holds.
  { destruct olds; [|done]. cbn [for_st fmap list_fmap length].
    by rewrite Nat.mul_0_r, Z.add_0_r. }
  destruct olds as [|old olds]; [done|]. injection Holds as Holds.
  cbn [for_st fmap list_fmap]. unfold table_bytes.
  cbn [mbind list_bind]. fold (table_bytes width olds).
  fold (table_bytes width (out <$> l)).
  rewrite <- !app_assoc.
  rewrite (st_bind_step _ _ _ _ _
             (Hbody a pre (Z_to_le width old) _ ltac:(left)
                (length_Z_to_le _ _))).
  specialize (IH olds (pre ++ Z_to_le width (out a))).
  rewrite length_app, length_Z_to_le, <- !app_assoc in IH.
  replace (Z.of_nat (length pre) + Z.of_nat width)
    with (Z.of_nat (length pre + width)) by lia.
  rewrite IH; [|intros; apply Hbody; [by right|done]|done].
  do 3 f_equal. cbn [length]. lia.
Qed.

Lemma write_UL_over (pre old post : bytes) (value : Z) :
  0 ≤ value < 2 ^ 32 → length old = 4%nat →
  write_UL value (le_file (pre ++ old ++ post) (Z.of_nat (length pre)))
  = Ok ((), le_file (pre ++ Z_to_le 4 value ++ post)
                    (Z.of_nat (length pre) + Z.of_nat 4)).
Proof.
  intros Hvalue Hold. unfold write_UL. rewrite st_get_step.
  change (fp_order (le_file _ _)) with LittleEndian.
  rewrite pack_Z_to_le by done. rewrite st_lift_step.
  rewrite write_over; [|done|by rewrite length_Z_to_le].
  by rewrite length_Z_to_le.
Qed.

Lemma write_unsigned_long_long_over (pre old post : bytes) (value : Z) :
  0 ≤ value < 2 ^ 64 → length old = 8%nat →
  _write_unsigned_long_long value
    (le_file (pre ++ old ++ post) (Z.of_nat (length pre)))
  = Ok ((), le_file (pre ++ Z_to_le 8 value ++ post)
                    (Z.of_nat (length pre) + Z.of_nat 8)).
Proof.
  intros Hvalue Hold. unfold _write_unsigned_long_long.
  rewrite pack_Z_to_le by done. rewrite st_lift_step.
  rewrite write_over; [|done|by rewrite length_Z_to_le].
  by rewrite length_Z_to_le.
Qed.

Lemma app_drop_length {A} (pre rest : list A) (pos : Z) :
  pos = Z.of_nat (length pre) → drop (Z.to_nat pos) (pre ++ rest) = rest.
Proof. intros ->. rewrite Nat2Z.id. apply drop_app_length. Qed.

(** The basic offset table, written over the reserved one. *)
Lemma write_bot_over (pre post : bytes) (olds frame_positions : list Z)
    (pixel_data_start pos : Z) :
  frame_positions ≠ [] →
  length olds = length frame_positions →
  4 * Z.of_nat (length frame_positions) < 2 ^ 32 →
  (∀ frame_position,
     frame_position ∈ frame_positions →
     0 ≤ frame_position - pixel_data_start < 2 ^ 32) →
  _write_bot (Z.of_nat (length pre)) pixel_data_start frame_positions
    (le_file (pre ++ tag_bytes ItemTag
              ++ Z_to_le 4 (4 * Z.of_nat (length frame_positions))
              ++ table_bytes 4 olds ++ post) pos)
  = Ok ((), le_file
              (pre ++ tag_bytes ItemTag
               ++ Z_to_le 4 (4 * Z.of_nat (length frame_positions))
               ++ table_bytes 4
                    ((λ frame_position, frame_position - pixel_data_start)
                     <$> frame_positions)
               ++ post)
              (Z.of_nat (length pre) + 8
               + 4 * Z.of_nat (length frame_positions))).
Proof.
  intros Hne Holds Hn Hfit.
  destruct (last_is_Some frame_positions Hne) as [last_position Hlast].
  pose proof (Hfit _ (last_elem_of _ _ Hlast)) as Hlast_fit.
  rewrite (write_bot_unfold _ _ _ _ _ Hlast) by lia.
  unfold check_bot.
  rewrite (st_bind_step _ _ _ _ _
             (seek_le_file _ _ (Z.of_nat (length pre)) ltac:(lia))).
  destruct (check_tag_and_length_le_file false
              (pre ++ tag_bytes ItemTag
               ++ Z_to_le 4 (4 * Z.of_nat (length frame_positions))
               ++ table_bytes 4 olds ++ post) []
              (table_bytes 4 olds ++ post) (Z.of_nat (length pre)) ItemTag
              (4 * Z.of_nat (length frame_positions)))
    as [Hcheck _]; [lia|done|lia|done|by apply app_drop_length|].
  rewrite Hcheck. cbn [length].
  pose proof (for_st_over
    (λ frame_position, write_UL (frame_position - pixel_data_start)) 4
    (λ frame_position, frame_position - pixel_data_start)
    frame_positions olds
    (pre ++ tag_bytes ItemTag
     ++ Z_to_le 4 (4 * Z.of_nat (length frame_positions))) post) as Hloop.
  rewrite <- !app_assoc in Hloop.
  rewrite !length_app, length_Z_to_le in Hloop.
  change (length (tag_bytes ItemTag)) with 4%nat in Hloop.
  replace (Z.of_nat (length pre) + 4 + Z.of_nat 0 + 4)
    with (Z.of_nat (length pre + (4 + 4))) by lia.
  rewrite Hloop; [do 3 f_equal; lia| |done].
  intros frame_position pre' old post' Hin Hold.
  by apply write_UL_over; [apply Hfit|].
Qed.

(** The lengths of the extended offset table, written over reserved
    entries. *)
Lemma write_eot_lengths_over (pre post : bytes) (olds frame_ends : list Z)
    (frame_start last_frame_end : Z) :
  length olds = S (length frame_ends) →
  (∀ length, length ∈ eot_lengths frame_start frame_ends last_frame_end →
             0 ≤ length < 2 ^ 64) →
  (write_eot_lengths frame_start frame_ends
   ≫= λ frame_start,
        _write_unsigned_long_long (last_frame_end - (frame_start + 4 + 4)))
    (le_file (pre ++ table_bytes 8 olds ++ post) (Z.of_nat (length pre)))
  = Ok ((), le_file
              (pre ++ table_bytes 8
                        (eot_lengths frame_start frame_ends last_frame_end)
               ++ post)
              (Z.of_nat (length pre) + 8 * Z.of_nat (length olds))).
Proof.
  revert pre olds frame_start.
  induction frame_ends as [|frame_end frame_ends IH];
    intros pre olds frame_start Holds Hfit.
  - destruct olds as [|old [|??]]; [done| |done].
    cbn [write_eot_lengths eot_lengths]. rewrite st_ret_step.
    unfold table_bytes. cbn [mbind list_bind]. rewrite !app_nil_r.
    rewrite write_unsigned_long_long_over;
      [by cbn [length]|apply Hfit; by left|apply length_Z_to_le].
  - destruct olds as [|old olds]; [done|]. injection Holds as Holds.
    cbn [write_eot_lengths eot_lengths]. rewrite st_bind_assoc.
    unfold table_bytes. cbn [mbind list_bind].
    fold (table_bytes 8 olds).
    fold (table_bytes 8 (eot_lengths frame_end frame_ends last_frame_end)).
    rewrite <- !app_assoc.
    rewrite (st_bind_step _ _ _ _ _
               (write_unsigned_long_long_over pre (Z_to_le 8 old) _
                  (frame_end - frame_start)
                  (Hfit _ ltac:(left)) (length_Z_to_le _ _))).
    specialize (IH (pre ++ Z_to_le 8 (frame_end - frame_start)) olds
                  frame_end Holds).
    rewrite length_app, length_Z_to_le, <- !app_assoc in IH.
    replace (Z.of_nat (length pre) + Z.of_nat 8)
      with (Z.of_nat (length pre + 8)) by lia.
    rewrite IH; [do 3 f_equal; cbn [length]; lia|].
    intros length Hlength. apply Hfit. by right.
Qed.

(** The extended offset table and its lengths, written over the reserved
    ones. *)
Lemma write_eot_over (pre post : bytes) (olds olds' frame_positions : list Z)
    (first_position pixel_data_start last_frame_end pos : Z) :
  head frame_positions = Some first_position →
  length olds = length frame_positions →
  length olds' = length frame_positions →
  8 * Z.of_nat (length frame_positions) < 2 ^ 32 →
  (∀ frame_position,
     frame_position ∈ frame_positions →
     0 ≤ frame_position - pixel_data_start < 2 ^ 64) →
  (∀ length,
     length ∈ eot_lengths first_position (drop 1 frame_positions)
                last_frame_end →
     0 ≤ length < 2 ^ 64) →
  let number_of_frames := Z.of_nat (length frame_positions) in
  _write_eot (Z.of_nat (length pre)) pixel_data_start frame_positions
    last_frame_end
    (le_file (pre
              ++ element_header ExtendedOffsetTableTag VR_OV
                   (8 * number_of_frames)
              ++ table_bytes 8 olds
              ++ element_header ExtendedOffsetTableLengthsTag VR_OV
                   (8 * number_of_frames)
              ++ table_bytes 8 olds' ++ post) pos)
  = Ok ((), le_file
              (pre
               ++ element_header ExtendedOffsetTableTag VR_OV
                    (8 * number_of_frames)
               ++ table_bytes 8
                    ((λ frame_position, frame_position - pixel_data_start)
                     <$> frame_positions)
               ++ element_header ExtendedOffsetTableLengthsTag VR_OV
                    (8 * number_of_frames)
               ++ table_bytes 8
                    (eot_lengths first_position (drop 1 frame_positions)
                       last_frame_end)
               ++ post)
              (Z.of_nat (length pre) + 24 + 16 * number_of_frames)).
Proof.
  intros Hhead Holds Holds' Hn Hfit Hlengths number_of_frames.
  assert (frame_positions ≠ []) as Hne by (by intros ->).
  destruct (last_is_Some frame_positions Hne) as [last_position Hlast].
  pose proof (Hfit _ (last_elem_of _ _ Hlast)) as Hlast_fit.
  unfold _write_eot. cbv zeta.
  rewrite (py_getitem_last _ _ Hlast), st_lift_step.
  rewrite decide_False by lia.
  rewrite (st_bind_step _ _ _ _ _
             (seek_le_file _ _ (Z.of_nat (length pre)) ltac:(lia))).
  fold number_of_frames.
  set (lengths_element :=
         element_header ExtendedOffsetTableLengthsTag VR_OV
           (8 * number_of_frames)).
  unfold element_header at 1.
  destruct (check_tag_and_length_le_file true
              (pre ++ (tag_bytes ExtendedOffsetTableTag ++ VR_OV
                       ++ Z_to_le 2 0 ++ Z_to_le 4 (8 * number_of_frames))
               ++ table_bytes 8 olds ++ lengths_element
               ++ table_bytes 8 olds' ++ post)
              (VR_OV ++ Z_to_le 2 0)
              (table_bytes 8 olds ++ lengths_element
               ++ table_bytes 8 olds' ++ post)
              (Z.of_nat (length pre)) ExtendedOffsetTableTag
              (8 * number_of_frames))
    as [Hcheck _]; [lia|done|lia|done| |].
  { rewrite <- !app_assoc. by apply app_drop_length. }
  rewrite (st_bind_step _ _ _ _ _ Hcheck). clear Hcheck.
  change (Z.of_nat (length (VR_OV ++ Z_to_le 2 0))) with 4.
  pose proof (for_st_over
    (λ frame_position,
       _write_unsigned_long_long (frame_position - pixel_data_start)) 8
    (λ frame_position, frame_position - pixel_data_start)
    frame_positions olds
    (pre ++ tag_bytes ExtendedOffsetTableTag ++ VR_OV
     ++ Z_to_le 2 0 ++ Z_to_le 4 (8 * number_of_frames))
    (lengths_element ++ table_bytes 8 olds' ++ post)) as Hloop.
  rewrite <- !app_assoc in Hloop.
  rewrite !length_app, !length_Z_to_le in Hloop.
  change (length (tag_bytes ExtendedOffsetTableTag)) with 4%nat in Hloop.
  change (length VR_OV) with 2%nat in Hloop.
  rewrite <- !app_assoc.
  replace (Z.of_nat (length pre) + 4 + 4 + 4)
    with (Z.of_nat (length pre + (4 + (2 + (2 + 4))))) by lia.
  specialize (Hloop
    (λ frame_position pre' old post' Hin Hold,
       write_unsigned_long_long_over pre' old post' _
         (Hfit frame_position Hin) Hold) Holds).
  rewrite (st_bind_step _ _ _ _ _ Hloop); clear Hloop.
  set (offsets := (λ frame_position, frame_position - pixel_data_start)
                  <$> frame_positions).
  set (data1 := pre ++ tag_bytes ExtendedOffsetTableTag ++ VR_OV
                ++ Z_to_le 2 0 ++ Z_to_le 4 (8 * number_of_frames)
                ++ table_bytes 8 offsets).
  set (pos1 := Z.of_nat (length pre + (4 + (2 + (2 + 4))))
               + Z.of_nat (8 * length frame_positions)).
  assert (pos1 = Z.of_nat (length data1)) as Hpos1.
  { subst pos1 data1. rewrite !length_app, !length_Z_to_le.
    rewrite length_table_bytes. subst offsets. rewrite length_fmap.
    change (length (tag_bytes ExtendedOffsetTableTag)) with 4%nat.
    change (length VR_OV) with 2%nat. lia. }
  subst lengths_element. unfold element_header at 1.
  destruct (check_tag_and_length_le_file true
              (data1 ++ (tag_bytes ExtendedOffsetTableLengthsTag ++ VR_OV
                         ++ Z_to_le 2 0
                         ++ Z_to_le 4 (8 * number_of_frames))
               ++ table_bytes 8 olds' ++ post)
              (VR_OV ++ Z_to_le 2 0)
              (table_bytes 8 olds' ++ post)
              pos1 ExtendedOffsetTableLengthsTag
              (8 * number_of_frames))
    as [Hcheck _]; [lia|done|lia|done| |].
  { rewrite <- !app_assoc. by apply app_drop_length. }
  subst data1. rewrite <- !app_assoc in Hcheck.
  rewrite (st_bind_step _ _ _ _ _ Hcheck). clear Hcheck.
  rewrite (py_getitem_first _ _ Hhead), st_lift_step.
  change (Z.of_nat (length (VR_OV ++ Z_to_le 2 0))) with 4.
  pose proof (write_eot_lengths_over
    (pre ++ tag_bytes ExtendedOffsetTableTag ++ VR_OV
     ++ Z_to_le 2 0 ++ Z_to_le 4 (8 * number_of_frames)
     ++ table_bytes 8 offsets
     ++ tag_bytes ExtendedOffsetTableLengthsTag ++ VR_OV
     ++ Z_to_le 2 0 ++ Z_to_le 4 (8 * number_of_frames))
    post olds' (drop 1 frame_positions) first_position last_frame_end)
    as Hwrite.
  rewrite <- !app_assoc in Hwrite.
  rewrite !length_app, !length_Z_to_le, length_table_bytes in Hwrite.
  change (length (tag_bytes ExtendedOffsetTableTag)) with 4%nat in Hwrite.
  change (length (tag_bytes ExtendedOffsetTableLengthsTag)) with 4%nat
    in Hwrite.
  change (length VR_OV) with 2%nat in Hwrite.
  assert (length offsets = length frame_positions) as Hoffsets.
  { subst offsets. by rewrite length_fmap. }
  rewrite Hoffsets in Hwrite.
  replace (pos1 + 4 + 4 + 4)
    with (Z.of_nat (length pre
                    + (4 + (2 + (2 + (4 + (8 * length frame_positions
                                           + (4 + (2 + (2 + 4))))))))))
    by (subst pos1; lia).
  rewrite Hwrite; [|by rewrite Holds', length_drop; destruct frame_positions;
                      [|simpl; lia]|done].
  unfold element_header. rewrite <- !app_assoc.
  do 3 f_equal. subst number_of_frames. lia.
Qed.

(** ** The positions of the items *)

Lemma length_item_positions (position : Z) (tiles : list bytes) :
  length (item_positions position tiles) = length tiles.
Proof.
  revert position. induction tiles as [|tile tiles IH]; intros position;
    simpl; [done|]. by rewrite IH.
Qed.

Lemma length_item_bytes_cons (tile : bytes) (tiles : list bytes) :
  Z.of_nat (length (item_bytes (tile :: tiles)))
  = 8 + Z.of_nat (length (fragment tile))
    + Z.of_nat (length (item_bytes tiles)).
Proof.
  unfold item_bytes. cbn [mbind list_bind].
  rewrite length_app. pose proof (length_itemize_frame tile). lia.
Qed.

Lemma item_positions_bounds (position : Z) (tiles : list bytes) (p : Z) :
  p ∈ item_positions position tiles →
  position ≤ p ∧ p + 8 ≤ position + Z.of_nat (length (item_bytes tiles)).
Proof.
  revert position. induction tiles as [|tile tiles IH]; intros position.
  { by intros ?%elem_of_nil. }
  cbn [item_positions]. rewrite length_item_bytes_cons.
  intros [->|Hp%IH]%elem_of_cons; lia.
Qed.

Lemma eot_lengths_bounds (position : Z) (tile : bytes) (tiles : list bytes)
    (v : Z) :
  v ∈ eot_lengths position
        (item_positions (position + 8 + Z.of_nat (length (fragment tile)))
                        tiles)
        (position + Z.of_nat (length (item_bytes (tile :: tiles)))) →
  0 ≤ v ≤ Z.of_nat (length (item_bytes (tile :: tiles))).
Proof.
  revert position tile. induction tiles as [|tile' tiles IH];
    intros position tile.
  - cbn [item_positions eot_lengths]. rewrite length_item_bytes_cons.
    intros ->%list_elem_of_singleton. simpl. lia.
  - cbn [item_positions eot_lengths].
    rewrite (length_item_bytes_cons tile).
    intros [->|Hv]%elem_of_cons; [lia|].
    specialize (IH (position + 8 + Z.of_nat (length (fragment tile)))
                  tile').
    replace (position + 8 + Z.of_nat (length (fragment tile))
             + Z.of_nat (length (item_bytes (tile' :: tiles))))
      with (position + (8 + Z.of_nat (length (fragment tile))
                        + Z.of_nat (length (item_bytes (tile' :: tiles)))))
      in IH by lia.
    specialize (IH Hv). lia.
Qed.

Lemma length_pixel_data_start_bytes (offset_table : option string)
    (number_of_frames : Z) (offsets lengths offsets' lengths' : list Z) :
  length offsets = length offsets' → length lengths = length lengths' →
  length (pixel_data_start_bytes offset_table number_of_frames
            offsets lengths)
  = length (pixel_data_start_bytes offset_table number_of_frames
              offsets' lengths').
Proof.
  intros Hoffsets Hlengths. unfold pixel_data_start_bytes.
  rewrite !length_app. repeat case_decide;
    rewrite ?length_app, ?length_table_bytes, ?Hoffsets, ?Hlengths; done.
Qed.

(** ** The pixel data that the writer leaves *)

Lemma write_pixel_data_bytes (data : bytes) (offset_table : option string)
    (tiles : list bytes) :
  offset_table = None ∨ offset_table = Some "bot"%string
  ∨ offset_table = Some "eot"%string →
  8 * Z.of_nat (length tiles) < 2 ^ 32 →
  (offset_table ≠ None → tiles ≠ []) →
  (offset_table = Some "bot"%string →
   Z.of_nat (length (item_bytes tiles)) < 2 ^ 32) →
  (offset_table = Some "eot"%string →
   Z.of_nat (length (item_bytes tiles)) < 2 ^ 64) →
  ∃ pos,
    write_pixel_data (Z.of_nat (length tiles)) offset_table tiles
      (writer_file data)
    = Ok ((), le_file
                (data ++ pixel_data_bytes offset_table
                           (Z.of_nat (length data)) tiles) pos).
Proof.
  intros Htable Hn Hne Hbot Heot. unfold write_pixel_data.
  rewrite (st_bind_step _ _ _ _ _
             (write_pixel_data_start_append data (Z.of_nat (length tiles))
                offset_table ltac:(lia))).
  rewrite Nat2Z.id.
  set (reserved := replicate (length tiles) 0).
  rewrite (st_bind_step _ _ _ _ _ (write_frames_append _ _)).
  rewrite (st_bind_step _ _ _ _ _ (tell_writer_file _)).
  rewrite (st_bind_step _ _ _ _ _ (write_pixel_data_end_append _)).
  unfold pixel_data_bytes. cbv zeta. fold reserved.
  rewrite (length_app data).
  remember (Z.of_nat
              (length data
               + length (pixel_data_start_bytes offset_table
                           (Z.of_nat (length tiles)) reserved reserved))%nat)
    as first eqn:Hfirst.
  replace (Z.of_nat (length data)
           + Z.of_nat (length (pixel_data_start_bytes offset_table
                                 (Z.of_nat (length tiles)) reserved
                                 reserved)))
    with first by lia.
  replace (Z.of_nat
             (length ((data ++ pixel_data_start_bytes offset_table
                                 (Z.of_nat (length tiles)) reserved reserved)
                      ++ item_bytes tiles)))
    with (first + Z.of_nat (length (item_bytes tiles)))
    by (rewrite Hfirst, !length_app; lia).
  unfold writer_file.
  destruct Htable as [-> | [-> | ->]].
  - eexists. unfold mret, st_ret. unfold pixel_data_start_bytes.
    rewrite !decide_False by done. by rewrite <- !app_assoc.
  - destruct (decide (Some "bot"%string = Some "eot"%string)) as [[=]|_].
    destruct (decide (Some "bot"%string = Some "bot"%string)); [|done].
    destruct (decide ("bot"%string = "eot"%string)) as [[=]|_].
    destruct (decide ("bot"%string = "bot"%string)); [|done].
    specialize (Hne ltac:(done)). specialize (Hbot eq_refl).
    unfold pixel_data_start_bytes.
    destruct (decide (Some "bot"%string = Some "eot"%string)) as [[=]|_].
    destruct (decide (Some "bot"%string = Some "bot"%string)); [|done].
    cbn [app].
    pose proof (write_bot_over
      (data ++ element_header PixelDataTag VR_OB 4294967295)
      (item_bytes tiles ++ pixel_data_end) reserved
      (item_positions first tiles) first) as Hwrite.
    rewrite length_item_positions in Hwrite.
    rewrite <- !app_assoc in Hwrite |- *.
    replace (Z.of_nat (length data) + 12)
      with (Z.of_nat (length (data ++ element_header PixelDataTag VR_OB
                                        4294967295))).
    2:{ rewrite length_app. unfold element_header.
        rewrite !length_app, !length_Z_to_le.
        change (length (tag_bytes PixelDataTag)) with 4%nat.
        change (length VR_OB) with 2%nat. lia. }
    eexists. rewrite Hwrite; [done| | |lia|].
    + intros Hnil. apply Hne.
      apply (f_equal length) in Hnil.
      rewrite length_item_positions in Hnil. by destruct tiles.
    + subst reserved. by rewrite length_replicate.
    + intros p [Hp1 Hp2]%item_positions_bounds. lia.
  - destruct (decide (Some "eot"%string = Some "eot"%string)); [|done].
    destruct (decide ("eot"%string = "eot"%string)); [|done].
    specialize (Hne ltac:(done)). specialize (Heot eq_refl).
    unfold pixel_data_start_bytes in *.
    destruct (decide (Some "eot"%string = Some "eot"%string)); [|done].
    destruct (decide (Some "eot"%string = Some "bot"%string)) as [[=]|_].
    destruct tiles as [|tile tiles]; [done|].
    pose proof (write_eot_over data
      (element_header PixelDataTag VR_OB 4294967295
       ++ tag_bytes ItemTag ++ Z_to_le 4 0
       ++ item_bytes (tile :: tiles) ++ pixel_data_end)
      reserved reserved (item_positions first (tile :: tiles)) first first
      (first + Z.of_nat (length (item_bytes (tile :: tiles))))) as Hwrite.
    rewrite length_item_positions in Hwrite. cbv zeta in Hwrite.
    rewrite <- ?app_assoc in Hwrite. rewrite <- ?app_assoc.
    eexists. rewrite Hwrite; clear Hwrite.
    + done.
    + done.
    + subst reserved. by rewrite length_replicate.
    + subst reserved. by rewrite length_replicate.
    + lia.
    + intros p [Hp1 Hp2]%item_positions_bounds. lia.
    + cbn [item_positions drop]. intros v Hv.
      apply eot_lengths_bounds in Hv. lia.
Qed.

(** ** Reading written items *)

Lemma fragment_valid (tile : bytes) :
  tile ≠ [] → ¬ invalid_frame_length (Z.of_nat (length (fragment tile))).
Proof.
  intros Htile. unfold fragment, invalid_frame_length.
  destruct (decide (Z.of_nat (length tile) `mod` 2 = 0)) as [Heven|Hodd].
  - intros [Hzero|Hodd]; [|done]. destruct tile; [done|]. simpl in Hzero. lia.
  - rewrite length_app. simpl. intros [Hzero|Hodd']; [lia|].
    apply Hodd'. rewrite Nat2Z.inj_add. 
    pose proof (Z.mod_pos_bound (Z.of_nat (length tile)) 2 ltac:(lia)).
    rewrite Z.add_mod by lia.
    replace (Z.of_nat (length tile) `mod` 2) with 1 by lia. done.
Qed.

(** The loop over the items of written frames: it stops at the sequence
    delimiter, of which it has read the tag. *)
Lemma read_items_written (tiles : list bytes) :
  Forall (λ tile, tile ≠ [] ∧ Z.of_nat (length (fragment tile)) < 2 ^ 32)
         tiles →
  ∀ (fuel : nat) (data rest : bytes) (position : Z) (acc : list (Z * Z)),
    (length tiles < fuel)%nat → 0 ≤ position →
    drop (Z.to_nat position) data
    = item_bytes tiles ++ tag_bytes SequenceDelimiterTag ++ rest →
    read_items fuel position acc (le_file data position)
    = Ok (acc ++ frame_layout position tiles,
          le_file data
            (position + Z.of_nat (length (item_bytes tiles)) + 4)).
Proof.
  induction 1 as [|tile tiles [Htile Hlength] Htiles IH];
    intros fuel data rest position acc Hfuel Hposition Hdrop.
  - destruct fuel as [|fuel]; [simpl in Hfuel; lia|].
    cbn [read_items]. cbv zeta.
    destruct (read_tag_le_file _ _ _ SequenceDelimiterTag Hposition
                ltac:(done) Hdrop) as [Hread _].
    rewrite (st_bind_step _ _ _ _ _ Hread).
    rewrite decide_False by done. unfold mret, st_ret.
    rewrite app_nil_r. do 3 f_equal. simpl. lia.
  - destruct fuel as [|fuel]; [simpl in Hfuel; lia|].
    cbn [read_items]. cbv zeta.
    unfold item_bytes in Hdrop. cbn [mbind list_bind] in Hdrop.
    fold (item_bytes tiles) in Hdrop.
    rewrite itemize_frame_bytes, <- !app_assoc in Hdrop.
    destruct (read_tag_le_file _ _ _ ItemTag Hposition ltac:(done) Hdrop)
      as [Hread Hdrop1].
    rewrite (st_bind_step _ _ _ _ _ Hread).
    rewrite decide_True by done.
    destruct (read_UL_le_file _ _ (position + 4)
                (Z.of_nat (length (fragment tile))) ltac:(lia) ltac:(lia)
                Hdrop1) as [Hread' Hdrop2].
    rewrite (st_bind_step _ _ _ _ _ Hread').
    rewrite decide_False by (by apply fragment_valid).
    rewrite (st_bind_step _ _ _ _ _
               (seek_cur_le_file _ (position + 4 + 4)
                  (Z.of_nat (length (fragment tile))) ltac:(lia))).
    rewrite (st_bind_step _ _ _ _ _ (tell_le_file _ _)).
    rewrite (IH fuel data rest); [| simpl in Hfuel; lia | lia |].
    + rewrite <- app_assoc. cbn [frame_layout app].
      rewrite length_item_bytes_cons.
      replace (position + 4 + 4 + Z.of_nat (length (fragment tile)))
        with (position + 8 + Z.of_nat (length (fragment tile))) by lia.
      do 3 f_equal; [do 2 f_equal; lia|lia].
    + rewrite Z2Nat.inj_add, Nat2Z.id by lia. by apply drop_suffix.
Qed.

Lemma read_sequence_delimiter_written (data rest : bytes) (position : Z) :
  0 ≤ position →
  drop (Z.to_nat position) data = tag_bytes SequenceDelimiterTag ++ rest →
  _read_sequence_delimiter (le_file data (position + 4))
  = Ok ((), le_file data (position + 4)).
Proof.
  intros Hposition Hdrop. unfold _read_sequence_delimiter. cbv zeta.
  rewrite (st_bind_step _ _ _ _ _
             (seek_cur_le_file _ (position + 4) (- 4) ltac:(lia))).
  replace (position + 4 + - 4) with position by lia.
  destruct (read_tag_le_file _ _ _ SequenceDelimiterTag Hposition
              ltac:(done) Hdrop) as [Hread _].
  rewrite (st_bind_step _ _ _ _ _ Hread).
  by rewrite decide_False by (by intros ?).
Qed.

Lemma length_item_bytes_ge (tiles : list bytes) :
  8 * Z.of_nat (length tiles) ≤ Z.of_nat (length (item_bytes tiles)).
Proof.
  induction tiles as [|tile tiles IH]; [done|].
  rewrite length_item_bytes_cons. cbn [length]. lia.
Qed.

Lemma read_positions_written (tiles : list bytes) (data rest : bytes)
    (position : Z) :
  Forall (λ tile, tile ≠ [] ∧ Z.of_nat (length (fragment tile)) < 2 ^ 32)
         tiles →
  0 ≤ position →
  drop (Z.to_nat position) data
  = item_bytes tiles ++ tag_bytes SequenceDelimiterTag ++ rest →
  _read_positions_from_pixeldata (le_file data position)
  = Ok (frame_layout position tiles,
        le_file data (position + Z.of_nat (length (item_bytes tiles)) + 4)).
Proof.
  intros Htiles Hposition Hdrop. unfold _read_positions_from_pixeldata.
  rewrite st_get_step.
  rewrite (st_bind_step _ _ _ _ _ (tell_le_file _ _)).
  assert (length tiles < S (length (fp_data (le_file data position))))%nat
    as Hfuel.
  { cbn [fp_data le_file].
    pose proof (length_item_bytes_ge tiles) as Hge.
    pose proof (f_equal length Hdrop) as Hlength.
    rewrite length_drop, length_app in Hlength. lia. }
  rewrite (st_bind_step _ _ _ _ _
             (read_items_written tiles Htiles _ data rest position []
                Hfuel Hposition Hdrop)).
  assert (drop (Z.to_nat (position + Z.of_nat (length (item_bytes tiles))))
            data = tag_bytes SequenceDelimiterTag ++ rest) as Hdrop'.
  { rewrite Z2Nat.inj_add, Nat2Z.id by lia. by apply drop_suffix. }
  rewrite (st_bind_step _ _ _ _ _
             (read_sequence_delimiter_written data rest
                (position + Z.of_nat (length (item_bytes tiles)))
                ltac:(lia) Hdrop')).
  done.
Qed.

(** ** Reading written tables *)

Lemma read_bot_empty (data rest : bytes) (position : Z) :
  0 ≤ position →
  drop (Z.to_nat position) data = tag_bytes ItemTag ++ Z_to_le 4 0 ++ rest →
  _read_bot (le_file data position) = Ok (None, le_file data (position + 8))
  ∧ drop (Z.to_nat (position + 8)) data = rest.
Proof.
  intros Hposition Hdrop. unfold _read_bot. cbv zeta.
  destruct (read_tag_le_file _ _ _ ItemTag Hposition ltac:(done) Hdrop)
    as [Hread Hdrop1].
  rewrite (st_bind_step _ _ _ _ _ Hread).
  rewrite decide_False by (by intros ?).
  destruct (read_UL_le_file _ _ (position + 4) 0 ltac:(lia) ltac:(done)
              Hdrop1) as [Hread' Hdrop2].
  rewrite (st_bind_step _ _ _ _ _ Hread').
  rewrite decide_True by done.
  replace (position + 8) with (position + 4 + 4) by lia. done.
Qed.

Lemma read_bot_table (data table rest : bytes) (position : Z) (n : nat) :
  0 ≤ position → (0 < n)%nat → 4 * Z.of_nat n < 2 ^ 32 →
  length table = (4 * n)%nat →
  drop (Z.to_nat position) data
  = tag_bytes ItemTag ++ Z_to_le 4 (4 * Z.of_nat n) ++ table ++ rest →
  _read_bot (le_file data position)
  = Ok (Some table, le_file data (position + 8 + 4 * Z.of_nat n))
  ∧ drop (Z.to_nat (position + 8 + 4 * Z.of_nat n)) data = rest.
Proof.
  intros Hposition Hn Hfit Htable Hdrop. unfold _read_bot. cbv zeta.
  destruct (read_tag_le_file _ _ _ ItemTag Hposition ltac:(done) Hdrop)
    as [Hread Hdrop1].
  rewrite (st_bind_step _ _ _ _ _ Hread).
  rewrite decide_False by (by intros ?).
  destruct (read_UL_le_file _ _ (position + 4) (4 * Z.of_nat n) ltac:(lia)
              ltac:(lia) Hdrop1) as [Hread' Hdrop2].
  rewrite (st_bind_step _ _ _ _ _ Hread').
  rewrite decide_False by lia.
  rewrite decide_False.
  2:{ intros Hmod. apply Hmod. rewrite Z.mul_comm. by apply Z.mod_mul. }
  destruct (read_le_file _ _ _ (position + 4 + 4) (4 * Z.of_nat n)
              ltac:(lia) Hdrop2 ltac:(lia)) as [Hread'' Hdrop3].
  rewrite (st_bind_step _ _ _ _ _ Hread'').
  replace (position + 8 + 4 * Z.of_nat n)
    with (position + 4 + 4 + 4 * Z.of_nat n) by lia. done.
Qed.

(** The extended offset table and its lengths, the tag of the table being
    read. *)
Lemma read_eot_table (data table lengths rest : bytes) (position : Z)
    (n : nat) :
  0 ≤ position → (0 < n)%nat → 8 * Z.of_nat n < 2 ^ 32 →
  length table = (8 * n)%nat → length lengths = (8 * n)%nat →
  drop (Z.to_nat position) data
  = (VR_OV ++ Z_to_le 2 0) ++ Z_to_le 4 (8 * Z.of_nat n) ++ table
    ++ element_header ExtendedOffsetTableLengthsTag VR_OV (8 * Z.of_nat n)
    ++ lengths ++ rest →
  _read_eot (le_file data position)
  = Ok (table, le_file data (position + 20 + 16 * Z.of_nat n))
  ∧ drop (Z.to_nat (position + 20 + 16 * Z.of_nat n)) data = rest.
Proof.
  intros Hposition Hn Hfit Htable Hlengths Hdrop. unfold _read_eot. cbv zeta.
  destruct (read_tag_length_le_file true data (VR_OV ++ Z_to_le 2 0) _
              position (8 * Z.of_nat n)
              Hposition ltac:(lia) ltac:(done) Hdrop) as [Hread Hdrop1].
  rewrite (st_bind_step _ _ _ _ _ Hread).
  change (Z.of_nat (length (VR_OV ++ Z_to_le 2 0))) with 4 in *.
  rewrite decide_False by lia.
  rewrite decide_False.
  2:{ intros Hmod. apply Hmod. rewrite Z.mul_comm. by apply Z.mod_mul. }
  destruct (read_le_file _ _ _ (position + 4 + 4) (8 * Z.of_nat n)
              ltac:(lia) Hdrop1 ltac:(lia)) as [Hread' Hdrop2].
  rewrite (st_bind_step _ _ _ _ _ Hread').
  unfold element_header in Hdrop2. rewrite <- !app_assoc in Hdrop2.
  destruct (read_tag_le_file _ _ (position + 4 + 4 + 8 * Z.of_nat n)
              ExtendedOffsetTableLengthsTag ltac:(lia) ltac:(done) Hdrop2)
    as [Hread'' Hdrop3].
  rewrite (st_bind_step _ _ _ _ _ Hread'').
  rewrite decide_False by (by intros ?).
  rewrite (app_assoc VR_OV) in Hdrop3.
  destruct (read_tag_length_le_file true data (VR_OV ++ Z_to_le 2 0) _
              (position + 4 + 4 + 8 * Z.of_nat n + 4) (8 * Z.of_nat n)
              ltac:(lia) ltac:(lia) ltac:(done) Hdrop3) as [Hread3 Hdrop4].
  rewrite (st_bind_step _ _ _ _ _ Hread3).
  change (Z.of_nat (length (VR_OV ++ Z_to_le 2 0))) with 4 in *.
  rewrite (st_bind_step _ _ _ _ _
             (seek_cur_le_file _
                (position + 4 + 4 + 8 * Z.of_nat n + 4 + 4 + 4)
                (8 * Z.of_nat n) ltac:(lia))).
  replace (position + 20 + 16 * Z.of_nat n)
    with (position + 4 + 4 + 8 * Z.of_nat n + 4 + 4 + 4 + 8 * Z.of_nat n)
    by lia.
  split; [done|].
  rewrite Z2Nat.inj_add by lia.
  replace (Z.to_nat (8 * Z.of_nat n)) with (length lengths) by lia.
  by apply drop_suffix.
Qed.

Lemma drop_table_bytes (width : nat) (entries : list Z) (i : nat) :
  drop (width * i) (table_bytes width entries)
  = table_bytes width (drop i entries).
Proof.
  revert i. unfold table_bytes.
  induction entries as [|entry entries IH]; intros i.
  { cbn [mbind list_bind]. by rewrite !drop_nil. }
  destruct i as [|i]; [by rewrite Nat.mul_0_r|].
  cbn [mbind list_bind drop].
  replace (width * S i)%nat with (length (Z_to_le width entry) + width * i)%nat
    by (rewrite length_Z_to_le; lia).
  by rewrite drop_app_add.
Qed.

Lemma table_entry_table_bytes (width : nat) (entries : list Z) (i : nat)
    (entry : Z) :
  entries !! i = Some entry → 0 ≤ entry < 2 ^ (8 * Z.of_nat width) →
  table_entry LittleEndian (Z.of_nat width) (table_bytes width entries) i
  = entry.
Proof.
  intros Hentry Hfit. unfold table_entry, slice.
  replace (Z.to_nat (Z.of_nat width * Z.of_nat i)) with (width * i)%nat by lia.
  rewrite drop_table_bytes.
  rewrite (drop_S _ _ _ Hentry). unfold table_bytes. cbn [mbind list_bind].
  replace (Z.to_nat (Z.of_nat width * Z.of_nat i + Z.of_nat width
                     - Z.of_nat width * Z.of_nat i))
    with (length (Z_to_le width entry)) by (rewrite length_Z_to_le; lia).
  rewrite take_app_length. simpl. by apply le_to_Z_to_le.
Qed.

Lemma length_frame_layout (position : Z) (tiles : list bytes) :
  length (frame_layout position tiles) = length tiles.
Proof.
  revert position. induction tiles as [|tile tiles IH]; intros position;
    simpl; [done|]. by rewrite IH.
Qed.

Lemma item_positions_lookup (position : Z) (tiles : list bytes) (i : nat)
    (tile : bytes) :
  tiles !! i = Some tile →
  ∃ p, item_positions position tiles !! i = Some p
       ∧ frame_layout position tiles !! i
         = Some (p + 8, Z.of_nat (length (fragment tile)))
       ∧ p = position + Z.of_nat (length (item_bytes (take i tiles)))
       ∧ (∀ q, item_positions position tiles !! S i = Some q →
               q = p + 8 + Z.of_nat (length (fragment tile))).
Proof.
  revert position i. induction tiles as [|tile' tiles IH];
    intros position i Htile; [done|].
  destruct i as [|i].
  - injection Htile as ->. exists position. cbn [item_positions frame_layout].
    split; [done|]. split; [done|]. split; [simpl; lia|].
    destruct tiles; simpl; [done|]. by intros q [= <-].
  - cbn [lookup list_lookup] in Htile.
    destruct (IH (position + 8 + Z.of_nat (length (fragment tile'))) i Htile)
      as (p & Hp & Hlayout & Heq & Hnext).
    exists p. cbn [item_positions frame_layout take].
    split; [done|]. split; [done|]. split; [|done].
    rewrite length_item_bytes_cons. lia.
Qed.

Lemma item_bytes_app (tiles tiles' : list bytes) :
  item_bytes (tiles ++ tiles') = item_bytes tiles ++ item_bytes tiles'.
Proof. unfold item_bytes. apply bind_app. Qed.

(** The table that the writer has written, parsed at the file that holds the
    items. *)
Lemma parse_table_written (table_type : string) (width : nat)
    (data rest : bytes) (tiles : list bytes) (first pos : Z) :
  table_type = "bot" ∧ width = 4%nat ∨ table_type = "eot" ∧ width = 8%nat →
  tiles ≠ [] →
  Forall (λ tile, tile ≠ [] ∧ Z.of_nat (length (fragment tile)) < 2 ^ 32)
         tiles →
  Z.of_nat (length (item_bytes tiles)) < 2 ^ (8 * Z.of_nat width) →
  0 ≤ first →
  drop (Z.to_nat first) data = item_bytes tiles ++ rest →
  ∃ pos',
    _parse_table
      (table_bytes width
         ((λ position, position - first) <$> item_positions first tiles))
      table_type first (le_file data pos)
    = Ok (frame_layout first tiles, le_file data pos').
Proof.
  intros Htype Hne Htiles Hfit Hfirst Hdrop.
  set (n := length tiles).
  assert (0 < n)%nat as Hn by (subst n; destruct tiles; simpl; [done|lia]).
  set (offsets := (λ position, position - first)
                  <$> item_positions first tiles).
  assert (length offsets = n) as Hoffsets.
  { subst offsets. by rewrite length_fmap, length_item_positions. }
  assert (table_bytes_per_item table_type = Z.of_nat width
          ∧ table_order (le_file data pos) table_type = LittleEndian)
    as [Hwidth Horder].
  { by destruct Htype as [[-> ->]|[-> ->]]. }
  assert (0 < width)%nat as Hpos by (destruct Htype as [[_ ->]|[_ ->]]; lia).
  pose proof (parse_table_unfold (table_bytes width offsets) table_type first
                (le_file data pos) n) as Hparse.
  cbv zeta in Hparse. rewrite Hwidth, Horder in Hparse.
  rewrite Hparse; clear Hparse;
    [|destruct Htype as [[-> _]|[-> _]]; [by left|by right]|done
     |rewrite length_table_bytes, Hoffsets; lia].
  assert (∀ (i : nat) tile,
            tiles !! i = Some tile →
            ∃ p, item_positions first tiles !! i = Some p
                 ∧ table_entry LittleEndian (Z.of_nat width)
                     (table_bytes width offsets) i = p - first
                 ∧ frame_layout first tiles !! i
                   = Some (p + 8, Z.of_nat (length (fragment tile)))
                 ∧ p = first + Z.of_nat (length (item_bytes (take i tiles)))
                 ∧ (∀ q, item_positions first tiles !! S i = Some q →
                         q = p + 8 + Z.of_nat (length (fragment tile))))
    as Hentries.
  { intros i tile Htile.
    destruct (item_positions_lookup first tiles i tile Htile)
      as (p & Hp & Hlayout & Heq & Hnext).
    exists p. split; [done|]. split; [|done].
    apply table_entry_table_bytes.
    - subst offsets. by rewrite list_lookup_fmap, Hp.
    - apply list_elem_of_lookup_2, item_positions_bounds in Hp. lia. }
  assert (computed_position LittleEndian (Z.of_nat width)
            (table_bytes width offsets) first <$> seq 0 (n - 1)
          = take (n - 1) (frame_layout first tiles)) as Hcomputed.
  { apply list_eq. intros i.
    destruct (decide (i < n - 1)%nat) as [Hi|Hi].
    - rewrite computed_lookup by done. rewrite lookup_take_lt by done.
      destruct (lookup_lt_is_Some_2 tiles i) as [tile Htile];
        [subst n; lia|].
      destruct (lookup_lt_is_Some_2 tiles (S i)) as [tile' Htile'];
        [subst n; lia|].
      destruct (Hentries i tile Htile) as (p & Hp & Hentry & Hlayout & _ & Hq).
      destruct (Hentries (S i) tile' Htile') as (q & Hq' & Hentry' & _).
      rewrite Hlayout. unfold computed_position.
      rewrite Hentry, Hentry', (Hq q Hq'). do 2 f_equal; lia.
    - rewrite lookup_take_ge by lia.
      apply lookup_ge_None. rewrite length_fmap, length_seq. lia. }
  destruct (lookup_lt_is_Some_2 tiles (n - 1)) as [tile Htile];
    [subst n; lia|].
  destruct (Hentries (n - 1)%nat tile Htile)
    as (p & Hp & Hentry & Hlayout & Heq & _).
  rewrite Hcomputed, Hentry.
  rewrite decide_True.
  2:{ apply Forall_forall. intros [position len] Hin%elem_of_take.
      destruct Hin as (i & Hi & _).
      assert (i < length tiles)%nat as Hlt.
      { apply lookup_lt_Some in Hi. by rewrite length_frame_layout in Hi. }
      destruct (lookup_lt_is_Some_2 tiles i Hlt) as [tile' Htile'].
      destruct (item_positions_lookup first tiles i tile' Htile')
        as (p' & _ & Hlayout' & _).
      rewrite Hlayout' in Hi. injection Hi as <- <-. simpl.
      apply fragment_valid.
      rewrite Forall_forall in Htiles.
      by apply (Htiles tile'), list_elem_of_lookup_2 with i. }
  unfold read_last_frame.
  rewrite (st_bind_step _ _ _ _ _
             (seek_le_file _ _ (first + (p - first)) ltac:(lia))).
  assert (drop (Z.to_nat (first + (p - first))) data
          = tag_bytes ItemTag
            ++ Z_to_le 4 (Z.of_nat (length (fragment tile)))
            ++ fragment tile ++ item_bytes (drop (S (n - 1)) tiles) ++ rest)
    as Hitem.
  { replace (Z.to_nat (first + (p - first)))
      with (Z.to_nat first + length (item_bytes (take (n - 1) tiles)))%nat
      by lia.
    rewrite <- drop_drop, Hdrop.
    replace (item_bytes tiles)
      with (item_bytes (take (n - 1) tiles)
            ++ item_bytes (drop (n - 1) tiles))
      by (by rewrite <- item_bytes_app, take_drop).
    rewrite <- app_assoc, drop_app_length.
    rewrite (drop_S _ _ _ Htile). unfold item_bytes at 1.
    cbn [mbind list_bind]. fold (item_bytes (drop (S (n - 1)) tiles)).
    by rewrite itemize_frame_bytes, <- !app_assoc. }
  destruct (read_tag_le_file data _ (first + (p - first)) ItemTag
              ltac:(lia) ltac:(done) Hitem) as [Hread Hitem1].
  rewrite (st_bind_step _ _ _ _ _ Hread).
  rewrite decide_False by (by intros ?).
  assert (tile ≠ [] ∧ Z.of_nat (length (fragment tile)) < 2 ^ 32)
    as [Htile_ne Htile_fit].
  { rewrite Forall_forall in Htiles.
    by apply Htiles, list_elem_of_lookup_2 with (n - 1)%nat. }
  destruct (read_UL_le_file _ _ (first + (p - first) + 4)
              (Z.of_nat (length (fragment tile))) ltac:(lia) ltac:(lia)
              Hitem1) as [Hread' _].
  rewrite (st_bind_step _ _ _ _ _ Hread').
  rewrite decide_False by (by apply fragment_valid).
  eexists. unfold mret, st_ret. do 2 f_equal.
  rewrite <- (take_drop (n - 1) (frame_layout first tiles)) at 2.
  f_equal.
  assert (frame_layout first tiles !! (n - 1)%nat
          = Some (first + (p - first + 4 + 4),
                  Z.of_nat (length (fragment tile)))) as Hlast.
  { rewrite Hlayout. do 2 f_equal. lia. }
  rewrite (drop_S _ _ _ Hlast).
  rewrite drop_ge; [done|]. rewrite length_frame_layout. subst n. lia.
Qed.

Lemma length_eot_lengths (frame_start : Z) (frame_ends : list Z)
    (last_frame_end : Z) :
  length (eot_lengths frame_start frame_ends last_frame_end)
  = S (length frame_ends).
Proof.
  revert frame_start.
  induction frame_ends as [|frame_end frame_ends IH]; intros frame_start;
    simpl; [done|]. by rewrite IH.
Qed.

Lemma length_element_header (tag : Z) (value_representation : bytes)
    (length : Z) :
  List.length value_representation = 2%nat →
  List.length (element_header tag value_representation length) = 12%nat.
Proof.
  intros Hvr. unfold element_header, tag_bytes.
  rewrite !length_app, !length_Z_to_le, Hvr. done.
Qed.

(** The pixel data that the writer leaves, parsed from their start: the
    frames are found at the data of the items, with the lengths of the
    fragments. *)
Lemma parse_pixel_data_written (data rest : bytes)
    (offset_table : option string) (tiles : list bytes) :
  offset_table = None ∨ offset_table = Some "bot"%string
  ∨ offset_table = Some "eot"%string →
  Forall (λ tile, tile ≠ [] ∧ Z.of_nat (length (fragment tile)) < 2 ^ 32)
         tiles →
  8 * Z.of_nat (length tiles) < 2 ^ 32 →
  (offset_table ≠ None → tiles ≠ []) →
  (offset_table = Some "bot"%string →
   Z.of_nat (length (item_bytes tiles)) < 2 ^ 32) →
  (offset_table = Some "eot"%string →
   Z.of_nat (length (item_bytes tiles)) < 2 ^ 64) →
  let written :=
    data ++ pixel_data_bytes offset_table (Z.of_nat (length data)) tiles
    ++ rest in
  ∃ first pos,
    0 ≤ first
    ∧ drop (Z.to_nat first) written
      = item_bytes tiles ++ pixel_data_end ++ rest
    ∧ _parse_pixel_data (Z.of_nat (length tiles))
        (le_file written (Z.of_nat (length data)))
      = Ok (frame_layout first tiles, le_file written pos).
Proof.
  intros Htable Htiles Hn Hne Hbot Heot written.
  set (start := Z.of_nat (length data)).
  assert (0 ≤ start) as Hstart by (subst start; lia).
  assert (drop (Z.to_nat start) written
          = pixel_data_bytes offset_table start tiles ++ rest) as Hdrop.
  { subst written. by apply app_drop_length. }
  unfold pixel_data_bytes in Hdrop. cbv zeta in Hdrop.
  set (reserved := replicate (length tiles) 0) in *.
  remember (start
            + Z.of_nat (length (pixel_data_start_bytes offset_table
                                  (Z.of_nat (length tiles)) reserved
                                  reserved))) as first eqn:Hfirst.
  set (offsets := (λ position, position - first)
                  <$> item_positions first tiles) in *.
  assert (length offsets = length tiles) as Hoffsets.
  { subst offsets. by rewrite length_fmap, length_item_positions. }
  set (lengths := match item_positions first tiles with
                  | [] => []
                  | position :: positions =>
                      eot_lengths position positions
                        (first + Z.of_nat (length (item_bytes tiles)))
                  end) in *.
  exists first.
  unfold _parse_pixel_data.
  generalize dependent written. intros written Hdrop.
  unfold pixel_data_start_bytes in Hfirst, Hdrop.
  destruct Htable as [-> | [-> | ->]].
  - rewrite !decide_False in Hfirst, Hdrop by done.
    cbn [app] in Hfirst, Hdrop.
    unfold element_header in Hdrop. rewrite <- !app_assoc in Hdrop.
    rewrite !length_app, length_element_header, !length_Z_to_le in Hfirst
      by done.
    change (length (tag_bytes ItemTag)) with 4%nat in Hfirst.
    destruct (read_tag_le_file written _ start PixelDataTag Hstart
                ltac:(done) Hdrop) as [Hread Hdrop1].
    rewrite (st_bind_step _ _ _ _ _ Hread).
    rewrite decide_False by done. rewrite st_ret_step.
    rewrite (app_assoc VR_OB) in Hdrop1.
    destruct (read_tag_length_le_file true written (VR_OB ++ Z_to_le 2 0) _
                (start + 4) 4294967295 ltac:(lia) ltac:(done) ltac:(done)
                Hdrop1) as [Hread1 Hdrop2].
    rewrite (st_bind_step _ _ _ _ _ Hread1).
    change (Z.of_nat (length (VR_OB ++ Z_to_le 2 0))) with 4 in *.
    rewrite decide_False by (by intros ?).
    destruct (read_bot_empty written _ (start + 4 + 4 + 4) ltac:(lia) Hdrop2)
      as [Hread2 Hdrop3].
    rewrite (st_bind_step _ _ _ _ _ Hread2). rewrite st_ret_step.
    replace (start + 4 + 4 + 4 + 8) with first in * by lia.
    unfold pixel_data_end in Hdrop3. rewrite <- !app_assoc in Hdrop3.
    rewrite (st_bind_step _ _ _ _ _
               (read_positions_written tiles written _ first Htiles
                  ltac:(lia) Hdrop3)).
    rewrite decide_False by (by rewrite length_frame_layout; intros ?).
    eexists. split; [lia|]. split; [|done].
    unfold pixel_data_end. by rewrite <- !app_assoc.
  - specialize (Hne ltac:(done)). specialize (Hbot eq_refl).
    rewrite !(decide_False (P:=Some "bot"%string = Some "eot"%string))
      in Hfirst, Hdrop by done.
    rewrite !decide_True in Hfirst, Hdrop by done.
    cbn [app] in Hfirst, Hdrop.
    unfold element_header in Hdrop. rewrite <- !app_assoc in Hdrop.
    rewrite !length_app, length_element_header, !length_Z_to_le,
      length_table_bytes in Hfirst by done.
    change (length (tag_bytes ItemTag)) with 4%nat in Hfirst.
    subst reserved. rewrite length_replicate in Hfirst.
    destruct (read_tag_le_file written _ start PixelDataTag Hstart
                ltac:(done) Hdrop) as [Hread Hdrop1].
    rewrite (st_bind_step _ _ _ _ _ Hread).
    rewrite decide_False by done. rewrite st_ret_step.
    rewrite (app_assoc VR_OB) in Hdrop1.
    destruct (read_tag_length_le_file true written (VR_OB ++ Z_to_le 2 0) _
                (start + 4) 4294967295 ltac:(lia) ltac:(done) ltac:(done)
                Hdrop1) as [Hread1 Hdrop2].
    rewrite (st_bind_step _ _ _ _ _ Hread1).
    change (Z.of_nat (length (VR_OB ++ Z_to_le 2 0))) with 4 in *.
    rewrite decide_False by (by intros ?).
    destruct (read_bot_table written (table_bytes 4 offsets) _
                (start + 4 + 4 + 4) (length tiles) ltac:(lia)
                ltac:(destruct tiles; simpl; [done|lia]) ltac:(lia)
                ltac:(by rewrite length_table_bytes, Hoffsets) Hdrop2)
      as [Hread2 Hdrop3].
    rewrite (st_bind_step _ _ _ _ _ Hread2). rewrite st_ret_step.
    rewrite !st_bind_assoc.
    rewrite (st_bind_step _ _ _ _ _ (tell_le_file _ _)).
    replace (start + 4 + 4 + 4 + 8 + 4 * Z.of_nat (length tiles))
      with first in * by lia.
    destruct (parse_table_written "bot" 4 written (pixel_data_end ++ rest)
                tiles first first) as [pos Hparse];
      [by left|done|done|exact Hbot|lia|done|].
    fold offsets in Hparse.
    rewrite (st_bind_step _ _ _ _ _ Hparse).
    rewrite decide_False by (by rewrite length_frame_layout; intros ?).
    eexists. split; [lia|]. by split.
  - specialize (Hne ltac:(done)). specialize (Heot eq_refl).
    rewrite !(decide_False (P:=Some "eot"%string = Some "bot"%string))
      in Hfirst, Hdrop by done.
    rewrite !decide_True in Hfirst, Hdrop by done.
    unfold element_header in Hdrop. rewrite <- !app_assoc in Hdrop.
    rewrite !length_app, !length_element_header, !length_Z_to_le,
      !length_table_bytes in Hfirst by done.
    change (length (tag_bytes ItemTag)) with 4%nat in Hfirst.
    subst reserved. rewrite length_replicate in Hfirst.
    assert (0 < length tiles)%nat as Hpos
      by (destruct tiles; simpl; [done|lia]).
    assert (length lengths = length tiles) as Hlengths.
    { subst lengths. clear -Hpos. destruct tiles as [|tile tiles]; [done|].
      cbn [item_positions].
      by rewrite length_eot_lengths, length_item_positions. }
    destruct (read_tag_le_file written _ start ExtendedOffsetTableTag Hstart
                ltac:(done) Hdrop) as [Hread Hdrop1].
    rewrite (st_bind_step _ _ _ _ _ Hread).
    rewrite decide_True by done.
    rewrite (app_assoc VR_OV) in Hdrop1.
    fold (element_header ExtendedOffsetTableLengthsTag VR_OV
            (8 * Z.of_nat (length tiles))) in Hdrop1.
    rewrite !st_bind_assoc.
    destruct (read_eot_table written (table_bytes 8 offsets)
                (table_bytes 8 lengths)
                (tag_bytes PixelDataTag ++ VR_OB ++ Z_to_le 2 0
                 ++ Z_to_le 4 4294967295 ++ tag_bytes ItemTag
                 ++ Z_to_le 4 0 ++ item_bytes tiles ++ pixel_data_end
                 ++ rest)
                (start + 4) (length tiles)
                ltac:(lia) Hpos ltac:(lia)
                ltac:(by rewrite length_table_bytes, Hoffsets)
                ltac:(by rewrite length_table_bytes, Hlengths))
      as [Hread1 Hdrop2].
    { rewrite Hdrop1. unfold element_header. by rewrite <- !app_assoc. }
    rewrite (st_bind_step _ _ _ _ _ Hread1).
    rewrite !st_bind_assoc.
    destruct (read_tag_le_file written _
                (start + 4 + 20 + 16 * Z.of_nat (length tiles)) PixelDataTag
                ltac:(lia) ltac:(done) Hdrop2) as [Hread2 Hdrop3].
    rewrite (st_bind_step _ _ _ _ _ Hread2). rewrite st_ret_step.
    rewrite (app_assoc VR_OB) in Hdrop3.
    destruct (read_tag_length_le_file true written (VR_OB ++ Z_to_le 2 0) _
                (start + 4 + 20 + 16 * Z.of_nat (length tiles) + 4)
                4294967295 ltac:(lia) ltac:(done) ltac:(done)
                Hdrop3) as [Hread3 Hdrop4].
    rewrite (st_bind_step _ _ _ _ _ Hread3).
    change (Z.of_nat (length (VR_OB ++ Z_to_le 2 0))) with 4 in *.
    rewrite decide_False by (by intros ?).
    destruct (read_bot_empty written _
                (start + 4 + 20 + 16 * Z.of_nat (length tiles) + 4 + 4 + 4)
                ltac:(lia) Hdrop4) as [Hread4 Hdrop5].
    rewrite (st_bind_step _ _ _ _ _ Hread4). rewrite st_ret_step.
    rewrite !st_bind_assoc.
    rewrite (st_bind_step _ _ _ _ _ (tell_le_file _ _)).
    replace (start + 4 + 20 + 16 * Z.of_nat (length tiles) + 4 + 4 + 4 + 8)
      with first in * by lia.
    destruct (parse_table_written "eot" 8 written (pixel_data_end ++ rest)
                tiles first first) as [pos Hparse];
      [by right|done|done|exact Heot|lia|done|].
    fold offsets in Hparse.
    rewrite (st_bind_step _ _ _ _ _ Hparse).
    rewrite decide_False by (by rewrite length_frame_layout; intros ?).
    eexists. split; [lia|]. by split.
Qed.

Lemma frame_layout_at (data rest : bytes) (tiles : list bytes) (first : Z)
    (i : nat) (tile : bytes) :
  0 ≤ first →
  drop (Z.to_nat first) data = item_bytes tiles ++ rest →
  tiles !! i = Some tile →
  ∃ position,
    frame_layout first tiles !! i
    = Some (position, Z.of_nat (length (fragment tile)))
    ∧ 0 ≤ position
    ∧ drop (Z.to_nat position) data
      = fragment tile ++ item_bytes (drop (S i) tiles) ++ rest.
Proof.
  intros Hfirst Hdrop Htile.
  destruct (item_positions_lookup first tiles i tile Htile)
    as (p & Hp & Hlayout & Heq & _).
  exists (p + 8). split; [done|]. split; [lia|].
  replace (Z.to_nat (p + 8))
    with (Z.to_nat first + length (item_bytes (take i tiles)) + 8)%nat by lia.
  rewrite <- !drop_drop, Hdrop.
  replace (item_bytes tiles)
    with (item_bytes (take i tiles) ++ item_bytes (drop i tiles))
    by (by rewrite <- item_bytes_app, take_drop).
  rewrite <- app_assoc, drop_app_length.
  rewrite (drop_S _ _ _ Htile). unfold item_bytes at 1.
  cbn [mbind list_bind]. fold (item_bytes (drop (S i) tiles)).
  rewrite itemize_frame_bytes, <- !app_assoc.
  replace 8%nat with (length (tag_bytes ItemTag
                              ++ Z_to_le 4 (Z.of_nat
                                              (length (fragment tile)))))
    by (by rewrite length_app, length_Z_to_le).
  rewrite (app_assoc (tag_bytes ItemTag)). by rewrite drop_app_length.
Qed.

(** X8. The frames that the writer writes are read back: for pixel data
    written with a basic offset table, an extended offset table or no
    table, the file that is opened on these pixel data finds the frames at
    the data of their items, and the read of frame i returns the i-th tile
    written, with the zero byte that pads a tile of odd length. *)
Theorem written_frames_read_back {F} (data : bytes)
    (offset_table : option string) (tiles : list bytes)
    (dataset : WsiDataset F) :
  offset_table = None ∨ offset_table = Some "bot"%string
  ∨ offset_table = Some "eot"%string →
  frame_count dataset = Z.of_nat (length tiles) →
  Forall (λ tile, tile ≠ [] ∧ Z.of_nat (length (fragment tile)) < 2 ^ 32)
         tiles →
  8 * Z.of_nat (length tiles) < 2 ^ 32 →
  (offset_table ≠ None → tiles ≠ []) →
  (offset_table = Some "bot"%string →
   Z.of_nat (length (item_bytes tiles)) < 2 ^ 32) →
  (offset_table = Some "eot"%string →
   Z.of_nat (length (item_bytes tiles)) < 2 ^ 64) →
  ∃ fp file first,
    write_pixel_data (frame_count dataset) offset_table tiles
      (writer_file data) = Ok ((), fp)
    ∧ WsiDicomFile_init (set_pos fp (Z.of_nat (length data))) dataset
      = Ok file
    ∧ file_frame_positions file = frame_layout first tiles
    ∧ ∀ (i : nat) tile,
        tiles !! i = Some tile →
        ∃ file',
          read_frame (file_frame_offset file + Z.of_nat i) file
          = Ok (fragment tile, file').
Proof.
  intros Htable Hcount Htiles Hn Hne Hbot Heot.
  destruct (write_pixel_data_bytes data offset_table tiles Htable Hn Hne Hbot
              Heot) as [pos Hwrite].
  destruct (parse_pixel_data_written data [] offset_table tiles Htable Htiles
              Hn Hne Hbot Heot) as (first & pos' & Hfirst & Hdrop & Hparse).
  rewrite app_nil_r in Hdrop, Hparse.
  rewrite Hcount.
  eexists _, _, first. split; [exact Hwrite|].
  unfold WsiDicomFile_init. rewrite Hcount.
  change (set_pos (le_file ?d pos) ?p) with (le_file d p).
  rewrite Hparse. cbn [mbind result_bind].
  split; [done|]. split; [done|].
  intros i tile Htile.
  destruct (frame_layout_at _ _ _ _ _ _ Hfirst Hdrop Htile)
    as (position & Hlayout & Hposition & Hframe).
  unfold read_frame, File_get_filepointer.
  cbn [file_frame_offset file_frame_positions _fp].
  replace (frame_offset dataset + Z.of_nat i - frame_offset dataset)
    with (Z.of_nat i) by lia.
  unfold py_getitem. rewrite decide_True by lia.
  rewrite Nat2Z.id, Hlayout. cbn [or_raise mbind result_bind].
  rewrite (st_bind_step _ _ _ _ _ (seek_le_file _ _ position Hposition)).
  destruct (read_le_file _ _ _ position
              (Z.of_nat (length (fragment tile))) Hposition Hframe eq_refl)
    as [Hread _].
  rewrite Hread. by eexists.
Qed.

Lemma written_frames_read_back_witness :
  ∃ fp (file : WsiDicomFile Z) file',
    write_pixel_data 2 (Some "eot"%string) (replicate 2 example_tile)
      (writer_file []) = Ok ((), fp)
    ∧ WsiDicomFile_init (set_pos fp 0) (example_part_dataset 0) = Ok file
    ∧ read_frame (file_frame_offset file + 1) file
      = Ok (example_tile, file').
Proof.
  destruct (written_frames_read_back [] (Some "eot"%string)
              (replicate 2 example_tile) (example_part_dataset 0))
    as (fp & file & first & Hwrite & Hinit & _ & Hread).
  - right; right; reflexivity.
  - reflexivity.
  - repeat constructor; (discriminate || (vm_compute; reflexivity)).
  - vm_compute; reflexivity.
  - intros _; discriminate.
  - intros [=].
  - intros _; vm_compute; reflexivity.
  - destruct (Hread 1%nat example_tile eq_refl) as [file' Hframe].
    exists fp, file, file'. split; [exact Hwrite|]. split; [exact Hinit|].
    exact Hframe.
Defined.

(** ** Files that were opened *)






Lemma reads_tell : reads tell.
Proof. by intros fp a fp' Hpos [= <- <-]. Qed.


















(** ** Chunks of tiles *)

Lemma seqZ_app' (m n1 n2 : Z) :
  0 ≤ n1 → 0 ≤ n2 → seqZ m (n1 + n2) = seqZ m n1 ++ seqZ (m + n1) n2.
Proof. intros. by apply seqZ_app. Qed.

Lemma seqZ_nonpos (m n : Z) : n ≤ 0 → seqZ m n = [].
Proof. intros Hn. unfold seqZ. by replace (Z.to_nat n) with 0%nat by lia. Qed.

Lemma py_range_step_one (stop : Z) : py_range 0 stop 1 = seqZ 0 stop.
Proof.
  unfold py_range. rewrite Z.div_1_r.
  replace (- (0 - stop)) with stop by lia.
  rewrite <- (list_fmap_id (seqZ 0 stop)) at 2.
  apply list_fmap_ext. intros i k _. simpl. lia.
Qed.

(** Chunks of [chunk_size] columns cover the columns from the first one to
    the last one. *)
Lemma chunked_columns (stop chunk_size : Z) (k : nat) :
  0 < chunk_size →
  Z.of_nat k ≤ - ((0 - stop) `div` chunk_size) →
  ((λ i, 0 + chunk_size * i) <$> seqZ 0 (Z.of_nat k))
    ≫= (λ x, seqZ x (Z.min chunk_size (stop - x)))
  = seqZ 0 (Z.min (chunk_size * Z.of_nat k) stop).
Proof.
  intros Hsize. induction k as [|k IH]; intros Hk.
  - simpl. by rewrite seqZ_nonpos by lia.
  - replace (Z.of_nat (S k)) with (Z.of_nat k + 1) by lia.
    rewrite seqZ_app' by lia. rewrite fmap_app, bind_app, IH by lia.
    rewrite seqZ_one. cbn [fmap list_fmap mbind list_bind app].
    rewrite app_nil_r.
    assert (chunk_size * Z.of_nat k < stop) as Hbelow.
    { assert (Z.of_nat k < - ((0 - stop) `div` chunk_size)) as Hlt by lia.
      pose proof (Z.mul_div_le (0 - stop) chunk_size Hsize).
      pose proof (Z.mod_pos_bound (0 - stop) chunk_size Hsize).
      pose proof (Z.div_mod (0 - stop) chunk_size ltac:(lia)). nia. }
    rewrite (Z.min_l (chunk_size * Z.of_nat k)) by lia.
    replace (0 + Z.of_nat k) with (Z.of_nat k) by lia.
    replace (Z.min (chunk_size * (Z.of_nat k + 1)) stop)
      with (chunk_size * Z.of_nat k
            + Z.min chunk_size (stop - (0 + chunk_size * Z.of_nat k)))
      by lia.
    rewrite seqZ_app' by lia. repeat f_equal; lia.
Qed.

Lemma chunked_row (stop chunk_size : Z) :
  0 < chunk_size →
  py_range 0 stop chunk_size ≫= (λ x, seqZ x (Z.min chunk_size (stop - x)))
  = seqZ 0 stop.
Proof.
  intros Hsize. unfold py_range.
  destruct (decide (0 ≤ - ((0 - stop) `div` chunk_size))) as [Hcount|Hcount].
  - rewrite <- (Z2Nat.id (- ((0 - stop) `div` chunk_size))) at 1 by done.
    rewrite chunked_columns by lia. rewrite Z2Nat.id by done. f_equal.
    pose proof (Z.mod_pos_bound (0 - stop) chunk_size Hsize).
    pose proof (Z.div_mod (0 - stop) chunk_size ltac:(lia)). nia.
  - rewrite (seqZ_nonpos 0 (- _)) by lia. simpl.
    rewrite seqZ_nonpos; [done|].
    pose proof (Z.mod_pos_bound (0 - stop) chunk_size Hsize).
    pose proof (Z.div_mod (0 - stop) chunk_size ltac:(lia)). nia.
Qed.

Lemma iterate_all_row (x0 y0 columns : Z) :
  iterate_all (mkRegion (mkPoint x0 y0) (mkSize columns 1)) false
  = (λ xx, mkPoint xx y0) <$> seqZ x0 columns.
Proof.
  unfold iterate_all, start, end_, Point_add_size. cbn [x y position size
    width height].
  replace (y0 + 1 + 0 - y0) with 1 by lia. rewrite seqZ_one.
  cbn [mbind list_bind]. rewrite app_nil_r.
  replace (x0 + columns + 0 - x0) with columns by lia.
  induction (seqZ x0 columns) as [|xx l IH]; [done|].
  cbn [mbind list_bind fmap list_fmap app]. by rewrite <- IH.
Qed.

Lemma concat_bind_singleton {A B} (f : A → list B) (l : list A) :
  concat (l ≫= λ a, [f a]) = l ≫= f.
Proof.
  induction l as [|a l IH]; [done|].
  cbn [mbind list_bind app concat]. by rewrite <- IH.
Qed.

Lemma concat_bind {A B} (f : A → list (list B)) (l : list A) :
  concat (l ≫= f) = l ≫= (λ a, concat (f a)).
Proof.
  induction l as [|a l IH]; [done|].
  cbn [mbind list_bind]. by rewrite concat_app, <- IH.
Qed.

Lemma bind_singleton_fmap {A B} (f : A → B) (l : list A) :
  l ≫= (λ a, [f a]) = f <$> l.
Proof.
  induction l as [|a l IH]; [done|].
  cbn [mbind list_bind fmap list_fmap app]. by rewrite <- IH.
Qed.

Lemma bind_fmap_inner {A B C} (f : B → C) (g : A → list B) (l : list A) :
  l ≫= (λ a, f <$> g a) = f <$> (l ≫= g).
Proof.
  induction l as [|a l IH]; [done|].
  cbn [mbind list_bind]. by rewrite fmap_app, <- IH.
Qed.

(** The rows of a plane, one after the other: a tile is at its column plus
    the width times its row. *)
Lemma rows_lookup (columns first_row : Z) (rows i : nat) (tile : Point) :
  (seqZ first_row (Z.of_nat rows)
     ≫= λ yy, (λ xx, mkPoint xx yy) <$> seqZ 0 columns) !! i = Some tile →
  0 ≤ x tile < columns
  ∧ first_row ≤ y tile < first_row + Z.of_nat rows
  ∧ Z.of_nat i = x tile + columns * (y tile - first_row).
Proof.
  revert first_row i. induction rows as [|rows IH]; intros first_row i;
    [done|].
  replace (Z.of_nat (S rows)) with (Z.succ (Z.of_nat rows)) by lia.
  rewrite (seqZ_cons first_row (Z.succ (Z.of_nat rows))) by lia.
  rewrite Z.pred_succ. cbn [mbind list_bind].
  intros [Hrow|[Hlength Hrest]]%lookup_app_Some.
  - apply list_lookup_fmap_Some in Hrow as (xx & -> & Hxx).
    apply lookup_seqZ in Hxx as [-> Hi]. cbn [x y]. lia.
  - rewrite length_fmap, length_seqZ in Hlength, Hrest.
    apply IH in Hrest as (Hx & Hy & Hi). nia.
Qed.

(** X10. The chunks of tiles that the writer hands to its workers are the
    tiles of the plane, divided by the scale, row by row and in each row from
    the first column on: whatever the chunk size, the tiles follow each other
    in the order of the frames of a full tile index, the tile at column x and
    row y at x plus the width times y. No chunk is empty, and none has more
    tiles than the chunk size rounded down to a multiple of the minimum, or
    than the minimum when that is more. *)
Theorem chunk_tile_points_row_major (tiled_size : Size)
    (suggested_minimum_chunk_size : option Z) (chunk_size scale : Z) :
  0 < default 1 suggested_minimum_chunk_size →
  0 < scale →
  let minimum_chunk_size := default 1 suggested_minimum_chunk_size in
  let new_tiled_size := Size_truediv_int tiled_size scale in
  let chunks :=
    _chunk_tile_points tiled_size suggested_minimum_chunk_size chunk_size
      scale in
  concat chunks = iterate_all (mkRegion (mkPoint 0 0) new_tiled_size) false
  ∧ (∀ (i : nat) (tile : Point),
       concat chunks !! i = Some tile →
       0 ≤ x tile < width new_tiled_size
       ∧ 0 ≤ y tile < height new_tiled_size
       ∧ Z.of_nat i = x tile + width new_tiled_size * y tile)
  ∧ Forall (λ chunk,
              chunk ≠ []
              ∧ Z.of_nat (length chunk)
                ≤ Z.max minimum_chunk_size
                    (chunk_size `div` minimum_chunk_size
                     * minimum_chunk_size))
           chunks.
Proof.
  intros Hminimum Hscale minimum_chunk_size new_tiled_size chunks.
  set (chunk := Z.max minimum_chunk_size
                 (chunk_size `div` minimum_chunk_size * minimum_chunk_size)).
  assert (0 < chunk) as Hsize by (unfold chunk, minimum_chunk_size; lia).
  assert (concat chunks
          = seqZ 0 (height new_tiled_size)
              ≫= λ yy, (λ xx, mkPoint xx yy)
                          <$> seqZ 0 (width new_tiled_size)) as Hchunks.
  { unfold chunks, _chunk_tile_points. cbv zeta.
    fold minimum_chunk_size new_tiled_size chunk.
    rewrite concat_bind, py_range_step_one.
    apply list_bind_ext; [|done]. intros yy.
    rewrite concat_bind_singleton.
    rewrite <- (chunked_row (width new_tiled_size) chunk Hsize).
    rewrite <- bind_fmap_inner.
    apply list_bind_ext; [|done]. intros xx.
    apply iterate_all_row. }
  split_and!.
  - rewrite Hchunks. unfold iterate_all, start, end_, Point_add_size.
    cbn [x y position size width height].
    replace (0 + height new_tiled_size + 0 - 0) with (height new_tiled_size)
      by lia.
    replace (0 + width new_tiled_size + 0 - 0) with (width new_tiled_size)
      by lia.
    apply list_bind_ext; [|done]. intros yy.
    by rewrite bind_singleton_fmap.
  - intros i tile. rewrite Hchunks. clear Hchunks.
    clearbody new_tiled_size. destruct (decide (0 ≤ height new_tiled_size)) as [Hheight|Hheight].
    + rewrite <- (Z2Nat.id (height new_tiled_size)) at 1 by done.
      intros (Hx & Hy & Hi)%rows_lookup.
      rewrite Z.sub_0_r in Hi. rewrite Z2Nat.id, Z.add_0_l in Hy by done.
      done.
    + by rewrite (seqZ_nonpos 0 (height new_tiled_size)) by lia.
  - unfold chunks, _chunk_tile_points. cbv zeta.
    fold minimum_chunk_size new_tiled_size chunk.
    clear Hchunks. clearbody new_tiled_size chunk.
    apply Forall_forall. intros tiles.
    intros (yy & Htiles & _)%list_elem_of_bind.
    apply list_elem_of_bind in Htiles as (xx & Htiles & Hxx).
    apply list_elem_of_singleton in Htiles as ->.
    rewrite iterate_all_row.
    unfold py_range in Hxx.
    apply list_elem_of_fmap in Hxx as (k & -> & Hk).
    apply elem_of_seqZ in Hk.
    assert (chunk * k < width new_tiled_size) as Hbelow.
    { pose proof (Z.mod_pos_bound (0 - width new_tiled_size) chunk Hsize).
      pose proof (Z.div_mod (0 - width new_tiled_size) chunk ltac:(lia)).
      nia. }
    split.
    + intros Hempty%fmap_nil_inv.
      apply (f_equal length) in Hempty. rewrite length_seqZ in Hempty.
      simpl in Hempty. lia.
    + rewrite length_fmap, length_seqZ. lia.
Qed.

Lemma chunk_tile_points_row_major_witness :
  concat (_chunk_tile_points (mkSize 5 2) None 2 1)
  = iterate_all (mkRegion (mkPoint 0 0) (mkSize 5 2)) false
  ∧ _chunk_tile_points (mkSize 5 2) None 2 1
    = [[mkPoint 0 0; mkPoint 1 0]; [mkPoint 2 0; mkPoint 3 0]; [mkPoint 4 0];
       [mkPoint 0 1; mkPoint 1 1]; [mkPoint 2 1; mkPoint 3 1]; [mkPoint 4 1]].
Proof.
  split; [|vm_compute; reflexivity].
  apply (chunk_tile_points_row_major (mkSize 5 2) None 2 1);
    vm_compute; reflexivity.
Defined.

(** ** What reading a tile leaves *)

Lemma seek_read (position len : Z) (fp : DicomFile) :
  (seek position;; read len) fp
  = if decide (position < 0) then Err OSError
    else
      let frame :=
        take (Z.to_nat len) (drop (Z.to_nat position) (fp_data fp)) in
      Ok (frame, set_pos fp (position + Z.of_nat (length frame))).
Proof.
  unfold seek, read, mbind, st_bind, get, put, raise.
  case_decide; reflexivity.
Qed.

Lemma read_frame_rewind {F} (frame_index : Z) (a b : WsiDicomFile F) :
  rewind a = rewind b →
  fst <$> read_frame frame_index a = fst <$> read_frame frame_index b.
Proof.
  destruct a as [[data_a pos_a le_a vr_a] ? ? ? ?],
           b as [[data_b pos_b le_b vr_b] ? ? ? ?].
  unfold rewind, set_fp, set_pos. simpl. intros [= -> -> -> -> -> -> ->].
  unfold read_frame, File_get_filepointer. simpl.
  destruct (py_getitem _ _) as [[position len]|e]; [|done]. simpl.
  rewrite !seek_read. case_decide; done.
Qed.

Lemma read_frame_leaves {F} (frame_index : Z) (a a' : WsiDicomFile F)
    (frame : bytes) :
  read_frame frame_index a = Ok (frame, a') → rewind a' = rewind a.
Proof.
  destruct a as [[data_a pos_a le_a vr_a] ? ? ? ?].
  unfold read_frame, File_get_filepointer. simpl.
  destruct (py_getitem _ _) as [[position len]|e]; [|done]. simpl.
  rewrite seek_read. case_decide; [done|]. by intros [= <- <-].
Qed.

Lemma dict_set_rewind {F} (files : list (Z * WsiDicomFile F)) (key : Z)
    (file file' : WsiDicomFile F) :
  NoDup files.*1 → (key, file) ∈ files → rewind file' = rewind file →
  (λ item, (item.1, rewind item.2)) <$> dict_set files key file'
  = (λ item, (item.1, rewind item.2)) <$> files.
Proof.
  intros Hkeys Hin Hrewind.
  induction files as [|[key0 file0] files IH]; [by apply elem_of_nil in Hin|].
  cbn [fmap list_fmap fst] in Hkeys. apply NoDup_cons in Hkeys as [Hkey0 Hkeys].
  cbn [dict_set]. destruct (decide (key = key0)) as [->|Hne].
  - apply elem_of_cons in Hin as [[= ->]|Hin].
    + cbn [fmap list_fmap fst snd]. by rewrite Hrewind.
    + destruct Hkey0. apply list_elem_of_fmap. by exists (key0, file).
  - apply elem_of_cons in Hin as [[= -> _]|Hin]; [done|].
    cbn [fmap list_fmap]. f_equal. by apply IH.
Qed.

Lemma cons_pair_eq {A B} (a a' : A) (b b' : B) (l l' : list (A * B)) :
  (a, b) :: l = (a', b') :: l' → a = a' ∧ b = b' ∧ l = l'.
Proof. by intros [= -> -> ->]. Qed.

Section tile_reads.
Context `{Float F} `{Pillow Image}.
Implicit Types (self a b : WsiDicomImageData F Image).

Lemma at_rest_files_keys self : (_files (at_rest self)).*1 = (_files self).*1.
Proof.
  cbn [at_rest _files]. rewrite <- list_fmap_compose.
  by apply list_fmap_ext.
Qed.

Lemma get_file_at_rest a b (frame_index : Z) :
  _files (at_rest a) = _files (at_rest b) →
  match _get_file a frame_index, _get_file b frame_index with
  | Ok (key_a, file_a), Ok (key_b, file_b) =>
      key_a = key_b ∧ rewind file_a = rewind file_b
      ∧ (key_a, file_a) ∈ _files a
  | Err e_a, Err e_b => e_a = e_b
  | _, _ => False
  end.
Proof.
  unfold _get_file. cbn [at_rest _files].
  generalize (_files a) (_files b). clear a b.
  assert (∀ (files_a files_b : list (Z * WsiDicomFile F)) (n : nat),
            (λ item, (item.1, rewind item.2)) <$> files_a
            = (λ item, (item.1, rewind item.2)) <$> files_b →
            match
              list_find
                (λ item : Z * WsiDicomFile F,
                   (frame_index < item.1 + file_frame_count item.2
                    ∧ frame_index >= item.1)%Z) files_a,
              list_find
                (λ item : Z * WsiDicomFile F,
                   (frame_index < item.1 + file_frame_count item.2
                    ∧ frame_index >= item.1)%Z) files_b
            with
            | Some (i_a, (key_a, file_a)), Some (i_b, (key_b, file_b)) =>
                key_a = key_b ∧ rewind file_a = rewind file_b
                ∧ (key_a, file_a) ∈ files_a
            | None, None => True
            | _, _ => False
            end) as Hfind.
  { induction files_a as [|[key_a file_a] files_a IH];
      intros [|[key_b file_b] files_b] n; try done.
    cbn [fmap list_fmap fst snd].
    intros (-> & Hrewind & Hfiles)%cons_pair_eq.
    assert (file_frame_count file_a = file_frame_count file_b) as Hcount
      by apply (f_equal file_frame_count Hrewind).
    cbn [list_find fst snd]. rewrite Hcount.
    destruct (decide _) as [Hholds|Hholds]; cbn [fmap option_fmap option_map].
    { split; [done|]. split; [done|]. by left. }
    specialize (IH files_b n Hfiles).
    destruct (list_find _ files_a) as [[i_a [key_a file_a']]|],
             (list_find _ files_b) as [[i_b [key_b' file_b']]|];
      cbn [fmap option_fmap option_map prod_map]; try done.
    destruct IH as (? & ? & ?). split; [done|]. split; [done|]. by right. }
  intros files_a files_b Hfiles. specialize (Hfind files_a files_b 0%nat Hfiles).
  destruct (list_find _ files_a) as [[i_a [key_a file_a]]|],
           (list_find _ files_b) as [[i_b [key_b file_b]]|];
    cbn [fmap option_fmap option_map snd or_raise]; done.
Qed.

Lemma get_frame_index_at_rest a b (tile : Point) (z : F) (path : string) :
  at_rest a = at_rest b →
  _get_frame_index a tile z path = _get_frame_index b tile z path.
Proof.
  intros Hrest.
  change (_get_frame_index (at_rest a) tile z path
          = _get_frame_index (at_rest b) tile z path).
  by rewrite Hrest.
Qed.

Lemma create_blank_tile_at_rest a b :
  at_rest a = at_rest b → _create_blank_tile a = _create_blank_tile b.
Proof.
  intros Hrest.
  change (_create_blank_tile (at_rest a) = _create_blank_tile (at_rest b)).
  by rewrite Hrest.
Qed.

Lemma encode_at_rest a b (image : Image) :
  at_rest a = at_rest b → encode a image = encode b image.
Proof.
  intros Hrest. change (encode (at_rest a) image = encode (at_rest b) image).
  by rewrite Hrest.
Qed.

Lemma image_region_at_rest a b :
  at_rest a = at_rest b → image_region a = image_region b.
Proof.
  intros Hrest. change (image_region (at_rest a) = image_region (at_rest b)).
  by rewrite Hrest.
Qed.

Lemma tile_size_at_rest a b :
  at_rest a = at_rest b → ImageData_tile_size a = ImageData_tile_size b.
Proof.
  intros Hrest.
  change (ImageData_tile_size (at_rest a) = ImageData_tile_size (at_rest b)).
  by rewrite Hrest.
Qed.

Lemma blank_tiles_kept_at_rest a b :
  at_rest a = at_rest b →
  _blank_tile a = _blank_tile b →
  _encoded_blank_tile a = _encoded_blank_tile b →
  blank_tiles_kept a → blank_tiles_kept b.
Proof.
  intros Hrest Hblank Hencoded [Himage Hframe]. split.
  - intros image. rewrite <- Hblank, <- (create_blank_tile_at_rest a b Hrest).
    apply Himage.
  - intros frame.
    rewrite <- Hencoded, <- (create_blank_tile_at_rest a b Hrest).
    intros Hkept%Hframe.
    destruct (_create_blank_tile a) as [image|e]; [|done].
    cbn [mbind result_bind] in *. by rewrite <- (encode_at_rest a b).
Qed.

Lemma get_tile_frame_at_rest a b (frame_index : Z) :
  at_rest a = at_rest b →
  fst <$> _get_tile_frame frame_index a
  = fst <$> _get_tile_frame frame_index b.
Proof.
  intros Hrest. unfold _get_tile_frame.
  pose proof (get_file_at_rest a b frame_index (f_equal _files Hrest))
    as Hfile.
  destruct (_get_file a frame_index) as [[key_a file_a]|e_a],
           (_get_file b frame_index) as [[key_b file_b]|e_b];
    cbn [mbind result_bind]; [|done|done|by subst].
  destruct Hfile as (-> & Hrewind & _).
  pose proof (read_frame_rewind frame_index file_a file_b Hrewind) as Hframe.
  destruct (read_frame frame_index file_a) as [[frame_a file_a']|?],
           (read_frame frame_index file_b) as [[frame_b file_b']|?];
    cbn [mbind result_bind fmap result_fmap fst] in *; congruence.
Qed.

Lemma get_tile_frame_leaves a a' (frame_index : Z) (frame : bytes) :
  NoDup (_files a).*1 →
  _get_tile_frame frame_index a = Ok (frame, a') →
  at_rest a' = at_rest a
  ∧ _blank_tile a' = _blank_tile a
  ∧ _encoded_blank_tile a' = _encoded_blank_tile a.
Proof.
  intros Hkeys. unfold _get_tile_frame.
  pose proof (get_file_at_rest a a frame_index eq_refl) as Hfile.
  destruct (_get_file a frame_index) as [[key file]|e];
    cbn [mbind result_bind]; [|done].
  destruct Hfile as (_ & _ & Hin).
  destruct (read_frame frame_index file) as [[frame' file']|?] eqn:Hread;
    cbn [mbind result_bind]; [|done].
  intros [= <- <-]. apply read_frame_leaves in Hread.
  split; [|done]. unfold at_rest, set_files.
  cbn [_files tiles _transfer_syntax _photometric_interpretation
       _samples_per_pixel].
  f_equal. by apply dict_set_rewind with file.
Qed.

Lemma blank_tile_value a :
  blank_tiles_kept a → fst <$> blank_tile a = _create_blank_tile a.
Proof.
  intros [Himage _]. unfold blank_tile.
  destruct (_blank_tile a) as [image|]; [by rewrite (Himage image)|].
  by destruct (_create_blank_tile a).
Qed.

Lemma blank_tile_leaves a a' (image : Image) :
  blank_tiles_kept a → blank_tile a = Ok (image, a') →
  at_rest a' = at_rest a ∧ blank_tiles_kept a'.
Proof.
  intros Hkept. unfold blank_tile.
  destruct (_blank_tile a) as [image'|] eqn:Hblank;
    [by intros [= <- <-]|].
  destruct (_create_blank_tile a) as [image'|e] eqn:Hcreate;
    cbn [mbind result_bind]; [|done].
  intros [= <- <-]. split; [done|]. destruct Hkept as [_ Hframe].
  split; [|exact Hframe]. intros image. cbn [set_blank_tile _blank_tile].
  intros [= <-]. exact Hcreate.
Qed.

Lemma blank_encoded_tile_value a :
  blank_tiles_kept a →
  fst <$> blank_encoded_tile a
  = (image ← _create_blank_tile a; encode a image).
Proof.
  intros Hkept. unfold blank_encoded_tile.
  destruct (_encoded_blank_tile a) as [frame|] eqn:Hencoded.
  { destruct Hkept as [_ Hframe]. by rewrite (Hframe frame). }
  pose proof (blank_tile_value a Hkept) as Hvalue.
  destruct (blank_tile a) as [[image a']|e] eqn:Hblank;
    cbn [fmap result_fmap fst] in Hvalue; rewrite <- Hvalue;
    cbn [mbind result_bind]; [|done].
  apply blank_tile_leaves in Hblank as [Hrest _]; [|done].
  rewrite (encode_at_rest a' a image Hrest).
  by destruct (encode a image).
Qed.

Lemma blank_encoded_tile_leaves a a' (frame : bytes) :
  blank_tiles_kept a → blank_encoded_tile a = Ok (frame, a') →
  at_rest a' = at_rest a ∧ blank_tiles_kept a'.
Proof.
  intros Hkept. unfold blank_encoded_tile.
  destruct (_encoded_blank_tile a) as [frame'|] eqn:Hencoded;
    [by intros [= <- <-]|].
  pose proof (blank_tile_value a Hkept) as Hvalue.
  destruct (blank_tile a) as [[image a1]|e] eqn:Hblank;
    cbn [mbind result_bind]; [|done].
  cbn [fmap result_fmap fst] in Hvalue.
  apply blank_tile_leaves in Hblank as [Hrest [Himage Hframe]]; [|done].
  destruct (encode a1 image) as [frame'|e] eqn:Hencode;
    cbn [mbind result_bind]; [|done].
  intros [= <- <-]. split; [exact Hrest|]. split; [exact Himage|].
  intros frame''. cbn [set_encoded_blank_tile _encoded_blank_tile].
  intros [= <-].
  change (_create_blank_tile (set_encoded_blank_tile a1 frame'))
    with (_create_blank_tile a1).
  rewrite (create_blank_tile_at_rest a1 a Hrest), <- Hvalue.
  cbn [mbind result_bind]. exact Hencode.
Qed.

Lemma get_encoded_tile_at_rest a b (tile : Point) (z : F) (path : string) :
  at_rest a = at_rest b → blank_tiles_kept a → blank_tiles_kept b →
  fst <$> _get_encoded_tile tile z path a
  = fst <$> _get_encoded_tile tile z path b.
Proof.
  intros Hrest Hkept_a Hkept_b. unfold _get_encoded_tile.
  rewrite !st_get_step.
  rewrite (get_frame_index_at_rest a b tile z path Hrest).
  destruct (_get_frame_index b tile z path) as [frame_index|e]; [|done].
  rewrite !st_lift_step. case_decide.
  - rewrite !blank_encoded_tile_value by done.
    rewrite (create_blank_tile_at_rest a b Hrest).
    destruct (_create_blank_tile b) as [image|e]; [|done].
    cbn [mbind result_bind]. by apply encode_at_rest.
  - by apply get_tile_frame_at_rest.
Qed.

Lemma get_encoded_tile_leaves a a' (tile : Point) (z : F) (path : string)
    (frame : bytes) :
  NoDup (_files a).*1 → blank_tiles_kept a →
  _get_encoded_tile tile z path a = Ok (frame, a') →
  at_rest a' = at_rest a ∧ blank_tiles_kept a'.
Proof.
  intros Hkeys Hkept. unfold _get_encoded_tile. rewrite st_get_step.
  destruct (_get_frame_index a tile z path) as [frame_index|e]; [|done].
  rewrite st_lift_step. case_decide.
  - by apply blank_encoded_tile_leaves.
  - intros (Hrest & Hblank & Hencoded)%get_tile_frame_leaves; [|done].
    split; [done|]. by apply (blank_tiles_kept_at_rest a a').
Qed.

Lemma get_decoded_tile_at_rest a b (tile : Point) (z : F) (path : string) :
  at_rest a = at_rest b → blank_tiles_kept a → blank_tiles_kept b →
  fst <$> _get_decoded_tile tile z path a
  = fst <$> _get_decoded_tile tile z path b.
Proof.
  intros Hrest Hkept_a Hkept_b. unfold _get_decoded_tile.
  rewrite !st_get_step.
  rewrite (get_frame_index_at_rest a b tile z path Hrest).
  destruct (_get_frame_index b tile z path) as [frame_index|e]; [|done].
  rewrite !st_lift_step. case_decide.
  - rewrite !blank_tile_value by done.
    by apply create_blank_tile_at_rest.
  - pose proof (get_tile_frame_at_rest a b frame_index Hrest) as Hframe.
    unfold mbind, st_bind.
    destruct (_get_tile_frame frame_index a) as [[frame_a a']|?],
             (_get_tile_frame frame_index b) as [[frame_b b']|?];
      cbn [fmap result_fmap fst mret st_ret] in *; congruence.
Qed.

Lemma get_decoded_tile_leaves a a' (tile : Point) (z : F) (path : string)
    (image : Image) :
  NoDup (_files a).*1 → blank_tiles_kept a →
  _get_decoded_tile tile z path a = Ok (image, a') →
  at_rest a' = at_rest a ∧ blank_tiles_kept a'.
Proof.
  intros Hkeys Hkept. unfold _get_decoded_tile. rewrite st_get_step.
  destruct (_get_frame_index a tile z path) as [frame_index|e]; [|done].
  rewrite st_lift_step. case_decide.
  - by apply blank_tile_leaves.
  - intros (frame & a1 & Hframe & [= <- <-])%st_bind_Ok.
    apply get_tile_frame_leaves in Hframe as (Hrest & Hblank & Hencoded);
      [|done].
    split; [done|]. by apply (blank_tiles_kept_at_rest a a1).
Qed.

Lemma st_bind_Err {S A B} (m : st S A) (f : A → st S B) (s : S) (e : error) :
  m s = Err e → (m ≫= f) s = Err e.
Proof. intros Hm. unfold mbind, st_bind. by rewrite Hm. Qed.

Lemma get_tile_at_rest a b (tile : Point) (z : F) (path : string)
    (crop : crop_arg) :
  at_rest a = at_rest b →
  NoDup (_files a).*1 → NoDup (_files b).*1 →
  blank_tiles_kept a → blank_tiles_kept b →
  fst <$> get_tile tile z path crop a = fst <$> get_tile tile z path crop b.
Proof.
  intros Hrest Hkeys_a Hkeys_b Hkept_a Hkept_b.
  pose proof (get_decoded_tile_at_rest a b tile z path Hrest Hkept_a Hkept_b)
    as Hdecoded.
  unfold get_tile.
  destruct (_get_decoded_tile tile z path a) as [[image_a a']|e_a] eqn:Ha,
           (_get_decoded_tile tile z path b) as [[image_b b']|e_b] eqn:Hb;
    cbn [fmap result_fmap fst] in Hdecoded; try done.
  - injection Hdecoded as ->.
    rewrite (st_bind_step _ _ _ _ _ Ha), (st_bind_step _ _ _ _ _ Hb).
    apply get_decoded_tile_leaves in Ha as [Hrest_a _]; [|done|done].
    apply get_decoded_tile_leaves in Hb as [Hrest_b _]; [|done|done].
    assert (at_rest a' = at_rest b') as Hrest' by congruence.
    destruct crop as [[]|region]; [|done|]; rewrite !st_get_step;
      rewrite ?(image_region_at_rest a' b' Hrest'),
              (tile_size_at_rest a' b' Hrest');
      by case_decide.
  - rewrite (st_bind_Err _ _ _ _ Ha), (st_bind_Err _ _ _ _ Hb).
    by injection Hdecoded as ->.
Qed.

Lemma get_tile_leaves a a' (tile : Point) (z : F) (path : string)
    (crop : crop_arg) (image : Image) :
  NoDup (_files a).*1 → blank_tiles_kept a →
  get_tile tile z path crop a = Ok (image, a') →
  at_rest a' = at_rest a ∧ blank_tiles_kept a'.
Proof.
  intros Hkeys Hkept. unfold get_tile.
  intros (decoded & a1 & Hdecoded & Hcrop)%st_bind_Ok.
  apply get_decoded_tile_leaves in Hdecoded as [Hrest Hkept1]; [|done|done].
  assert (a' = a1) as ->; [|done].
  destruct crop as [[]|region]; [|by injection Hcrop| ];
    rewrite st_get_step in Hcrop; case_decide; by injection Hcrop.
Qed.

Lemma get_encoded_tile_crop_at_rest a b (tile : Point) (z : F)
    (path : string) (crop : crop_arg) :
  at_rest a = at_rest b →
  NoDup (_files a).*1 → NoDup (_files b).*1 →
  blank_tiles_kept a → blank_tiles_kept b →
  fst <$> get_encoded_tile tile z path crop a
  = fst <$> get_encoded_tile tile z path crop b.
Proof.
  intros Hrest Hkeys_a Hkeys_b Hkept_a Hkept_b.
  pose proof (get_encoded_tile_at_rest a b tile z path Hrest Hkept_a Hkept_b)
    as Hencoded.
  unfold get_encoded_tile.
  destruct (_get_encoded_tile tile z path a) as [[frame_a a']|e_a] eqn:Ha,
           (_get_encoded_tile tile z path b) as [[frame_b b']|e_b] eqn:Hb;
    cbn [fmap result_fmap fst] in Hencoded; try done.
  - injection Hencoded as ->.
    rewrite (st_bind_step _ _ _ _ _ Ha), (st_bind_step _ _ _ _ _ Hb).
    apply get_encoded_tile_leaves in Ha as [Hrest_a _]; [|done|done].
    apply get_encoded_tile_leaves in Hb as [Hrest_b _]; [|done|done].
    assert (at_rest a' = at_rest b') as Hrest' by congruence.
    destruct crop as [[]|region]; [|done|]; rewrite !st_get_step;
      rewrite ?(image_region_at_rest a' b' Hrest'),
              (tile_size_at_rest a' b' Hrest');
      (case_decide; [|done]);
      rewrite (encode_at_rest a' b' _ Hrest');
      unfold lift; by destruct (encode b' _).
  - rewrite (st_bind_Err _ _ _ _ Ha), (st_bind_Err _ _ _ _ Hb).
    by injection Hencoded as ->.
Qed.

Lemma get_encoded_tile_crop_leaves a a' (tile : Point) (z : F)
    (path : string) (crop : crop_arg) (frame : bytes) :
  NoDup (_files a).*1 → blank_tiles_kept a →
  get_encoded_tile tile z path crop a = Ok (frame, a') →
  at_rest a' = at_rest a ∧ blank_tiles_kept a'.
Proof.
  intros Hkeys Hkept. unfold get_encoded_tile.
  intros (encoded & a1 & Hencoded & Hcrop)%st_bind_Ok.
  apply get_encoded_tile_leaves in Hencoded as [Hrest Hkept1]; [|done|done].
  assert (a' = a1) as ->; [|done].
  destruct crop as [[]|region]; [|by injection Hcrop| ];
    rewrite st_get_step in Hcrop;
    (case_decide; [|by injection Hcrop]);
    by apply lift_Ok in Hcrop as [_ ->].
Qed.

Lemma OrderedDict_NoDup {V} (items : list (Z * V)) :
  NoDup (OrderedDict items).*1.
Proof.
  unfold OrderedDict.
  assert (∀ d : list (Z * V),
            NoDup d.*1 →
            NoDup (foldl (λ d '(k, v), dict_set d k v) d items).*1) as Hgen.
  { induction items as [|[k v] items IH]; intros d Hd; [done|].
    cbn [foldl]. apply IH. by apply dict_set_NoDup. }
  apply Hgen. constructor.
Qed.

Lemma WsiDicomImageData_init_at_rest (files : list (WsiDicomFile F))
    (transfer_syntax : string) self :
  WsiDicomImageData_init files transfer_syntax = Ok self →
  NoDup (_files self).*1 ∧ blank_tiles_kept self.
Proof.
  unfold WsiDicomImageData_init.
  intros (base_file & _ & (tiles & _ & (first & _ & [= <-])%bind_Ok)%bind_Ok)
    %bind_Ok.
  cbn [_files]. split; [apply OrderedDict_NoDup|]. by split.
Qed.

(** X11. Reading tiles from an instance changes nothing but the positions in
    its files and the blank tiles that it keeps: after any number of tiles
    were read with get_tile and get_encoded_tile, every tile is read as it
    is from the instance as it was built, with the same image or bytes or
    with the same error. *)
Theorem tile_reads_do_not_interfere (files : list (WsiDicomFile F))
    (transfer_syntax : string) (self0 self : WsiDicomImageData F Image) :
  WsiDicomImageData_init files transfer_syntax = Ok self0 →
  after_reads self0 self →
  at_rest self = at_rest self0
  ∧ ∀ (tile : Point) (z : F) (path : string) (crop : crop_arg),
      fst <$> get_tile tile z path crop self
      = fst <$> get_tile tile z path crop self0
      ∧ fst <$> get_encoded_tile tile z path crop self
        = fst <$> get_encoded_tile tile z path crop self0.
Proof.
  intros [Hkeys0 Hkept0]%WsiDicomImageData_init_at_rest Hreads.
  assert (at_rest self = at_rest self0 ∧ blank_tiles_kept self)
    as [Hrest Hkept].
  { induction Hreads as [|self1 self2 tile z path crop image _ IH Hread
                         |self1 self2 tile z path crop frame _ IH Hread];
      [done| |]; destruct IH as [Hrest1 Hkept1].
    - apply get_tile_leaves in Hread as [Hrest2 Hkept2]; [|..|done].
      + split; [congruence|done].
      + by rewrite <- at_rest_files_keys, Hrest1, at_rest_files_keys.
    - apply get_encoded_tile_crop_leaves in Hread as [Hrest2 Hkept2];
        [|..|done].
      + split; [congruence|done].
      + by rewrite <- at_rest_files_keys, Hrest1, at_rest_files_keys. }
  assert (NoDup (_files self).*1) as Hkeys
    by (by rewrite <- at_rest_files_keys, Hrest, at_rest_files_keys).
  split; [done|]. intros tile z path crop.
  split; [by apply get_tile_at_rest|by apply get_encoded_tile_crop_at_rest].
Qed.

End tile_reads.

Lemma tile_reads_do_not_interfere_witness :
  ∃ (self0 self : WsiDicomImageData Z Size) (frame : bytes),
    WsiDicomImageData_init example_part_files JPEGBaseline8Bit = Ok self0
    ∧ get_encoded_tile (mkPoint 1 1) 0 "0" (CropBool false) self0
      = Ok (frame, self)
    ∧ self ≠ self0
    ∧ fst <$> get_encoded_tile (mkPoint 0 0) 0 "0" (CropBool false) self
      = fst <$> get_encoded_tile (mkPoint 0 0) 0 "0" (CropBool false) self0.
Proof.
  eexists _, _, _.
  split; [vm_compute; reflexivity|]. split; [vm_compute; reflexivity|].
  split; [vm_compute; discriminate|].
  match goal with
  | |- fst <$> _ ?self = fst <$> _ ?self0 =>
      destruct (@tile_reads_do_not_interfere Z Z_Float Size Size_Pillow
                  example_part_files JPEGBaseline8Bit self0 self)
        as [_ Hsame]
  end.
  - vm_compute; reflexivity.
  - eapply (after_get_encoded_tile _ _ _ (mkPoint 1 1) 0 "0"%string
              (CropBool false) example_tile); [apply after_no_read|].
    vm_compute; reflexivity.
  - apply Hsame.
Defined.

(** ** Tiles that were written, read by their coordinates *)

Section written_instance.
Context `{Float F} `{Pillow Image}.

(** X12. Tiles that the writer wrote in the order of the frames of a full
    tile index are read back by their coordinates: in the instance of the
    one file that is opened on the written pixel data, the tile at (x, y),
    on the focal plane at list index z_idx and the optical path at list
    index path_idx, is the tile that was written as number
    x + W*y + z_idx*W*H + path_idx*P*W*H, with the zero byte that pads a
    tile of odd length. *)
Theorem written_tiles_read_by_coordinate (data : bytes)
    (offset_table : option string) (frames : list bytes)
    (dataset : WsiDataset F) (index : FullTileIndex F)
    (transfer_syntax : string) :
  offset_table = None ∨ offset_table = Some "bot"%string
  ∨ offset_table = Some "eot"%string →
  frame_count dataset = Z.of_nat (length frames) →
  Forall (λ tile, tile ≠ [] ∧ Z.of_nat (length (fragment tile)) < 2 ^ 32)
         frames →
  8 * Z.of_nat (length frames) < 2 ^ 32 →
  (offset_table ≠ None → frames ≠ []) →
  (offset_table = Some "bot"%string →
   Z.of_nat (length (item_bytes frames)) < 2 ^ 32) →
  (offset_table = Some "eot"%string →
   Z.of_nat (length (item_bytes frames)) < 2 ^ 64) →
  tile_type dataset = "TILED_FULL"%string →
  frame_offset dataset = 0 →
  FullTileIndex_init [dataset] = Ok index →
  ∃ fp file (self : WsiDicomImageData F Image),
    write_pixel_data (frame_count dataset) offset_table frames
      (writer_file data) = Ok ((), fp)
    ∧ WsiDicomFile_init (set_pos fp (Z.of_nat (length data))) dataset
      = Ok file
    ∧ WsiDicomImageData_init [file] transfer_syntax = Ok self
    ∧ ∀ (tile : Point) (z : F) (path : string) (z_idx path_idx : nat)
        (frame : bytes),
        valid_full_input index tile z path →
        full_focal_planes index !! z_idx = Some z →
        _optical_paths (full_base index) !! path_idx = Some path →
        frames !! Z.to_nat
                   (x tile + width (_tiled_size (full_base index)) * y tile
                    + Z.of_nat z_idx * area (_tiled_size (full_base index))
                    + Z.of_nat path_idx
                      * Z.of_nat (length (full_focal_planes index))
                      * area (_tiled_size (full_base index)))
        = Some frame →
        ∃ self',
          _get_encoded_tile tile z path self = Ok (fragment frame, self').
Proof.
  intros Htable Hcount Htiles Hn Hne Hbot Heot Htype Hoffset Hindex.
  destruct (write_pixel_data_bytes data offset_table frames Htable Hn Hne
              Hbot Heot) as [pos Hwrite].
  destruct (parse_pixel_data_written data [] offset_table frames Htable
              Htiles Hn Hne Hbot Heot)
    as (first & pos' & Hfirst & Hdrop & Hparse).
  rewrite app_nil_r in Hdrop, Hparse.
  destruct (FullTileIndex_init_NoDup _ _ Hindex) as [Hplanes Hpaths].
  rewrite Hcount.
  eexists _, _, _. split; [exact Hwrite|].
  unfold WsiDicomFile_init. rewrite Hcount.
  change (set_pos (le_file ?d pos) ?p) with (le_file d p).
  rewrite Hparse. cbn [mbind result_bind].
  split; [done|].
  unfold WsiDicomImageData_init.
  cbn [sorted foldl insert_sorted fmap list_fmap OrderedDict dict_set lookup
       list_lookup or_raise mbind result_bind file_dataset snd].
  rewrite decide_True by done. rewrite Hindex.
  cbn [fmap result_fmap mbind result_bind].
  split; [done|].
  intros tile z path z_idx path_idx frame Hvalid Hz Hpath Hframe.
  set (frame_index :=
         x tile + width (_tiled_size (full_base index)) * y tile
         + Z.of_nat z_idx * area (_tiled_size (full_base index))
         + Z.of_nat path_idx * Z.of_nat (length (full_focal_planes index))
           * area (_tiled_size (full_base index))) in *.
  assert (0 ≤ frame_index) as Hnonneg.
  { destruct Hvalid as (Hx & Hy & _). unfold frame_index, area.
    clear frame_index Hframe.
    generalize dependent (width (_tiled_size (full_base index))).
    generalize dependent (height (_tiled_size (full_base index))).
    intros rows Hy columns Hx.
    assert (0 ≤ columns * y tile) by nia.
    assert (0 ≤ columns * rows) by nia.
    assert (0 ≤ Z.of_nat z_idx * (columns * rows))
      by (apply Z.mul_nonneg_nonneg; lia).
    assert (0 ≤ Z.of_nat path_idx
                * Z.of_nat (length (full_focal_planes index))
                * (columns * rows))
      by (apply Z.mul_nonneg_nonneg; [apply Z.mul_nonneg_nonneg|]; lia).
    lia. }
  assert (frame_index < Z.of_nat (length frames)) as Hbelow.
  { apply lookup_lt_Some in Hframe. lia. }
  unfold _get_encoded_tile. rewrite st_get_step.
  match goal with
  | |- ∃ self', (lift (_get_frame_index ?self _ _ _) ≫= _) _ = _ =>
      assert (_get_frame_index self tile z path = Ok frame_index) as ->
  end.
  { unfold _get_frame_index.
    match goal with
    | |- (if negb (valid_tiles ?self ?r z path) then _ else _) = _ =>
        assert (valid_tiles self r z path = true) as ->
    end.
    { apply valid_tiles_single.
      unfold tiled_size, ImageData_image_size, ImageData_tile_size,
        focal_planes, optical_paths.
      cbn [tiles tiles_base tiles_focal_planes].
      assert (_tiled_size (full_base index)
              = Size_truediv (_image_size (full_base index))
                             (_tile_size (full_base index))) as <-.
      { unfold FullTileIndex_init in Hindex.
        apply bind_Ok in Hindex as (base & Hbase & Hindex).
        apply bind_Ok in Hindex as (planes & _ & [= <-]).
        cbn [full_base]. by eapply TileIndex_init_tiled_size. }
      exact Hvalid. }
    cbn [negb tiles tiles_get_frame_index].
    by apply Full_get_frame_index_formula. }
  rewrite st_lift_step. rewrite decide_False by lia.
  unfold _get_tile_frame, _get_file.
  cbn [_files list_find fst snd file_frame_count].
  rewrite ?Hoffset, ?Hcount. cbn [file_frame_offset].
  rewrite decide_True by lia.
  cbn [fmap option_fmap option_map or_raise mbind result_bind snd].
  destruct (frame_layout_at _ _ _ _ _ _ Hfirst Hdrop Hframe)
    as (position & Hlayout & Hposition & Hbytes).
  unfold read_frame, File_get_filepointer.
  cbn [file_frame_offset file_frame_positions _fp].
  rewrite ?Hoffset, Z.sub_0_r.
  unfold py_getitem. rewrite decide_True by lia.
  rewrite Hlayout. cbn [or_raise mbind result_bind].
  rewrite (st_bind_step _ _ _ _ _ (seek_le_file _ _ position Hposition)).
  destruct (read_le_file _ _ _ position
              (Z.of_nat (length (fragment frame))) Hposition Hbytes eq_refl)
    as [Hread _].
  rewrite Hread. by eexists.
Qed.

End written_instance.

Lemma written_tiles_read_by_coordinate_witness :
  ∃ fp (file : WsiDicomFile Z) (self self' : WsiDicomImageData Z Size),
    write_pixel_data 4 (Some "bot"%string)
      [example_tile; [x01; x04; x00; x04]; [x02; x04; x00; x04];
       [x03; x04; x00]]
      (writer_file []) = Ok ((), fp)
    ∧ WsiDicomFile_init (set_pos fp 0) example_stitch_dataset = Ok file
    ∧ WsiDicomImageData_init [file] JPEGBaseline8Bit = Ok self
    ∧ _get_encoded_tile (mkPoint 1 1) 0 "0" self
      = Ok ([x03; x04; x00; x00], self').
Proof.
  assert (∃ index, FullTileIndex_init [example_stitch_dataset] = Ok index)
    as [index Hindex] by (eexists; vm_compute; reflexivity).
  destruct (@written_tiles_read_by_coordinate Z Z_Float Size Size_Pillow []
              (Some "bot"%string)
              [example_tile; [x01; x04; x00; x04]; [x02; x04; x00; x04];
               [x03; x04; x00]]
              example_stitch_dataset index JPEGBaseline8Bit)
    as (fp & file & self & Hwrite & Hinit & Hself & Hread).
  - right; left; reflexivity.
  - reflexivity.
  - repeat constructor; (discriminate || (vm_compute; reflexivity)).
  - vm_compute; reflexivity.
  - intros _; discriminate.
  - intros _; vm_compute; reflexivity.
  - intros [=].
  - reflexivity.
  - reflexivity.
  - exact Hindex.
  - vm_compute in Hindex. injection Hindex as <-.
    destruct (Hread (mkPoint 1 1) 0 "0"%string 0%nat 0%nat [x03; x04; x00])
      as [self' Htile].
    + unfold valid_full_input. cbn. split_and!; [lia..|by left|by left].
    + reflexivity.
    + reflexivity.
    + reflexivity.
    + exists fp, file, self, self'. split; [exact Hwrite|].
      split; [exact Hinit|]. split; [exact Hself|]. exact Htile.
Defined.
